(** * The NES core: 6502 CPU, 2C02 PPU and the CPU bus

    A shallow embedding of [NES/src/6502.c], [NES/src/Backend/2C02.c] and
    [NES/src/Backend/6502_Bus.c].  Machine integers are [Z] with the
    wrap-around of every assignment written out, C arrays are lists, and a
    call whose behaviour the C text leaves undefined yields [None]. *)

From stdpp Require Import base option list.
From Stdlib Require Import ZArith Lia Bool.
From Stdlib Require String.

Local Open Scope Z_scope.

(** ** Machine integers *)

Module Bits.

(** Conversion to [uint8_t] and [uint16_t]. *)
Definition u8 (z : Z) : Z := z mod 256.
Definition u16 (z : Z) : Z := z mod 65536.

(** Conversion to [uint32_t], and to [int8_t]. *)
Definition u32 (z : Z) : Z := z mod 4294967296.
Definition s8 (z : Z) : Z := if u8 z <? 128 then u8 z else u8 z - 256.

(** The value of a C comparison, and of [!e]. *)
Definition of_bool (b : bool) : Z := if b then 1 else 0.
Definition lnot_c (z : Z) : Z := of_bool (z =? 0).

(** A condition [if (e)] on an integer. *)
Definition truthy (z : Z) : bool := negb (z =? 0).

(** Bit-fields of a register byte, for the [reg]/[flags] unions: a field
    of [width] bits that starts at bit [pos].  A store into an unsigned
    bit-field keeps the low [width] bits of the value. *)
Definition field (pos width reg : Z) : Z :=
  Z.land (Z.shiftr reg pos) (Z.ones width).

Definition set_field (pos width val reg : Z) : Z :=
  Z.lor (Z.land reg (Z.lnot (Z.shiftl (Z.ones width) pos)))
        (Z.shiftl (Z.land val (Z.ones width)) pos).

End Bits.
Import Bits.

(** ** The 2C02 picture processing unit ([2C02.c]) *)

Module Ppu2C02.

Record color := RGB { red : Z; green : Z; blue : Z }.

(** Maps a 6 bit HSV color into RGB. *)
Definition PALETTE_MAP : list color :=
  [ RGB 84 84 84; RGB 0 30 116; RGB 8 16 144; RGB 48 0 136;
    RGB 68 0 100; RGB 92 0 48; RGB 84 4 0; RGB 60 24 0;
    RGB 32 42 0; RGB 8 58 0; RGB 0 64 0; RGB 0 60 0;
    RGB 0 50 60; RGB 0 0 0; RGB 0 0 0; RGB 0 0 0;
    RGB 152 150 152; RGB 8 76 196; RGB 48 50 236; RGB 92 30 228;
    RGB 136 20 176; RGB 160 20 100; RGB 152 34 32; RGB 120 60 0;
    RGB 84 90 0; RGB 40 114 0; RGB 8 124 0; RGB 0 118 40;
    RGB 0 102 120; RGB 0 0 0; RGB 0 0 0; RGB 0 0 0;
    RGB 236 238 236; RGB 76 154 236; RGB 120 124 236; RGB 176 98 236;
    RGB 228 84 236; RGB 236 88 180; RGB 236 106 100; RGB 212 136 32;
    RGB 160 170 0; RGB 116 196 0; RGB 76 208 32; RGB 56 204 108;
    RGB 56 180 204; RGB 60 60 60; RGB 0 0 0; RGB 0 0 0;
    RGB 236 238 236; RGB 168 204 236; RGB 188 188 236; RGB 212 178 236;
    RGB 236 174 236; RGB 236 174 212; RGB 236 180 176; RGB 228 196 144;
    RGB 204 210 120; RGB 180 222 120; RGB 168 226 144; RGB 152 226 180;
    RGB 160 214 228; RGB 160 162 160; RGB 0 0 0; RGB 0 0 0 ].

(** [PALETTE_MAP[i]] for an index already masked with [0x3F]. *)
Definition palette_entry (i : Z) : color :=
  default (RGB 0 0 0) (PALETTE_MAP !! Z.to_nat i).

Definition coarseXinc (v : Z) : Z :=
  if Z.land v 0x001F =? 31                      (* if coarse X == 31 *)
  then
    let v := u16 (Z.land v (Z.lnot 0x001F)) in  (* coarse X = 0 *)
    u16 (Z.lxor v 0x0400)                       (* switch horizontal nametable *)
  else u16 (v + 1).                             (* increment coarse X *)

Definition fineYinc (v : Z) : Z :=
  if negb (Z.land v 0x7000 =? 0x7000)           (* if fine Y < 7 *)
  then u16 (v + 0x1000)                         (* increment fine Y *)
  else
    let v := u16 (Z.land v (Z.lnot 0x7000)) in  (* fine Y = 0 *)
    let y := Z.shiftr (Z.land v 0x03E0) 5 in    (* get coarse y *)
    let '(y, v) :=
      if y =? 29 then (0, u16 (Z.lxor v 0x0800)) (* switch vertical nametable *)
      else if y =? 31 then (0, v)               (* nametable not switched *)
      else (y + 1, v) in                        (* increment coarse Y *)
    u16 (Z.lor (Z.land v (Z.lnot 0x03E0)) (Z.shiftl y 5)).

Definition getNameTableAddr (v : Z) : Z :=
  u16 (Z.lor 0x2000 (Z.land v 0x0FFF)).

Definition getAttribTableAddr (v : Z) : Z :=
  u16 (Z.lor (Z.lor (Z.lor 0x23C0 (Z.land v 0x0C00))
                    (Z.land (Z.shiftr v 4) 0x38))
             (Z.land (Z.shiftr v 2) 0x07)).

(** *** State *)

(** The PPU bus is implemented in [2C02_Bus.c], outside this development:
    its two entry points are an interface.  A read returns the byte and
    the bus it leaves behind. *)
Class Bus2C02Ops (B : Type) := {
  ppu_bus_read : B -> Z -> Z * B;
  ppu_bus_write : B -> Z -> Z -> B
}.

(** Calls that leave the PPU: the interrupt raised on the CPU behind
    [ppu->cpu] and the frame handed to the renderer. *)
Inductive host_call :=
| CallNMI
| CallLoadPixelDataToScreen (frame : list color).

(** Modelled from the spec: [State2C02] is declared in [2C02.h], which is
    missing.  The fields are those [2C02.c] uses: 8-bit registers and
    latches, 16-bit [v], [t] and shift registers, the 3-bit [x], the
    toggle [w], the C [int]s [scanline] and [cycles], and the frame
    buffer [pixels].  [host] stands for the CPU behind [ppu->cpu] and for
    the renderer: the calls made on them so far, oldest first. *)
Record State2C02 (B : Type) := mkState2C02 {
  PPUCTRL : Z;
  PPUMASK : Z;
  PPUSTATUS : Z;
  OAMADDR : Z;
  PPUSCROLL : Z;
  PPUADDR : Z;
  PPUDATA : Z;
  v : Z;
  t : Z;
  x : Z;
  w : Z;
  name_tbl_byte : Z;
  pa_latch_low : Z;
  pa_latch_high : Z;
  pt_latch_low : Z;
  pt_latch_high : Z;
  pt_shift_low : Z;
  pt_shift_high : Z;
  pa_shift_low : Z;
  pa_shift_high : Z;
  scanline : Z;
  cycles : Z;
  evenframe : Z;
  pixels : list color;
  bus : B;
  host : list host_call
}.
Arguments mkState2C02 {B}.
Arguments PPUCTRL {B}. Arguments PPUMASK {B}. Arguments PPUSTATUS {B}.
Arguments OAMADDR {B}. Arguments PPUSCROLL {B}. Arguments PPUADDR {B}.
Arguments PPUDATA {B}. Arguments v {B}. Arguments t {B}. Arguments x {B}.
Arguments w {B}. Arguments name_tbl_byte {B}.
Arguments pa_latch_low {B}. Arguments pa_latch_high {B}.
Arguments pt_latch_low {B}. Arguments pt_latch_high {B}.
Arguments pt_shift_low {B}. Arguments pt_shift_high {B}.
Arguments pa_shift_low {B}. Arguments pa_shift_high {B}.
Arguments scanline {B}. Arguments cycles {B}. Arguments evenframe {B}.
Arguments pixels {B}. Arguments bus {B}. Arguments host {B}.

(** Assignment to one field. *)
Definition set_PPUCTRL {B} (a : Z) (s : State2C02 B) : State2C02 B :=
  mkState2C02 a (PPUMASK s) (PPUSTATUS s) (OAMADDR s) (PPUSCROLL s)
    (PPUADDR s) (PPUDATA s) (v s) (t s) (x s) (w s) (name_tbl_byte s)
    (pa_latch_low s) (pa_latch_high s) (pt_latch_low s) (pt_latch_high s)
    (pt_shift_low s) (pt_shift_high s) (pa_shift_low s) (pa_shift_high s)
    (scanline s) (cycles s) (evenframe s) (pixels s) (bus s) (host s).
Definition set_PPUMASK {B} (a : Z) (s : State2C02 B) : State2C02 B :=
  mkState2C02 (PPUCTRL s) a (PPUSTATUS s) (OAMADDR s) (PPUSCROLL s)
    (PPUADDR s) (PPUDATA s) (v s) (t s) (x s) (w s) (name_tbl_byte s)
    (pa_latch_low s) (pa_latch_high s) (pt_latch_low s) (pt_latch_high s)
    (pt_shift_low s) (pt_shift_high s) (pa_shift_low s) (pa_shift_high s)
    (scanline s) (cycles s) (evenframe s) (pixels s) (bus s) (host s).
Definition set_PPUSTATUS {B} (a : Z) (s : State2C02 B) : State2C02 B :=
  mkState2C02 (PPUCTRL s) (PPUMASK s) a (OAMADDR s) (PPUSCROLL s)
    (PPUADDR s) (PPUDATA s) (v s) (t s) (x s) (w s) (name_tbl_byte s)
    (pa_latch_low s) (pa_latch_high s) (pt_latch_low s) (pt_latch_high s)
    (pt_shift_low s) (pt_shift_high s) (pa_shift_low s) (pa_shift_high s)
    (scanline s) (cycles s) (evenframe s) (pixels s) (bus s) (host s).
Definition set_OAMADDR {B} (a : Z) (s : State2C02 B) : State2C02 B :=
  mkState2C02 (PPUCTRL s) (PPUMASK s) (PPUSTATUS s) a (PPUSCROLL s)
    (PPUADDR s) (PPUDATA s) (v s) (t s) (x s) (w s) (name_tbl_byte s)
    (pa_latch_low s) (pa_latch_high s) (pt_latch_low s) (pt_latch_high s)
    (pt_shift_low s) (pt_shift_high s) (pa_shift_low s) (pa_shift_high s)
    (scanline s) (cycles s) (evenframe s) (pixels s) (bus s) (host s).
Definition set_PPUSCROLL {B} (a : Z) (s : State2C02 B) : State2C02 B :=
  mkState2C02 (PPUCTRL s) (PPUMASK s) (PPUSTATUS s) (OAMADDR s) a
    (PPUADDR s) (PPUDATA s) (v s) (t s) (x s) (w s) (name_tbl_byte s)
    (pa_latch_low s) (pa_latch_high s) (pt_latch_low s) (pt_latch_high s)
    (pt_shift_low s) (pt_shift_high s) (pa_shift_low s) (pa_shift_high s)
    (scanline s) (cycles s) (evenframe s) (pixels s) (bus s) (host s).
Definition set_PPUADDR {B} (a : Z) (s : State2C02 B) : State2C02 B :=
  mkState2C02 (PPUCTRL s) (PPUMASK s) (PPUSTATUS s) (OAMADDR s)
    (PPUSCROLL s) a (PPUDATA s) (v s) (t s) (x s) (w s) (name_tbl_byte s)
    (pa_latch_low s) (pa_latch_high s) (pt_latch_low s) (pt_latch_high s)
    (pt_shift_low s) (pt_shift_high s) (pa_shift_low s) (pa_shift_high s)
    (scanline s) (cycles s) (evenframe s) (pixels s) (bus s) (host s).
Definition set_PPUDATA {B} (a : Z) (s : State2C02 B) : State2C02 B :=
  mkState2C02 (PPUCTRL s) (PPUMASK s) (PPUSTATUS s) (OAMADDR s)
    (PPUSCROLL s) (PPUADDR s) a (v s) (t s) (x s) (w s) (name_tbl_byte s)
    (pa_latch_low s) (pa_latch_high s) (pt_latch_low s) (pt_latch_high s)
    (pt_shift_low s) (pt_shift_high s) (pa_shift_low s) (pa_shift_high s)
    (scanline s) (cycles s) (evenframe s) (pixels s) (bus s) (host s).
Definition set_v {B} (a : Z) (s : State2C02 B) : State2C02 B :=
  mkState2C02 (PPUCTRL s) (PPUMASK s) (PPUSTATUS s) (OAMADDR s)
    (PPUSCROLL s) (PPUADDR s) (PPUDATA s) a (t s) (x s) (w s)
    (name_tbl_byte s) (pa_latch_low s) (pa_latch_high s) (pt_latch_low s)
    (pt_latch_high s) (pt_shift_low s) (pt_shift_high s) (pa_shift_low s)
    (pa_shift_high s) (scanline s) (cycles s) (evenframe s) (pixels s)
    (bus s) (host s).
Definition set_t {B} (a : Z) (s : State2C02 B) : State2C02 B :=
  mkState2C02 (PPUCTRL s) (PPUMASK s) (PPUSTATUS s) (OAMADDR s)
    (PPUSCROLL s) (PPUADDR s) (PPUDATA s) (v s) a (x s) (w s)
    (name_tbl_byte s) (pa_latch_low s) (pa_latch_high s) (pt_latch_low s)
    (pt_latch_high s) (pt_shift_low s) (pt_shift_high s) (pa_shift_low s)
    (pa_shift_high s) (scanline s) (cycles s) (evenframe s) (pixels s)
    (bus s) (host s).
Definition set_x {B} (a : Z) (s : State2C02 B) : State2C02 B :=
  mkState2C02 (PPUCTRL s) (PPUMASK s) (PPUSTATUS s) (OAMADDR s)
    (PPUSCROLL s) (PPUADDR s) (PPUDATA s) (v s) (t s) a (w s)
    (name_tbl_byte s) (pa_latch_low s) (pa_latch_high s) (pt_latch_low s)
    (pt_latch_high s) (pt_shift_low s) (pt_shift_high s) (pa_shift_low s)
    (pa_shift_high s) (scanline s) (cycles s) (evenframe s) (pixels s)
    (bus s) (host s).
Definition set_w {B} (a : Z) (s : State2C02 B) : State2C02 B :=
  mkState2C02 (PPUCTRL s) (PPUMASK s) (PPUSTATUS s) (OAMADDR s)
    (PPUSCROLL s) (PPUADDR s) (PPUDATA s) (v s) (t s) (x s) a
    (name_tbl_byte s) (pa_latch_low s) (pa_latch_high s) (pt_latch_low s)
    (pt_latch_high s) (pt_shift_low s) (pt_shift_high s) (pa_shift_low s)
    (pa_shift_high s) (scanline s) (cycles s) (evenframe s) (pixels s)
    (bus s) (host s).
Definition set_name_tbl_byte {B} (a : Z) (s : State2C02 B) : State2C02 B :=
  mkState2C02 (PPUCTRL s) (PPUMASK s) (PPUSTATUS s) (OAMADDR s)
    (PPUSCROLL s) (PPUADDR s) (PPUDATA s) (v s) (t s) (x s) (w s) a
    (pa_latch_low s) (pa_latch_high s) (pt_latch_low s) (pt_latch_high s)
    (pt_shift_low s) (pt_shift_high s) (pa_shift_low s) (pa_shift_high s)
    (scanline s) (cycles s) (evenframe s) (pixels s) (bus s) (host s).
Definition set_pa_latch_low {B} (a : Z) (s : State2C02 B) : State2C02 B :=
  mkState2C02 (PPUCTRL s) (PPUMASK s) (PPUSTATUS s) (OAMADDR s)
    (PPUSCROLL s) (PPUADDR s) (PPUDATA s) (v s) (t s) (x s) (w s)
    (name_tbl_byte s) a (pa_latch_high s) (pt_latch_low s)
    (pt_latch_high s) (pt_shift_low s) (pt_shift_high s) (pa_shift_low s)
    (pa_shift_high s) (scanline s) (cycles s) (evenframe s) (pixels s)
    (bus s) (host s).
Definition set_pa_latch_high {B} (a : Z) (s : State2C02 B) : State2C02 B :=
  mkState2C02 (PPUCTRL s) (PPUMASK s) (PPUSTATUS s) (OAMADDR s)
    (PPUSCROLL s) (PPUADDR s) (PPUDATA s) (v s) (t s) (x s) (w s)
    (name_tbl_byte s) (pa_latch_low s) a (pt_latch_low s) (pt_latch_high s)
    (pt_shift_low s) (pt_shift_high s) (pa_shift_low s) (pa_shift_high s)
    (scanline s) (cycles s) (evenframe s) (pixels s) (bus s) (host s).
Definition set_pt_latch_low {B} (a : Z) (s : State2C02 B) : State2C02 B :=
  mkState2C02 (PPUCTRL s) (PPUMASK s) (PPUSTATUS s) (OAMADDR s)
    (PPUSCROLL s) (PPUADDR s) (PPUDATA s) (v s) (t s) (x s) (w s)
    (name_tbl_byte s) (pa_latch_low s) (pa_latch_high s) a
    (pt_latch_high s) (pt_shift_low s) (pt_shift_high s) (pa_shift_low s)
    (pa_shift_high s) (scanline s) (cycles s) (evenframe s) (pixels s)
    (bus s) (host s).
Definition set_pt_latch_high {B} (a : Z) (s : State2C02 B) : State2C02 B :=
  mkState2C02 (PPUCTRL s) (PPUMASK s) (PPUSTATUS s) (OAMADDR s)
    (PPUSCROLL s) (PPUADDR s) (PPUDATA s) (v s) (t s) (x s) (w s)
    (name_tbl_byte s) (pa_latch_low s) (pa_latch_high s) (pt_latch_low s) a
    (pt_shift_low s) (pt_shift_high s) (pa_shift_low s) (pa_shift_high s)
    (scanline s) (cycles s) (evenframe s) (pixels s) (bus s) (host s).
Definition set_pt_shift_low {B} (a : Z) (s : State2C02 B) : State2C02 B :=
  mkState2C02 (PPUCTRL s) (PPUMASK s) (PPUSTATUS s) (OAMADDR s)
    (PPUSCROLL s) (PPUADDR s) (PPUDATA s) (v s) (t s) (x s) (w s)
    (name_tbl_byte s) (pa_latch_low s) (pa_latch_high s) (pt_latch_low s)
    (pt_latch_high s) a (pt_shift_high s) (pa_shift_low s)
    (pa_shift_high s) (scanline s) (cycles s) (evenframe s) (pixels s)
    (bus s) (host s).
Definition set_pt_shift_high {B} (a : Z) (s : State2C02 B) : State2C02 B :=
  mkState2C02 (PPUCTRL s) (PPUMASK s) (PPUSTATUS s) (OAMADDR s)
    (PPUSCROLL s) (PPUADDR s) (PPUDATA s) (v s) (t s) (x s) (w s)
    (name_tbl_byte s) (pa_latch_low s) (pa_latch_high s) (pt_latch_low s)
    (pt_latch_high s) (pt_shift_low s) a (pa_shift_low s) (pa_shift_high s)
    (scanline s) (cycles s) (evenframe s) (pixels s) (bus s) (host s).
Definition set_pa_shift_low {B} (a : Z) (s : State2C02 B) : State2C02 B :=
  mkState2C02 (PPUCTRL s) (PPUMASK s) (PPUSTATUS s) (OAMADDR s)
    (PPUSCROLL s) (PPUADDR s) (PPUDATA s) (v s) (t s) (x s) (w s)
    (name_tbl_byte s) (pa_latch_low s) (pa_latch_high s) (pt_latch_low s)
    (pt_latch_high s) (pt_shift_low s) (pt_shift_high s) a
    (pa_shift_high s) (scanline s) (cycles s) (evenframe s) (pixels s)
    (bus s) (host s).
Definition set_pa_shift_high {B} (a : Z) (s : State2C02 B) : State2C02 B :=
  mkState2C02 (PPUCTRL s) (PPUMASK s) (PPUSTATUS s) (OAMADDR s)
    (PPUSCROLL s) (PPUADDR s) (PPUDATA s) (v s) (t s) (x s) (w s)
    (name_tbl_byte s) (pa_latch_low s) (pa_latch_high s) (pt_latch_low s)
    (pt_latch_high s) (pt_shift_low s) (pt_shift_high s) (pa_shift_low s) a
    (scanline s) (cycles s) (evenframe s) (pixels s) (bus s) (host s).
Definition set_scanline {B} (a : Z) (s : State2C02 B) : State2C02 B :=
  mkState2C02 (PPUCTRL s) (PPUMASK s) (PPUSTATUS s) (OAMADDR s)
    (PPUSCROLL s) (PPUADDR s) (PPUDATA s) (v s) (t s) (x s) (w s)
    (name_tbl_byte s) (pa_latch_low s) (pa_latch_high s) (pt_latch_low s)
    (pt_latch_high s) (pt_shift_low s) (pt_shift_high s) (pa_shift_low s)
    (pa_shift_high s) a (cycles s) (evenframe s) (pixels s) (bus s)
    (host s).
Definition set_cycles {B} (a : Z) (s : State2C02 B) : State2C02 B :=
  mkState2C02 (PPUCTRL s) (PPUMASK s) (PPUSTATUS s) (OAMADDR s)
    (PPUSCROLL s) (PPUADDR s) (PPUDATA s) (v s) (t s) (x s) (w s)
    (name_tbl_byte s) (pa_latch_low s) (pa_latch_high s) (pt_latch_low s)
    (pt_latch_high s) (pt_shift_low s) (pt_shift_high s) (pa_shift_low s)
    (pa_shift_high s) (scanline s) a (evenframe s) (pixels s) (bus s)
    (host s).
Definition set_evenframe {B} (a : Z) (s : State2C02 B) : State2C02 B :=
  mkState2C02 (PPUCTRL s) (PPUMASK s) (PPUSTATUS s) (OAMADDR s)
    (PPUSCROLL s) (PPUADDR s) (PPUDATA s) (v s) (t s) (x s) (w s)
    (name_tbl_byte s) (pa_latch_low s) (pa_latch_high s) (pt_latch_low s)
    (pt_latch_high s) (pt_shift_low s) (pt_shift_high s) (pa_shift_low s)
    (pa_shift_high s) (scanline s) (cycles s) a (pixels s) (bus s) (host s).
Definition set_pixels {B} (a : list color) (s : State2C02 B) : State2C02 B :=
  mkState2C02 (PPUCTRL s) (PPUMASK s) (PPUSTATUS s) (OAMADDR s)
    (PPUSCROLL s) (PPUADDR s) (PPUDATA s) (v s) (t s) (x s) (w s)
    (name_tbl_byte s) (pa_latch_low s) (pa_latch_high s) (pt_latch_low s)
    (pt_latch_high s) (pt_shift_low s) (pt_shift_high s) (pa_shift_low s)
    (pa_shift_high s) (scanline s) (cycles s) (evenframe s) a (bus s)
    (host s).
Definition set_bus {B} (a : B) (s : State2C02 B) : State2C02 B :=
  mkState2C02 (PPUCTRL s) (PPUMASK s) (PPUSTATUS s) (OAMADDR s)
    (PPUSCROLL s) (PPUADDR s) (PPUDATA s) (v s) (t s) (x s) (w s)
    (name_tbl_byte s) (pa_latch_low s) (pa_latch_high s) (pt_latch_low s)
    (pt_latch_high s) (pt_shift_low s) (pt_shift_high s) (pa_shift_low s)
    (pa_shift_high s) (scanline s) (cycles s) (evenframe s) (pixels s) a
    (host s).
Definition set_host {B} (a : list host_call) (s : State2C02 B) : State2C02 B :=
  mkState2C02 (PPUCTRL s) (PPUMASK s) (PPUSTATUS s) (OAMADDR s)
    (PPUSCROLL s) (PPUADDR s) (PPUDATA s) (v s) (t s) (x s) (w s)
    (name_tbl_byte s) (pa_latch_low s) (pa_latch_high s) (pt_latch_low s)
    (pt_latch_high s) (pt_shift_low s) (pt_shift_high s) (pa_shift_low s)
    (pa_shift_high s) (scanline s) (cycles s) (evenframe s) (pixels s)
    (bus s) a.


(** Modelled from the spec: the [reg]/[flags] unions of [PPUCTRL],
    [PPUMASK] and [PPUSTATUS] are declared in the missing [2C02.h].  The
    flags sit where the NES reference puts them: in [PPUCTRL] the base
    nametable [N] in bits 0-1, the increment mode [I] in bit 2, the
    background table [B] in bit 4 and NMI enable [V] in bit 7; in
    [PPUMASK] show-background [b] in bit 3; in [PPUSTATUS] the vertical
    blank flag [V] in bit 7. *)
Definition PPUCTRL_N {B} (s : State2C02 B) : Z := field 0 2 (PPUCTRL s).
Definition PPUCTRL_I {B} (s : State2C02 B) : Z := field 2 1 (PPUCTRL s).
Definition PPUCTRL_B {B} (s : State2C02 B) : Z := field 4 1 (PPUCTRL s).
Definition PPUCTRL_V {B} (s : State2C02 B) : Z := field 7 1 (PPUCTRL s).
Definition PPUMASK_b {B} (s : State2C02 B) : Z := field 3 1 (PPUMASK s).
Definition PPUSTATUS_V {B} (s : State2C02 B) : Z := field 7 1 (PPUSTATUS s).
Definition set_PPUSTATUS_V {B} (a : Z) (s : State2C02 B) : State2C02 B :=
  set_PPUSTATUS (set_field 7 1 a (PPUSTATUS s)) s.

(** *** Operations *)

Section Operations.
Context {B : Type} `{Bus2C02Ops B}.

(** [ppu_bus_read(ppu->bus, a)], whose result is a [uint8_t]. *)
Definition read_bus (a : Z) (ppu : State2C02 B) : Z * State2C02 B :=
  let '(d, b) := ppu_bus_read (bus ppu) a in (u8 d, set_bus b ppu).

(** [ppu->v += (ppu->PPUCTRL.flags.I ? 32 : 1)]. *)
Definition inc_v (ppu : State2C02 B) : State2C02 B :=
  set_v (u16 (v ppu + (if truthy (PPUCTRL_I ppu) then 32 else 1))) ppu.

Definition fetch_data_inc_v (ppu : State2C02 B) : State2C02 B :=
  let r := Z.rem (cycles ppu) 8 in
  if r =? 1 then
    (* NT byte *)
    let name_tbl_addr := getNameTableAddr (v ppu) in
    let '(d, ppu) := read_bus name_tbl_addr ppu in
    set_name_tbl_byte d ppu
  else if r =? 3 then
    (* AT byte *)
    let attrib_tbl_addr := getAttribTableAddr (v ppu) in
    let '(attrib_tbl_byte, ppu) := read_bus attrib_tbl_addr ppu in
    let shift := u8 (2 * Z.land (Z.shiftr (v ppu) 1) 0x01
                     + 4 * Z.land (Z.shiftr (v ppu) 6) 0x01) in
    let palatteID := u8 (Z.land (Z.shiftr attrib_tbl_byte shift) 0x03) in
    let ppu :=
      set_pa_latch_low
        (if truthy (Z.land palatteID 0x01) then 0xFF else 0x00) ppu in
    set_pa_latch_high
      (if truthy (Z.land palatteID 0x02) then 0xFF else 0x00) ppu
  else if r =? 5 then
    (* Low PT byte *)
    let fine_y := Z.shiftr (v ppu) 12 in
    let pattern_tbl_addr :=
      u16 (Z.lor (Z.lor (Z.shiftl (PPUCTRL_B ppu) 12)
                        (Z.shiftl (name_tbl_byte ppu) 4))
                 fine_y) in
    let '(d, ppu) := read_bus pattern_tbl_addr ppu in
    set_pt_latch_low d ppu
  else if r =? 7 then
    (* High PT byte *)
    let fine_y := Z.shiftr (v ppu) 12 in
    let pattern_tbl_addr :=
      u16 (Z.lor (Z.lor (Z.lor (Z.shiftl (PPUCTRL_B ppu) 12)
                               (Z.shiftl (name_tbl_byte ppu) 4))
                        (Z.shiftl 1 3))
                 fine_y) in
    let '(d, ppu) := read_bus pattern_tbl_addr ppu in
    set_pt_latch_high d ppu
  else if r =? 0 then
    if cycles ppu =? 256
    then set_v (fineYinc (v ppu)) ppu
    else set_v (coarseXinc (v ppu)) ppu
  else ppu.

(** Load new bytes into shift registers. *)
Definition feedShiftRegisters (ppu : State2C02 B) : State2C02 B :=
  let feed shift latch :=
    u16 (Z.lor (Z.land shift 0x00FF) (Z.shiftl (u16 latch) 8)) in
  let ppu :=
    set_pt_shift_low (feed (pt_shift_low ppu) (pt_latch_low ppu)) ppu in
  let ppu :=
    set_pt_shift_high (feed (pt_shift_high ppu) (pt_latch_high ppu)) ppu in
  let ppu :=
    set_pa_shift_low (feed (pa_shift_low ppu) (pa_latch_low ppu)) ppu in
  set_pa_shift_high (feed (pa_shift_high ppu) (pa_latch_high ppu)) ppu.

(** [feedShiftRegisters(&ppu)], as [clock_2C02] calls it: the argument
    is the address of the local pointer, not the pointer, so the callee
    reads and writes the caller's stack as if it were a [State2C02].
    C gives this no meaning. *)
Definition feedShiftRegisters_of_address
    (ppu : State2C02 B) : option (State2C02 B) := None.

(** The condition of both calls above. *)
Definition feed_due (ppu : State2C02 B) : bool :=
  (Z.rem (cycles ppu) 8 =? 1)
  && (((9 <=? cycles ppu) && (cycles ppu <=? 257))
      || ((321 <=? cycles ppu) && (cycles ppu <=? 337))).

(** The four [>>= 1] on the shift registers. *)
Definition shift_registers (ppu : State2C02 B) : State2C02 B :=
  let ppu := set_pt_shift_low (Z.shiftr (pt_shift_low ppu) 1) ppu in
  let ppu := set_pt_shift_high (Z.shiftr (pt_shift_high ppu) 1) ppu in
  let ppu := set_pa_shift_low (Z.shiftr (pa_shift_low ppu) 1) ppu in
  set_pa_shift_high (Z.shiftr (pa_shift_high ppu) 1) ppu.

(** Copy horizontal, respectively vertical, data from t to v. *)
Definition copy_horizontal (ppu : State2C02 B) : State2C02 B :=
  set_v (u16 (Z.lor (Z.land (v ppu) 0x7BE0)
                    (Z.land (t ppu) (Z.lnot 0x7BE0)))) ppu.
Definition copy_vertical (ppu : State2C02 B) : State2C02 B :=
  set_v (u16 (Z.lor (Z.land (v ppu) 0x041F)
                    (Z.land (t ppu) (Z.lnot 0x041F)))) ppu.

(** [ppu->pixels[index] = c]; a store outside the array is undefined. *)
Definition store_pixel (index : Z) (c : color) (ppu : State2C02 B)
    : option (State2C02 B) :=
  if (0 <=? index) && (index <? Z.of_nat (length (pixels ppu)))
  then Some (set_pixels (<[Z.to_nat index := c]> (pixels ppu)) ppu)
  else None.

(** The body of [if (ppu->scanline == -1)]. *)
Definition pre_render_line (ppu : State2C02 B) : option (State2C02 B) :=
  ppu ← (if feed_due ppu then feedShiftRegisters_of_address ppu
         else Some ppu);
  let ppu := if cycles ppu =? 1 then set_PPUSTATUS_V 0 ppu else ppu in
  Some
    (if (1 <=? cycles ppu) && (cycles ppu <? 257) then
       fetch_data_inc_v (shift_registers ppu)
     else if cycles ppu =? 257 then copy_horizontal ppu
     else if (280 <=? cycles ppu) && (cycles ppu <? 305) then
       copy_vertical ppu
     else if (321 <=? cycles ppu) && (cycles ppu <? 337) then
       fetch_data_inc_v ppu
     else ppu).

(** The body of [if (ppu->scanline >= 0 && ppu->scanline < 240)]. *)
Definition visible_line (ppu : State2C02 B) : option (State2C02 B) :=
  ppu ← (if feed_due ppu then feedShiftRegisters_of_address ppu
         else Some ppu);
  if (1 <=? cycles ppu) && (cycles ppu <? 257) then
    let shade :=
      u8 (Z.lor
            (Z.land (Z.shiftr (pt_shift_low ppu) (x ppu)) 0x01)
            (Z.shiftl
               (Z.land (Z.shiftr (pt_shift_high ppu) (x ppu)) 0x01) 1)) in
    let palatte :=
      u8 (Z.lor
            (Z.land (Z.shiftr (pa_shift_low ppu) (x ppu)) 0x01)
            (Z.shiftl
               (Z.land (Z.shiftr (pa_shift_high ppu) (x ppu)) 0x01) 1)) in
    let index := scanline ppu * 256 + cycles ppu - 1 in
    ppu ← (if shade =? 0 then
             (* Universal background color *)
             let '(d, ppu) := read_bus 0x3F00 ppu in
             store_pixel index (palette_entry (Z.land d 0x3F)) ppu
           else
             let palatte_addr :=
               u16 (Z.lor (Z.lor 0x3F00 (Z.shiftl palatte 2)) shade) in
             let '(d, ppu) := read_bus palatte_addr ppu in
             store_pixel index (palette_entry (Z.land d 0x3F)) ppu);
    Some (fetch_data_inc_v (shift_registers ppu))
  else if cycles ppu =? 257 then Some (copy_horizontal ppu)
  else if (321 <=? cycles ppu) && (cycles ppu <? 337) then
    Some (fetch_data_inc_v ppu)
  else Some ppu.

(** A call out of the PPU, appended to the record of calls. *)
Definition call (c : host_call) (ppu : State2C02 B) : State2C02 B :=
  set_host (host ppu ++ [c]) ppu.

(** The body of [if (ppu->scanline == 241 && ppu->cycles == 1)]. *)
Definition vblank_start (ppu : State2C02 B) : State2C02 B :=
  let ppu := set_PPUSTATUS_V 1 ppu in
  let ppu := if truthy (PPUCTRL_V ppu) then call CallNMI ppu else ppu in
  (* Send pixel data to renderer *)
  call (CallLoadPixelDataToScreen (pixels ppu)) ppu.

(** The counters at the end of [clock_2C02]. *)
Definition advance (ppu : State2C02 B) : State2C02 B :=
  let ppu := set_cycles (cycles ppu + 1) ppu in
  if cycles ppu =? 341 then
    let ppu := set_cycles 0 ppu in
    let ppu := set_scanline (scanline ppu + 1) ppu in
    if scanline ppu =? 261 then
      let ppu := set_scanline (-1) ppu in
      set_evenframe (lnot_c (evenframe ppu)) ppu
    else ppu
  else ppu.

Definition clock_2C02 (ppu : State2C02 B) : option (State2C02 B) :=
  ppu ← (if truthy (PPUMASK_b ppu) then
           (* Pre render line *)
           ppu ← (if scanline ppu =? -1 then pre_render_line ppu
                  else Some ppu);
           if (0 <=? scanline ppu) && (scanline ppu <? 240)
           then visible_line ppu
           else Some ppu
         else Some ppu);
  let ppu :=
    if (scanline ppu =? 241) && (cycles ppu =? 1)
    then vblank_start ppu else ppu in
  Some (advance ppu).

Definition reset_2C02 (ppu : State2C02 B) : State2C02 B :=
  let ppu := set_PPUCTRL 0 ppu in
  let ppu := set_PPUMASK 0 ppu in
  let ppu := set_w 0 ppu in
  let ppu := set_PPUSCROLL 0 ppu in
  let ppu := set_PPUDATA 0 ppu in
  let ppu := set_evenframe 0 ppu in
  let ppu := set_scanline (-1) ppu in
  set_cycles 0 ppu.

Definition power_on_2C02 (ppu : State2C02 B) : State2C02 B :=
  let ppu := set_PPUCTRL 0 ppu in
  let ppu := set_PPUMASK 0 ppu in
  let ppu := set_PPUSTATUS 0xA0 ppu in          (* 0b10100000 *)
  let ppu := set_OAMADDR 0x00 ppu in
  let ppu := set_w 0 ppu in
  let ppu := set_PPUSCROLL 0 ppu in
  let ppu := set_PPUADDR 0 ppu in
  let ppu := set_PPUDATA 0 ppu in
  let ppu := set_evenframe 0 ppu in
  let ppu := set_scanline (-1) ppu in
  set_cycles 0 ppu.

(** The first statement of [write_ppu], ahead of the [switch]. *)
Definition write_ppu_status (ppu : State2C02 B) (data : Z)
    : State2C02 B :=
  set_PPUSTATUS
    (u8 (Z.lor (Z.land (PPUSTATUS ppu) 0xE0) (Z.land data 0x1F))) ppu.

(** The [switch (addr)] of [write_ppu]. *)
Definition write_ppu_switch (ppu : State2C02 B) (addr data : Z)
    : State2C02 B :=
  if addr =? 0x2000 then                        (* PPUCTRL *)
    let ppu := set_PPUCTRL data ppu in
    (* Modify nametable select of temporary VRAM address *)
    let ppu := set_t (u16 (Z.land (t ppu) 0x73FF)) ppu in
                                                 (* 0b0111001111111111 *)
    set_t (u16 (Z.lor (t ppu) (Z.shiftl (u16 (PPUCTRL_N ppu)) 10))) ppu
  else if addr =? 0x2001 then                   (* PPUMASK *)
    set_PPUMASK data ppu
  else if addr =? 0x2003 then ppu               (* OAMADDR *)
  else if addr =? 0x2004 then ppu               (* OAMDATA *)
  else if addr =? 0x2005 then                   (* PPUSCROLL *)
    let ppu := set_PPUSCROLL data ppu in
    let ppu :=
      if w ppu =? 0 then                        (* First write *)
        let ppu := set_t (u16 (Z.land (t ppu) 0x7FE0)) ppu in
                                                 (* 0b0111111111100000 *)
        let ppu := set_t (u16 (Z.lor (t ppu) (Z.shiftr data 3))) ppu in
        set_x (Z.land data 0x07) ppu
      else if w ppu =? 1 then                   (* Second write *)
        let ppu := set_t (u16 (Z.land (t ppu) 0x0C1F)) ppu in
                                                 (* 0b0000110000011111 *)
        let ppu :=
          set_t (u16 (Z.lor (t ppu)
                            (Z.shiftl (Z.land (u16 data) 0x07) 12))) ppu in
        set_t (u16 (Z.lor (t ppu)
                          (Z.shiftl (Z.shiftr (u16 data) 3) 5))) ppu
      else ppu in
    set_w (lnot_c (w ppu)) ppu
  else if addr =? 0x2006 then                   (* PPUADDR *)
    let ppu := set_PPUADDR data ppu in
    (* PPU addresses are 14 bits, write 6 bits then 8 bits *)
    let ppu :=
      if w ppu =? 0 then                        (* First write *)
        (* Clear bits 8..15 of t *)
        let ppu := set_t (u16 (Z.land (t ppu) 0x00FF)) ppu in
        (* Set bits 8..14 *)
        set_t (u16 (Z.lor (t ppu)
                          (Z.shiftl (Z.land (u16 data) 0x3F) 8))) ppu
      else if w ppu =? 1 then                   (* Second write *)
        (* Clear bits 0..7 *)
        let ppu := set_t (u16 (Z.land (t ppu) 0xFF00)) ppu in
        (* And set them *)
        let ppu := set_t (u16 (Z.lor (t ppu) data)) ppu in
        set_v (t ppu) ppu                       (* Update current address *)
      else ppu in
    set_w (lnot_c (w ppu)) ppu
  else if addr =? 0x2007 then                   (* PPUDATA *)
    let ppu := set_PPUDATA data ppu in
    let ppu := set_bus (ppu_bus_write (bus ppu) (v ppu) data) ppu in
    inc_v ppu
  else if addr =? 0x4014 then ppu               (* OAMDMA *)
  else ppu.

Definition write_ppu (ppu : State2C02 B) (addr data : Z) : State2C02 B :=
  write_ppu_switch (write_ppu_status ppu data) addr data.

Definition read_ppu (ppu : State2C02 B) (addr : Z) : Z * State2C02 B :=
  if addr =? 0x2002 then                        (* PPUSTATUS *)
    let ppu := set_w 0 ppu in
    let ret := PPUSTATUS ppu in
    let ppu := set_PPUSTATUS_V 0 ppu in
    (ret, ppu)
  else if addr =? 0x2004 then (0, ppu)          (* OAMDATA *)
  else if addr =? 0x2007 then                   (* PPUDATA *)
    if (0 <=? v ppu) && (v ppu <? 0x3F00) then
      let ret := PPUDATA ppu in
      let '(d, ppu) := read_bus (v ppu) ppu in
      let ppu := set_PPUDATA d ppu in
      let ppu := inc_v ppu in
      (ret, ppu)
    else if (0x3F00 <=? v ppu) && (v ppu <? 0x4000) then
      (* Mirrored nametable data is stored in internal buffer *)
      let '(d, ppu) :=
        read_bus (u16 (Z.lor 0x2000 (Z.land (v ppu) 0x03FF))) ppu in
      let ppu := set_PPUDATA d ppu in
      let '(ret, ppu) := read_bus (v ppu) ppu in
      let ppu := inc_v ppu in
      (ret, ppu)
    else (0, ppu)
  else (0, ppu).

(** [n] calls of [clock_2C02] in a row. *)
Fixpoint clocks_2C02 (n : nat) (ppu : State2C02 B) : option (State2C02 B) :=
  match n with
  | O => Some ppu
  | S n => ppu ← clock_2C02 ppu; clocks_2C02 n ppu
  end.

(** The place in the frame: dots since the start of the pre-render
    line. *)
Definition dot (ppu : State2C02 B) : Z :=
  (scanline ppu + 1) * 341 + cycles ppu.

End Operations.

End Ppu2C02.

(** ** The 6502 processor ([6502.c]) *)

Module Cpu6502.

(** [bus_read] and [bus_write] are called by [6502.c] and defined outside
    of it: they are the interface of the CPU to its bus.  A read may
    change the device behind the bus, so it returns the bus as well. *)
Class Bus6502Ops (B : Type) := {
  bus_read : B -> Z -> Z * B;
  bus_write : B -> Z -> Z -> B
}.

(** Modelled from the spec: [State6502] is declared in [6502.h], which is
    missing.  The fields are those [6502.c] uses: 8-bit [A], [X], [Y],
    [SP], [status] and [operand], 16-bit [PC], [addr] and
    [indirect_fetch]. *)
Record State6502 (B : Type) := mkState6502 {
  A : Z;
  X : Z;
  Y : Z;
  SP : Z;
  status : Z;
  PC : Z;
  operand : Z;
  addr : Z;
  indirect_fetch : Z;
  bus : B
}.
Arguments mkState6502 {B}.
Arguments A {B}. Arguments X {B}. Arguments Y {B}. Arguments SP {B}.
Arguments status {B}. Arguments PC {B}. Arguments operand {B}.
Arguments addr {B}. Arguments indirect_fetch {B}. Arguments bus {B}.

(** Assignment to one field. *)
Definition set_A {B} (a : Z) (s : State6502 B) : State6502 B :=
  mkState6502 a (X s) (Y s) (SP s) (status s) (PC s) (operand s) (addr s)
    (indirect_fetch s) (bus s).
Definition set_X {B} (a : Z) (s : State6502 B) : State6502 B :=
  mkState6502 (A s) a (Y s) (SP s) (status s) (PC s) (operand s) (addr s)
    (indirect_fetch s) (bus s).
Definition set_Y {B} (a : Z) (s : State6502 B) : State6502 B :=
  mkState6502 (A s) (X s) a (SP s) (status s) (PC s) (operand s) (addr s)
    (indirect_fetch s) (bus s).
Definition set_SP {B} (a : Z) (s : State6502 B) : State6502 B :=
  mkState6502 (A s) (X s) (Y s) a (status s) (PC s) (operand s) (addr s)
    (indirect_fetch s) (bus s).
Definition set_status {B} (a : Z) (s : State6502 B) : State6502 B :=
  mkState6502 (A s) (X s) (Y s) (SP s) a (PC s) (operand s) (addr s)
    (indirect_fetch s) (bus s).
Definition set_PC {B} (a : Z) (s : State6502 B) : State6502 B :=
  mkState6502 (A s) (X s) (Y s) (SP s) (status s) a (operand s) (addr s)
    (indirect_fetch s) (bus s).
Definition set_operand {B} (a : Z) (s : State6502 B) : State6502 B :=
  mkState6502 (A s) (X s) (Y s) (SP s) (status s) (PC s) a (addr s)
    (indirect_fetch s) (bus s).
Definition set_addr {B} (a : Z) (s : State6502 B) : State6502 B :=
  mkState6502 (A s) (X s) (Y s) (SP s) (status s) (PC s) (operand s) a
    (indirect_fetch s) (bus s).
Definition set_indirect_fetch {B} (a : Z) (s : State6502 B) : State6502 B :=
  mkState6502 (A s) (X s) (Y s) (SP s) (status s) (PC s) (operand s)
    (addr s) a (bus s).
Definition set_bus {B} (a : B) (s : State6502 B) : State6502 B :=
  mkState6502 (A s) (X s) (Y s) (SP s) (status s) (PC s) (operand s)
    (addr s) (indirect_fetch s) a.


(** Modelled from the spec: the [reg]/[flags] union of [status] is
    declared in the missing [6502.h].  The layout is [N V _ B D I Z C]
    from bit 7 down to bit 0, one bit each. *)
Definition flag_C {B} (s : State6502 B) : Z := field 0 1 (status s).
Definition flag_Z {B} (s : State6502 B) : Z := field 1 1 (status s).
Definition flag_I {B} (s : State6502 B) : Z := field 2 1 (status s).
Definition flag_D {B} (s : State6502 B) : Z := field 3 1 (status s).
Definition flag_B {B} (s : State6502 B) : Z := field 4 1 (status s).
Definition flag_V {B} (s : State6502 B) : Z := field 6 1 (status s).
Definition flag_N {B} (s : State6502 B) : Z := field 7 1 (status s).

(** What a flag holds after [cpu->status.flags.F = e] depends on the type
    the missing header gives the one-bit field: an unsigned bit-field
    keeps bit 0 of [e], a [_Bool] bit-field holds 1 for every non-zero
    [e].  The conversion is a parameter.  Under either type a flag holds
    0 or 1, and storing 0 or 1 stores just that. *)
Class FlagStore := {
  to_flag : Z -> Z;
  to_flag_0 : to_flag 0 = 0;
  to_flag_1 : to_flag 1 = 1;
  to_flag_bit : forall e, to_flag e = 0 \/ to_flag e = 1
}.

Definition set_flag_C {B} `{FlagStore} (a : Z) (s : State6502 B)
    : State6502 B :=
  set_status (set_field 0 1 (to_flag a) (status s)) s.
Definition set_flag_Z {B} `{FlagStore} (a : Z) (s : State6502 B)
    : State6502 B :=
  set_status (set_field 1 1 (to_flag a) (status s)) s.
Definition set_flag_V {B} `{FlagStore} (a : Z) (s : State6502 B)
    : State6502 B :=
  set_status (set_field 6 1 (to_flag a) (status s)) s.
Definition set_flag_N {B} `{FlagStore} (a : Z) (s : State6502 B)
    : State6502 B :=
  set_status (set_field 7 1 (to_flag a) (status s)) s.
Definition set_flag_I {B} `{FlagStore} (a : Z) (s : State6502 B)
    : State6502 B :=
  set_status (set_field 2 1 (to_flag a) (status s)) s.
Definition set_flag_D {B} `{FlagStore} (a : Z) (s : State6502 B)
    : State6502 B :=
  set_status (set_field 3 1 (to_flag a) (status s)) s.

Section Operations.
Context {B : Type} `{Bus6502Ops B} `{FlagStore}.

(** [bus_read(cpu->bus, a)], whose result is a [uint8_t]. *)
Definition read (a : Z) (cpu : State6502 B) : Z * State6502 B :=
  let '(d, b) := bus_read (bus cpu) a in (u8 d, set_bus b cpu).

(** [bus_write(cpu->bus, a, d)]. *)
Definition write (a d : Z) (cpu : State6502 B) : State6502 B :=
  set_bus (bus_write (bus cpu) a d) cpu.

(** [bus_read(cpu->bus, cpu->PC++)]. *)
Definition fetch (cpu : State6502 B) : Z * State6502 B :=
  let a := PC cpu in
  let cpu := set_PC (u16 (PC cpu + 1)) cpu in
  read a cpu.

(** [(uint16_t)0x0100 | (uint16_t)cpu->SP]. *)
Definition stack_slot (cpu : State6502 B) : Z :=
  Z.lor (u16 0x0100) (u16 (SP cpu)).

(** *** 13 addressing modes *)

(** Accumulator addressing *)
Definition ACC (cpu : State6502 B) : bool * State6502 B := (false, cpu).

(** Immediate addressing *)
Definition IMM (cpu : State6502 B) : bool * State6502 B :=
  let '(d, cpu) := fetch cpu in
  (false, set_operand d cpu).

(** Zero page *)
Definition ZP0 (cpu : State6502 B) : bool * State6502 B :=
  let '(d, cpu) := fetch cpu in
  let cpu := set_addr d cpu in
  let '(d, cpu) := read (addr cpu) cpu in
  (false, set_operand d cpu).

(** Zero page with X index *)
Definition ZPX (cpu : State6502 B) : bool * State6502 B :=
  let '(addr_low, cpu) := fetch cpu in
  let cpu := set_addr (u16 (Z.land (addr_low + X cpu) 0x00FF)) cpu in
  let '(d, cpu) := read (addr cpu) cpu in
  (false, set_operand d cpu).

(** Zero page with Y index *)
Definition ZPY (cpu : State6502 B) : bool * State6502 B :=
  let '(addr_low, cpu) := fetch cpu in
  let cpu := set_addr (u16 (Z.land (addr_low + Y cpu) 0x00FF)) cpu in
  let '(d, cpu) := read (addr cpu) cpu in
  (false, set_operand d cpu).

(** Absolute *)
Definition ABS (cpu : State6502 B) : bool * State6502 B :=
  let '(addr_low, cpu) := fetch cpu in
  let '(addr_high, cpu) := fetch cpu in
  let cpu := set_addr (u16 (Z.lor (Z.shiftl addr_high 8) addr_low)) cpu in
  let '(d, cpu) := read (addr cpu) cpu in
  (false, set_operand d cpu).

(** Absolute with X index *)
Definition ABX (cpu : State6502 B) : bool * State6502 B :=
  let '(addr_low, cpu) := fetch cpu in
  let '(addr_high, cpu) := fetch cpu in
  let a := u16 (Z.lor (Z.shiftl addr_high 8) addr_low) in
  let cpu := set_addr (u16 (a + X cpu)) cpu in
  let '(d, cpu) := read (addr cpu) cpu in
  let cpu := set_operand d cpu in
  (negb (Z.land a 0xFF00 =? Z.land (addr cpu) 0xFF00), cpu).

(** Absolute with Y index *)
Definition ABY (cpu : State6502 B) : bool * State6502 B :=
  let '(addr_low, cpu) := fetch cpu in
  let '(addr_high, cpu) := fetch cpu in
  let a := u16 (Z.lor (Z.shiftl addr_high 8) addr_low) in
  let cpu := set_addr (u16 (a + Y cpu)) cpu in
  let '(d, cpu) := read (addr cpu) cpu in
  let cpu := set_operand d cpu in
  (negb (Z.land a 0xFF00 =? Z.land (addr cpu) 0xFF00), cpu).

(** Implied *)
Definition IMP (cpu : State6502 B) : bool * State6502 B := (false, cpu).

(** Relative *)
Definition REL (cpu : State6502 B) : bool * State6502 B :=
  let '(d, cpu) := fetch cpu in
  (false, set_operand d cpu).

(** Indirect.  It returns [true] so that [JMP], the only instruction
    that uses it, can tell it from absolute addressing. *)
Definition IND (cpu : State6502 B) : bool * State6502 B :=
  let '(addr_low, cpu) := fetch cpu in
  let '(addr_high, cpu) := fetch cpu in
  let a := u16 (Z.lor (Z.shiftl addr_high 8) addr_low) in
  (* Read high bits *)
  let '(d, cpu) := read (u16 (a + 1)) cpu in
  let cpu := set_indirect_fetch d cpu in
  let cpu := set_indirect_fetch (u16 (Z.shiftl (indirect_fetch cpu) 8)) cpu in
  let '(d, cpu) := read a cpu in
  let cpu := set_indirect_fetch (u16 (Z.lor (indirect_fetch cpu) d)) cpu in
  (true, cpu).

(** Indirect with X index *)
Definition IZX (cpu : State6502 B) : bool * State6502 B :=
  let '(zp_addr, cpu) := fetch cpu in
  let zp_addr := u16 (Z.land (zp_addr + X cpu) 0x00FF) in
  let '(addr_low, cpu) := read zp_addr cpu in
  let '(addr_high, cpu) := read (u16 (Z.land (zp_addr + 1) 0x00FF)) cpu in
  let cpu := set_addr (u16 (Z.lor (Z.shiftl addr_high 8) addr_low)) cpu in
  let '(d, cpu) := read (addr cpu) cpu in
  (false, set_operand d cpu).

(** Indirect with Y index *)
Definition IZY (cpu : State6502 B) : bool * State6502 B :=
  let '(zp_addr, cpu) := fetch cpu in
  let '(addr_low, cpu) := read zp_addr cpu in
  (* Read the next zero page address *)
  let '(addr_high, cpu) := read (u16 (Z.land (zp_addr + 1) 0x00FF)) cpu in
  let a := u16 (Z.lor (Z.shiftl addr_high 8) addr_low) in
  let cpu := set_addr (u16 (a + Y cpu)) cpu in
  let '(d, cpu) := read (addr cpu) cpu in
  let cpu := set_operand d cpu in
  (negb (Z.land a 0xFF00 =? Z.land (addr cpu) 0xFF00), cpu).

(** *** Instructions *)

(** Add with carry *)
Definition ADC (cpu : State6502 B) (c : bool) : Z * State6502 B :=
  let result := u16 (u16 (A cpu) + u16 (operand cpu) + u16 (flag_C cpu)) in
  (* Set status flags *)
  let cpu := set_flag_C (of_bool (255 <? result)) cpu in
  let cpu := set_flag_Z (of_bool (Z.land result 0x00FF =? 0)) cpu in
  let cpu := set_flag_N (of_bool (Z.land result 0x0080 =? 0x0080)) cpu in
  let cpu :=
    set_flag_V
      (of_bool
         (Z.land (Z.land (Z.lnot (Z.lxor (u16 (A cpu)) (u16 (operand cpu))))
                         (Z.lxor (u16 (A cpu)) result))
                 0x0080 =? 0x0080)) cpu in
  (* Store result into register A *)
  let cpu := set_A (u8 (Z.land result 0x00FF)) cpu in
  (if c then 1 else 0, cpu).

(** Jump *)
Definition JMP (cpu : State6502 B) (c : bool) : Z * State6502 B :=
  if c
  then (0, set_PC (indirect_fetch cpu) cpu)  (* Indirect addressing used *)
  else (0, set_PC (u16 (operand cpu)) cpu).  (* Absolute addressing used *)

(** Jump to Subroutine *)
Definition JSR (cpu : State6502 B) (c : bool) : Z * State6502 B :=
  (* Set PC to the last byte of the JSR instruction *)
  let cpu := set_PC (u16 (PC cpu - 1)) cpu in
  (* Push PC to stack *)
  let cpu := write (stack_slot cpu) (u8 (Z.shiftr (PC cpu) 8)) cpu in
  let cpu := set_SP (u8 (SP cpu - 1)) cpu in
  let cpu := write (stack_slot cpu) (u8 (Z.land (PC cpu) 0x00FF)) cpu in
  let cpu := set_SP (u8 (SP cpu - 1)) cpu in
  (0, set_PC (addr cpu) cpu).

(** Return from Interrupt *)
Definition RTI (cpu : State6502 B) (c : bool) : Z * State6502 B :=
  (* Pull status from stack *)
  let cpu := set_SP (u8 (SP cpu + 1)) cpu in
  let '(d, cpu) := read (stack_slot cpu) cpu in
  let cpu := set_status d cpu in
  (* Pull PC from stack *)
  let cpu := set_SP (u8 (SP cpu + 1)) cpu in
  let '(PCL, cpu) := read (stack_slot cpu) cpu in
  let cpu := set_SP (u8 (SP cpu + 1)) cpu in
  let '(PCH, cpu) := read (stack_slot cpu) cpu in
  (* [(PCH << 8) | PCL + 1]: in C, [+] binds tighter than [|] *)
  (0, set_PC (u16 (Z.lor (Z.shiftl PCH 8) (PCL + 1))) cpu).

(** Return from Subroutine *)
Definition RTS (cpu : State6502 B) (c : bool) : Z * State6502 B :=
  (* Pull PC from stack *)
  let cpu := set_SP (u8 (SP cpu + 1)) cpu in
  let '(PCL, cpu) := read (stack_slot cpu) cpu in
  let cpu := set_SP (u8 (SP cpu + 1)) cpu in
  let '(PCH, cpu) := read (stack_slot cpu) cpu in
  (* [(PCH << 8) | PCL + 1]: in C, [+] binds tighter than [|] *)
  (0, set_PC (u16 (Z.lor (Z.shiftl PCH 8) (PCL + 1))) cpu).

(** Subtract with Carry *)
Definition SBC (cpu : State6502 B) (c : bool) : Z * State6502 B :=
  let value := u16 (Z.lxor (u16 (operand cpu)) 0x00FF) in
  let temp := u16 (u16 (A cpu) + value + u16 (flag_C cpu)) in
  let cpu := set_flag_C (of_bool (negb (Z.land temp 0xFF00 =? 0))) cpu in
  let cpu := set_flag_Z (of_bool (Z.land temp 0x00FF =? 0)) cpu in
  let cpu :=
    set_flag_V
      (Z.land (Z.land (Z.lxor temp (u16 (A cpu))) (Z.lxor temp value))
              0x0080) cpu in
  let cpu := set_flag_N (of_bool (Z.land temp 0x0080 =? 0x0080)) cpu in
  let cpu := set_A (u8 (Z.land temp 0x00FF)) cpu in
  (if c then 1 else 0, cpu).

(** One entry of the table [opcodes]: the operation, the addressing
    mode and the number of cycles (the mnemonic is left out). *)
Record Instruction := mkInstruction {
  operation : State6502 B -> bool -> Z * State6502 B;
  adressing_mode : State6502 B -> bool * State6502 B;
  cycles : Z
}.

(** What [clock] does with the entry it has fetched and decoded: the
    addressing mode, then the operation on its result.  The number
    returned is the new value of [remaining]. *)
Definition execute (inst : Instruction) (cpu : State6502 B)
    : Z * State6502 B :=
  let remaining := cycles inst - 1 in
  let '(b, cpu) := adressing_mode inst cpu in
  let '(extra, cpu) := operation inst cpu b in
  (remaining + extra, cpu).

(** The entries of [opcodes] for the instructions above. *)
Definition opcode_20 : Instruction := mkInstruction JSR ABS 6.
Definition opcode_40 : Instruction := mkInstruction RTI IMP 6.
Definition opcode_4C : Instruction := mkInstruction JMP ABS 3.
Definition opcode_60 : Instruction := mkInstruction RTS IMP 6.
Definition opcode_69 : Instruction := mkInstruction ADC IMM 2.
Definition opcode_6C : Instruction := mkInstruction JMP IND 5.
Definition opcode_E9 : Instruction := mkInstruction SBC IMM 2.

(** *** The other instructions *)

(** The two assignments most instructions end with:
    [Z = (value == 0)] and [N = ((value & 0x0080) == 0x0080)]. *)
Definition set_ZN (value : Z) (cpu : State6502 B) : State6502 B :=
  let cpu := set_flag_Z (of_bool (value =? 0)) cpu in
  set_flag_N (of_bool (Z.land value 0x0080 =? 0x0080)) cpu.

(** The body shared by the eight branches: if the condition holds,
    [PC += (int8_t)operand] and the result is [c ? 2 : 1]. *)
Definition branch_if (taken : bool) (cpu : State6502 B) (c : bool)
    : Z * State6502 B :=
  if taken
  then (if c then 2 else 1, set_PC (u16 (PC cpu + s8 (operand cpu))) cpu)
  else (0, cpu).

(** Logical AND *)
Definition AND (cpu : State6502 B) (c : bool) : Z * State6502 B :=
  let cpu := set_A (u8 (Z.land (A cpu) (operand cpu))) cpu in
  (* Set status flags *)
  let cpu := set_ZN (A cpu) cpu in
  (if c then 1 else 0, cpu).

(** Arithmetic Shift Left: the flags of [A << 1]; nothing is stored. *)
Definition ASL (cpu : State6502 B) (c : bool) : Z * State6502 B :=
  let result := u16 (Z.shiftl (u16 (A cpu)) 1) in
  let cpu := set_flag_C (of_bool (Z.land result 0x0100 =? 0x0100)) cpu in
  let cpu := set_flag_Z (of_bool (Z.land result 0x00FF =? 0)) cpu in
  let cpu := set_flag_N (of_bool (Z.land result 0x0080 =? 0x0080)) cpu in
  (0, cpu).

(** Branch if Carry Clear *)
Definition BCC (cpu : State6502 B) (c : bool) : Z * State6502 B :=
  branch_if (flag_C cpu =? 0) cpu c.

(** Branch if Carry Set *)
Definition BCS (cpu : State6502 B) (c : bool) : Z * State6502 B :=
  branch_if (flag_C cpu =? 1) cpu c.

(** Branch if Equal (zero flag set) *)
Definition BEQ (cpu : State6502 B) (c : bool) : Z * State6502 B :=
  branch_if (flag_Z cpu =? 1) cpu c.

(** Bit Test *)
Definition BIT (cpu : State6502 B) (c : bool) : Z * State6502 B :=
  let result := u8 (Z.land (A cpu) (operand cpu)) in
  let cpu := set_flag_Z (of_bool (result =? 0)) cpu in
  let cpu :=
    set_flag_V
      (of_bool (Z.land (operand cpu) (Z.shiftl 1 6) =? Z.shiftl 1 6)) cpu in
  let cpu :=
    set_flag_N
      (of_bool (Z.land (operand cpu) (Z.shiftl 1 7) =? Z.shiftl 1 7)) cpu in
  (0, cpu).

(** Branch if Minus (negative flag set) *)
Definition BMI (cpu : State6502 B) (c : bool) : Z * State6502 B :=
  branch_if (flag_N cpu =? 1) cpu c.

(** Branch if not Equal (zero flag clear) *)
Definition BNE (cpu : State6502 B) (c : bool) : Z * State6502 B :=
  branch_if (flag_Z cpu =? 0) cpu c.

(** Branch if Positive (negative flag clear) *)
Definition BPL (cpu : State6502 B) (c : bool) : Z * State6502 B :=
  branch_if (flag_N cpu =? 0) cpu c.

(** [cpu->status.reg | 1 << 4 | 1 << 5], passed as a [uint8_t]. *)
Definition status_pushed (cpu : State6502 B) : Z :=
  u8 (Z.lor (Z.lor (status cpu) (Z.shiftl 1 4)) (Z.shiftl 1 5)).

(** Force Interrupt *)
Definition BRK (cpu : State6502 B) (c : bool) : Z * State6502 B :=
  (* the address after the BRK instruction is skipped *)
  let cpu := set_PC (u16 (PC cpu + 1)) cpu in
  (* Push PC to stack *)
  let cpu := write (stack_slot cpu) (u8 (Z.shiftr (PC cpu) 8)) cpu in
  let cpu := set_SP (u8 (SP cpu - 1)) cpu in
  let cpu := write (stack_slot cpu) (u8 (Z.land (PC cpu) 0x00FF)) cpu in
  let cpu := set_SP (u8 (SP cpu - 1)) cpu in
  (* Push status to stack, with bits 4 and 5 set *)
  let cpu := write (stack_slot cpu) (status_pushed cpu) cpu in
  let cpu := set_SP (u8 (SP cpu - 1)) cpu in
  (* Set PC to BRK vector 0xFFFE/F *)
  let '(d, cpu) := read 0xFFFF cpu in                       (* High byte *)
  let cpu := set_PC d cpu in
  let cpu := set_PC (u16 (Z.shiftl (PC cpu) 8)) cpu in
  let '(d, cpu) := read 0xFFFE cpu in                       (* Low byte *)
  let cpu := set_PC (u16 (Z.lor (PC cpu) d)) cpu in
  (* Set I flag *)
  (0, set_flag_I 1 cpu).

(** Branch if Overflow Clear *)
Definition BVC (cpu : State6502 B) (c : bool) : Z * State6502 B :=
  branch_if (flag_V cpu =? 0) cpu c.

(** Branch if Overflow Set *)
Definition BVS (cpu : State6502 B) (c : bool) : Z * State6502 B :=
  branch_if (flag_V cpu =? 1) cpu c.

(** Clear Carry Flag, Decimal Mode, Interrupt Disable, Overflow Flag *)
Definition CLC (cpu : State6502 B) (c : bool) : Z * State6502 B :=
  (0, set_flag_C 0 cpu).
Definition CLD (cpu : State6502 B) (c : bool) : Z * State6502 B :=
  (0, set_flag_D 0 cpu).
Definition CLI (cpu : State6502 B) (c : bool) : Z * State6502 B :=
  (0, set_flag_I 0 cpu).
Definition CLV (cpu : State6502 B) (c : bool) : Z * State6502 B :=
  (0, set_flag_V 0 cpu).

(** The body shared by [CMP], [CPX] and [CPY] on the register [reg]. *)
Definition compare (reg : Z) (cpu : State6502 B) : State6502 B :=
  let cpu := set_flag_C (of_bool (operand cpu <=? reg)) cpu in
  let cpu := set_flag_Z (of_bool (reg =? operand cpu)) cpu in
  let result := u16 (u16 reg - u16 (operand cpu)) in
  set_flag_N (of_bool (Z.land result 0x0080 =? 0x0080)) cpu.

(** Compare A register *)
Definition CMP (cpu : State6502 B) (c : bool) : Z * State6502 B :=
  (if c then 1 else 0, compare (A cpu) cpu).

(** Compare X Register *)
Definition CPX (cpu : State6502 B) (c : bool) : Z * State6502 B :=
  (0, compare (X cpu) cpu).

(** Compare Y Register *)
Definition CPY (cpu : State6502 B) (c : bool) : Z * State6502 B :=
  (0, compare (Y cpu) cpu).

(** Decrement Memory *)
Definition DEC (cpu : State6502 B) (c : bool) : Z * State6502 B :=
  let result := u8 (operand cpu - 1) in
  let cpu := write (addr cpu) result cpu in
  (0, set_ZN result cpu).

(** Decrement X Register *)
Definition DEX (cpu : State6502 B) (c : bool) : Z * State6502 B :=
  let cpu := set_X (u8 (X cpu - 1)) cpu in
  (0, set_ZN (X cpu) cpu).

(** Decrement Y Register *)
Definition DEY (cpu : State6502 B) (c : bool) : Z * State6502 B :=
  let cpu := set_Y (u8 (Y cpu - 1)) cpu in
  (0, set_ZN (Y cpu) cpu).

(** Exclusive OR *)
Definition EOR (cpu : State6502 B) (c : bool) : Z * State6502 B :=
  let cpu := set_A (u8 (Z.lxor (A cpu) (operand cpu))) cpu in
  let cpu := set_ZN (A cpu) cpu in
  (if c then 1 else 0, cpu).

(** Increment Memory *)
Definition INC (cpu : State6502 B) (c : bool) : Z * State6502 B :=
  let result := u8 (operand cpu + 1) in
  let cpu := write (addr cpu) result cpu in
  (0, set_ZN result cpu).

(** Increment X Register *)
Definition INX (cpu : State6502 B) (c : bool) : Z * State6502 B :=
  let cpu := set_X (u8 (X cpu + 1)) cpu in
  (0, set_ZN (X cpu) cpu).

(** Increment Y Register *)
Definition INY (cpu : State6502 B) (c : bool) : Z * State6502 B :=
  let cpu := set_Y (u8 (Y cpu + 1)) cpu in
  (0, set_ZN (Y cpu) cpu).

(** Load Accumulator *)
Definition LDA (cpu : State6502 B) (c : bool) : Z * State6502 B :=
  let cpu := set_A (operand cpu) cpu in
  let cpu := set_ZN (A cpu) cpu in
  (if c then 1 else 0, cpu).

(** Load X Register *)
Definition LDX (cpu : State6502 B) (c : bool) : Z * State6502 B :=
  let cpu := set_X (operand cpu) cpu in
  let cpu := set_ZN (X cpu) cpu in
  (if c then 1 else 0, cpu).

(** Load Y Register *)
Definition LDY (cpu : State6502 B) (c : bool) : Z * State6502 B :=
  let cpu := set_Y (operand cpu) cpu in
  let cpu := set_ZN (Y cpu) cpu in
  (if c then 1 else 0, cpu).

(** No Operation *)
Definition NOP (cpu : State6502 B) (c : bool) : Z * State6502 B := (0, cpu).

(** Logical Inclusive OR *)
Definition ORA (cpu : State6502 B) (c : bool) : Z * State6502 B :=
  let cpu := set_A (u8 (Z.lor (A cpu) (operand cpu))) cpu in
  let cpu := set_ZN (A cpu) cpu in
  (if c then 1 else 0, cpu).

(** Push Accumulator *)
Definition PHA (cpu : State6502 B) (c : bool) : Z * State6502 B :=
  let cpu := write (stack_slot cpu) (A cpu) cpu in
  (0, set_SP (u8 (SP cpu - 1)) cpu).

(** Push Processor Status *)
Definition PHP (cpu : State6502 B) (c : bool) : Z * State6502 B :=
  (* Unused bits 4 and 5 are set in a PHP instruction *)
  let cpu := write (stack_slot cpu) (status_pushed cpu) cpu in
  (0, set_SP (u8 (SP cpu - 1)) cpu).

(** Pull Accumulator *)
Definition PLA (cpu : State6502 B) (c : bool) : Z * State6502 B :=
  let cpu := set_SP (u8 (SP cpu + 1)) cpu in
  let '(d, cpu) := read (stack_slot cpu) cpu in
  let cpu := set_A d cpu in
  (0, set_ZN (A cpu) cpu).

(** Pull Processor Status *)
Definition PLP (cpu : State6502 B) (c : bool) : Z * State6502 B :=
  let cpu := set_SP (u8 (SP cpu + 1)) cpu in
  let '(d, cpu) := read (stack_slot cpu) cpu in
  (0, set_status d cpu).

(** Set Carry Flag, Decimal Flag, Interrupt Disable *)
Definition SEC (cpu : State6502 B) (c : bool) : Z * State6502 B :=
  (0, set_flag_C 1 cpu).
Definition SED (cpu : State6502 B) (c : bool) : Z * State6502 B :=
  (0, set_flag_D 1 cpu).
Definition SEI (cpu : State6502 B) (c : bool) : Z * State6502 B :=
  (0, set_flag_I 1 cpu).

(** Store Accumulator, X Register, Y Register *)
Definition STA (cpu : State6502 B) (c : bool) : Z * State6502 B :=
  (0, write (addr cpu) (A cpu) cpu).
Definition STX (cpu : State6502 B) (c : bool) : Z * State6502 B :=
  (0, write (addr cpu) (X cpu) cpu).
Definition STY (cpu : State6502 B) (c : bool) : Z * State6502 B :=
  (0, write (addr cpu) (Y cpu) cpu).

(** Transfer Accumulator to X *)
Definition TAX (cpu : State6502 B) (c : bool) : Z * State6502 B :=
  let cpu := set_X (A cpu) cpu in
  (0, set_ZN (X cpu) cpu).

(** Transfer Accumulator to Y *)
Definition TAY (cpu : State6502 B) (c : bool) : Z * State6502 B :=
  let cpu := set_Y (A cpu) cpu in
  (0, set_ZN (Y cpu) cpu).

(** Transfer Stack Pointer to X *)
Definition TSX (cpu : State6502 B) (c : bool) : Z * State6502 B :=
  let cpu := set_X (SP cpu) cpu in
  (0, set_ZN (X cpu) cpu).

(** Transfer X to Accumulator *)
Definition TXA (cpu : State6502 B) (c : bool) : Z * State6502 B :=
  let cpu := set_A (X cpu) cpu in
  (0, set_ZN (A cpu) cpu).

(** Transfer X to Stack Pointer *)
Definition TXS (cpu : State6502 B) (c : bool) : Z * State6502 B :=
  let cpu := set_SP (X cpu) cpu in
  (0, set_ZN (SP cpu) cpu).

(** Transfer Y to Accumulator *)
Definition TYA (cpu : State6502 B) (c : bool) : Z * State6502 B :=
  let cpu := set_A (Y cpu) cpu in
  (0, set_ZN (A cpu) cpu).

(** An illegal opcode: the message goes to the standard output, which
    nothing in the processor reads back; the state is left alone. *)
Definition XXX (cpu : State6502 B) (c : bool) : Z * State6502 B := (0, cpu).

(** [reset] *)
Definition reset (cpu : State6502 B) : State6502 B :=
  let cpu := set_SP (u8 (SP cpu - 3)) cpu in
  let cpu := set_flag_I 1 cpu in
  write 0x4015 0 cpu.                          (* All channels disabled *)

(** [power_on]; the two [for] loops write 0 to [0x4000..0x400F] and to
    [0x4010..0x4013] in ascending order. *)
Definition power_on (cpu : State6502 B) : State6502 B :=
  let cpu := set_status 0x34 cpu in            (* Interrupt disabled *)
  let cpu := set_A 0 cpu in
  let cpu := set_X 0 cpu in
  let cpu := set_Y 0 cpu in
  let cpu := set_SP 0xFD cpu in
  let cpu := write 0x4015 0 cpu in             (* All channels disabled *)
  let cpu := write 0x4017 0 cpu in             (* Frame IRQ disabled *)
  let cpu := foldl (fun cpu a => write a 0 cpu) cpu (seqZ 0x4000 16) in
  foldl (fun cpu a => write a 0 cpu) cpu (seqZ 0x4010 4).

End Operations.

End Cpu6502.

(** ** The decode table and the clock of the 6502 ([6502.c]) *)

Module Opcodes6502.
Import Cpu6502.
Import String.

Section Table.
Context {B : Type} `{Bus6502Ops B} `{FlagStore}.

(** An operation as the table holds it.  [LSR], [ROL] and [ROR] have an
    empty body: control reaches the end of a function that returns a
    [uint32_t], and [clock] adds the value to [remaining], which C leaves
    undefined.  They are [None]; every other operation returns. *)
Definition operation_t : Type :=
  option (State6502 B -> bool -> Z * State6502 B).

Definition ret (f : State6502 B -> bool -> Z * State6502 B) : operation_t :=
  Some f.

(** Logical Shift Right *)
Definition LSR : operation_t := None.

(** Rotate Left *)
Definition ROL : operation_t := None.

(** Rotate Right *)
Definition ROR : operation_t := None.

(** [Instruction], with the mnemonic. *)
Record Instruction := entry {
  code : string;
  operation : operation_t;
  adressing_mode : State6502 B -> bool * State6502 B;
  cycles : Z
}.

Definition opcodes : list Instruction :=
  [
    (* 0x00 *)
    entry "BRK" (ret BRK) IMM 7; entry "ORA" (ret ORA) IZX 6;
    entry "???" (ret XXX) IMP 2; entry "???" (ret XXX) IMP 8;
    entry "???" (ret NOP) IMP 3; entry "ORA" (ret ORA) ZP0 3;
    entry "ASL" (ret ASL) ZP0 5; entry "???" (ret XXX) IMP 5;
    entry "PHP" (ret PHP) IMP 3; entry "ORA" (ret ORA) IMM 2;
    entry "ASL" (ret ASL) IMP 2; entry "???" (ret XXX) IMP 2;
    entry "???" (ret NOP) IMP 4; entry "ORA" (ret ORA) ABS 4;
    entry "ASL" (ret ASL) ABS 6; entry "???" (ret XXX) IMP 6;
    (* 0x10 *)
    entry "BPL" (ret BPL) REL 2; entry "ORA" (ret ORA) IZY 5;
    entry "???" (ret XXX) IMP 2; entry "???" (ret XXX) IMP 8;
    entry "???" (ret NOP) IMP 4; entry "ORA" (ret ORA) ZPX 4;
    entry "ASL" (ret ASL) ZPX 6; entry "???" (ret XXX) IMP 6;
    entry "CLC" (ret CLC) IMP 2; entry "ORA" (ret ORA) ABY 4;
    entry "???" (ret NOP) IMP 2; entry "???" (ret XXX) IMP 7;
    entry "???" (ret NOP) IMP 4; entry "ORA" (ret ORA) ABX 4;
    entry "ASL" (ret ASL) ABX 7; entry "???" (ret XXX) IMP 7;
    (* 0x20 *)
    entry "JSR" (ret JSR) ABS 6; entry "AND" (ret AND) IZX 6;
    entry "???" (ret XXX) IMP 2; entry "???" (ret XXX) IMP 8;
    entry "BIT" (ret BIT) ZP0 3; entry "AND" (ret AND) ZP0 3;
    entry "ROL" ROL ZP0 5; entry "???" (ret XXX) IMP 5;
    entry "PLP" (ret PLP) IMP 4; entry "AND" (ret AND) IMM 2;
    entry "ROL" ROL IMP 2; entry "???" (ret XXX) IMP 2;
    entry "BIT" (ret BIT) ABS 4; entry "AND" (ret AND) ABS 4;
    entry "ROL" ROL ABS 6; entry "???" (ret XXX) IMP 6;
    (* 0x30 *)
    entry "BMI" (ret BMI) REL 2; entry "AND" (ret AND) IZY 5;
    entry "???" (ret XXX) IMP 2; entry "???" (ret XXX) IMP 8;
    entry "???" (ret NOP) IMP 4; entry "AND" (ret AND) ZPX 4;
    entry "ROL" ROL ZPX 6; entry "???" (ret XXX) IMP 6;
    entry "SEC" (ret SEC) IMP 2; entry "AND" (ret AND) ABY 4;
    entry "???" (ret NOP) IMP 2; entry "???" (ret XXX) IMP 7;
    entry "???" (ret NOP) IMP 4; entry "AND" (ret AND) ABX 4;
    entry "ROL" ROL ABX 7; entry "???" (ret XXX) IMP 7;
    (* 0x40 *)
    entry "RTI" (ret RTI) IMP 6; entry "EOR" (ret EOR) IZX 6;
    entry "???" (ret XXX) IMP 2; entry "???" (ret XXX) IMP 8;
    entry "???" (ret NOP) IMP 3; entry "EOR" (ret EOR) ZP0 3;
    entry "LSR" LSR ZP0 5; entry "???" (ret XXX) IMP 5;
    entry "PHA" (ret PHA) IMP 3; entry "EOR" (ret EOR) IMM 2;
    entry "LSR" LSR IMP 2; entry "???" (ret XXX) IMP 2;
    entry "JMP" (ret JMP) ABS 3; entry "EOR" (ret EOR) ABS 4;
    entry "LSR" LSR ABS 6; entry "???" (ret XXX) IMP 6;
    (* 0x50 *)
    entry "BVC" (ret BVC) REL 2; entry "EOR" (ret EOR) IZY 5;
    entry "???" (ret XXX) IMP 2; entry "???" (ret XXX) IMP 8;
    entry "???" (ret NOP) IMP 4; entry "EOR" (ret EOR) ZPX 4;
    entry "LSR" LSR ZPX 6; entry "???" (ret XXX) IMP 6;
    entry "CLI" (ret CLI) IMP 2; entry "EOR" (ret EOR) ABY 4;
    entry "???" (ret NOP) IMP 2; entry "???" (ret XXX) IMP 7;
    entry "???" (ret NOP) IMP 4; entry "EOR" (ret EOR) ABX 4;
    entry "LSR" LSR ABX 7; entry "???" (ret XXX) IMP 7;
    (* 0x60 *)
    entry "RTS" (ret RTS) IMP 6; entry "ADC" (ret ADC) IZX 6;
    entry "???" (ret XXX) IMP 2; entry "???" (ret XXX) IMP 8;
    entry "???" (ret NOP) IMP 3; entry "ADC" (ret ADC) ZP0 3;
    entry "ROR" ROR ZP0 5; entry "???" (ret XXX) IMP 5;
    entry "PLA" (ret PLA) IMP 4; entry "ADC" (ret ADC) IMM 2;
    entry "ROR" ROR IMP 2; entry "???" (ret XXX) IMP 2;
    entry "JMP" (ret JMP) IND 5; entry "ADC" (ret ADC) ABS 4;
    entry "ROR" ROR ABS 6; entry "???" (ret XXX) IMP 6;
    (* 0x70 *)
    entry "BVS" (ret BVS) REL 2; entry "ADC" (ret ADC) IZY 5;
    entry "???" (ret XXX) IMP 2; entry "???" (ret XXX) IMP 8;
    entry "???" (ret NOP) IMP 4; entry "ADC" (ret ADC) ZPX 4;
    entry "ROR" ROR ZPX 6; entry "???" (ret XXX) IMP 6;
    entry "SEI" (ret SEI) IMP 2; entry "ADC" (ret ADC) ABY 4;
    entry "???" (ret NOP) IMP 2; entry "???" (ret XXX) IMP 7;
    entry "???" (ret NOP) IMP 4; entry "ADC" (ret ADC) ABX 4;
    entry "ROR" ROR ABX 7; entry "???" (ret XXX) IMP 7;
    (* 0x80 *)
    entry "???" (ret NOP) IMP 2; entry "STA" (ret STA) IZX 6;
    entry "???" (ret NOP) IMP 2; entry "???" (ret XXX) IMP 6;
    entry "STY" (ret STY) ZP0 3; entry "STA" (ret STA) ZP0 3;
    entry "STX" (ret STX) ZP0 3; entry "???" (ret XXX) IMP 3;
    entry "DEY" (ret DEY) IMP 2; entry "???" (ret NOP) IMP 2;
    entry "TXA" (ret TXA) IMP 2; entry "???" (ret XXX) IMP 2;
    entry "STY" (ret STY) ABS 4; entry "STA" (ret STA) ABS 4;
    entry "STX" (ret STX) ABS 4; entry "???" (ret XXX) IMP 4;
    (* 0x90 *)
    entry "BCC" (ret BCC) REL 2; entry "STA" (ret STA) IZY 6;
    entry "???" (ret XXX) IMP 2; entry "???" (ret XXX) IMP 6;
    entry "STY" (ret STY) ZPX 4; entry "STA" (ret STA) ZPX 4;
    entry "STX" (ret STX) ZPY 4; entry "???" (ret XXX) IMP 4;
    entry "TYA" (ret TYA) IMP 2; entry "STA" (ret STA) ABY 5;
    entry "TXS" (ret TXS) IMP 2; entry "???" (ret XXX) IMP 5;
    entry "???" (ret NOP) IMP 5; entry "STA" (ret STA) ABX 5;
    entry "???" (ret XXX) IMP 5; entry "???" (ret XXX) IMP 5;
    (* 0xA0 *)
    entry "LDY" (ret LDY) IMM 2; entry "LDA" (ret LDA) IZX 6;
    entry "LDX" (ret LDX) IMM 2; entry "???" (ret XXX) IMP 6;
    entry "LDY" (ret LDY) ZP0 3; entry "LDA" (ret LDA) ZP0 3;
    entry "LDX" (ret LDX) ZP0 3; entry "???" (ret XXX) IMP 3;
    entry "TAY" (ret TAY) IMP 2; entry "LDA" (ret LDA) IMM 2;
    entry "TAX" (ret TAX) IMP 2; entry "???" (ret XXX) IMP 2;
    entry "LDY" (ret LDY) ABS 4; entry "LDA" (ret LDA) ABS 4;
    entry "LDX" (ret LDX) ABS 4; entry "???" (ret XXX) IMP 4;
    (* 0xB0 *)
    entry "BCS" (ret BCS) REL 2; entry "LDA" (ret LDA) IZY 5;
    entry "???" (ret XXX) IMP 2; entry "???" (ret XXX) IMP 5;
    entry "LDY" (ret LDY) ZPX 4; entry "LDA" (ret LDA) ZPX 4;
    entry "LDX" (ret LDX) ZPY 4; entry "???" (ret XXX) IMP 4;
    entry "CLV" (ret CLV) IMP 2; entry "LDA" (ret LDA) ABY 4;
    entry "TSX" (ret TSX) IMP 2; entry "???" (ret XXX) IMP 4;
    entry "LDY" (ret LDY) ABX 4; entry "LDA" (ret LDA) ABX 4;
    entry "LDX" (ret LDX) ABY 4; entry "???" (ret XXX) IMP 4;
    (* 0xC0 *)
    entry "CPY" (ret CPY) IMM 2; entry "CMP" (ret CMP) IZX 6;
    entry "???" (ret NOP) IMP 2; entry "???" (ret XXX) IMP 8;
    entry "CPY" (ret CPY) ZP0 3; entry "CMP" (ret CMP) ZP0 3;
    entry "DEC" (ret DEC) ZP0 5; entry "???" (ret XXX) IMP 5;
    entry "INY" (ret INY) IMP 2; entry "CMP" (ret CMP) IMM 2;
    entry "DEX" (ret DEX) IMP 2; entry "???" (ret XXX) IMP 2;
    entry "CPY" (ret CPY) ABS 4; entry "CMP" (ret CMP) ABS 4;
    entry "DEC" (ret DEC) ABS 6; entry "???" (ret XXX) IMP 6;
    (* 0xD0 *)
    entry "BNE" (ret BNE) REL 2; entry "CMP" (ret CMP) IZY 5;
    entry "???" (ret XXX) IMP 2; entry "???" (ret XXX) IMP 8;
    entry "???" (ret NOP) IMP 4; entry "CMP" (ret CMP) ZPX 4;
    entry "DEC" (ret DEC) ZPX 6; entry "???" (ret XXX) IMP 6;
    entry "CLD" (ret CLD) IMP 2; entry "CMP" (ret CMP) ABY 4;
    entry "NOP" (ret NOP) IMP 2; entry "???" (ret XXX) IMP 7;
    entry "???" (ret NOP) IMP 4; entry "CMP" (ret CMP) ABX 4;
    entry "DEC" (ret DEC) ABX 7; entry "???" (ret XXX) IMP 7;
    (* 0xE0 *)
    entry "CPX" (ret CPX) IMM 2; entry "SBC" (ret SBC) IZX 6;
    entry "???" (ret NOP) IMP 2; entry "???" (ret XXX) IMP 8;
    entry "CPX" (ret CPX) ZP0 3; entry "SBC" (ret SBC) ZP0 3;
    entry "INC" (ret INC) ZP0 5; entry "???" (ret XXX) IMP 5;
    entry "INX" (ret INX) IMP 2; entry "SBC" (ret SBC) IMM 2;
    entry "NOP" (ret NOP) IMP 2; entry "???" (ret SBC) IMP 2;
    entry "CPX" (ret CPX) ABS 4; entry "SBC" (ret SBC) ABS 4;
    entry "INC" (ret INC) ABS 6; entry "???" (ret XXX) IMP 6;
    (* 0xF0 *)
    entry "BEQ" (ret BEQ) REL 2; entry "SBC" (ret SBC) IZY 5;
    entry "???" (ret XXX) IMP 2; entry "???" (ret XXX) IMP 8;
    entry "???" (ret NOP) IMP 4; entry "SBC" (ret SBC) ZPX 4;
    entry "INC" (ret INC) ZPX 6; entry "???" (ret XXX) IMP 6;
    entry "SED" (ret SED) IMP 2; entry "SBC" (ret SBC) ABY 4;
    entry "NOP" (ret NOP) IMP 2; entry "???" (ret XXX) IMP 7;
    entry "???" (ret NOP) IMP 4; entry "SBC" (ret SBC) ABX 4;
    entry "INC" (ret INC) ABX 7; entry "???" (ret XXX) IMP 7
  ]%list.

(** [clock], with the function-static [remaining] passed in and out.  The
    opcode is a byte, so the table always has the entry. *)
Definition clock (remaining : Z) (cpu : State6502 B)
    : option (Z * State6502 B) :=
  if remaining =? 0 then
    let '(opcode, cpu) := fetch cpu in
    inst ← opcodes !! Z.to_nat opcode;
    let remaining := u32 (cycles inst) in
    let remaining := u32 (remaining - 1) in
    let '(b, cpu) := adressing_mode inst cpu in
    f ← operation inst;
    let '(extra, cpu) := f cpu b in
    Some (u32 (remaining + extra), cpu)
  else Some (u32 (remaining - 1), cpu).

(** [n] calls of [clock] in a row. *)
Fixpoint clocks (n : nat) (remaining : Z) (cpu : State6502 B)
    : option (Z * State6502 B) :=
  match n with
  | O => Some (remaining, cpu)
  | S n =>
      r ← clock remaining cpu;
      clocks n (fst r) (snd r)
  end.

End Table.

End Opcodes6502.

(** ** The CPU bus ([6502_Bus.c], the build without [BUS_TEST]) *)

Module CpuBus.

(** The part of [Cartridge] the bus uses: the mapper and the two
    accessors, called with the arguments the bus passes. *)
Record Cartridge (M : Type) := mkCartridge {
  CPUReadCartridge : M -> Z -> Z * M;
  CPUWriteCartridge : M -> Z -> Z -> M;
  mapper : M
}.
Arguments mkCartridge {M}.
Arguments CPUReadCartridge {M}.
Arguments CPUWriteCartridge {M}.
Arguments mapper {M}.

(** Modelled from the spec: [Bus6502] is declared in [6502_Bus.h], which
    is missing.  It holds the work RAM and points to the PPU and to the
    cartridge. *)
Record Bus6502 (B M : Type) := mkBus6502 {
  memory : list Z;
  ppu : Ppu2C02.State2C02 B;
  cartridge : Cartridge M
}.
Arguments mkBus6502 {B M}.
Arguments memory {B M}.
Arguments ppu {B M}.
Arguments cartridge {B M}.

Definition set_memory {B M} (a : list Z) (bus : Bus6502 B M)
    : Bus6502 B M :=
  mkBus6502 a (ppu bus) (cartridge bus).
Definition set_cartridge {B M} (a : Cartridge M) (bus : Bus6502 B M)
    : Bus6502 B M :=
  mkBus6502 (memory bus) (ppu bus) a.

Section Operations.
Context {B M : Type}.

(** [bus->memory[i] = data] and [bus->memory[i]]; an access outside the
    array is undefined. *)
Definition store (i data : Z) (bus : Bus6502 B M)
    : option (Bus6502 B M) :=
  if (0 <=? i) && (i <? Z.of_nat (length (memory bus)))
  then Some (set_memory (<[Z.to_nat i := data]> (memory bus)) bus)
  else None.
Definition load (i : Z) (bus : Bus6502 B M) : option Z :=
  if 0 <=? i then memory bus !! Z.to_nat i else None.

Definition cpu_bus_write (bus : Bus6502 B M) (addr data : Z)
    : option (Bus6502 B M) :=
  if (0x0000 <=? addr) && (addr <? 0x2000) then
    (* Write to internal RAM *)
    let addr := u16 (Z.land addr 0x0800) in
    store addr data bus
  else if (0x2000 <=? addr) && (addr <? 0x4000) then
    (* Write to PPU registers: [write_ppu(bus->ppu, addr)] is a call
       without the data byte, to which C gives no meaning *)
    None
  else if (0x4000 <=? addr) && (addr <? 0x4018) then
    Some bus                       (* NES APU and I/O registers *)
  else if (0x4018 <=? addr) && (addr <? 0x4020) then
    Some bus                       (* normally disabled *)
  else if (0x4020 <=? addr) && (addr <=? 0xFFFF) then
    (* Cartridge *)
    let cart := cartridge bus in
    let m := CPUWriteCartridge cart (mapper cart) addr data in
    Some (set_cartridge
            (mkCartridge (CPUReadCartridge cart) (CPUWriteCartridge cart) m)
            bus)
  else Some bus.

(** Only the RAM branch of [cpu_bus_read] has a [return]: in every
    other branch control reaches the end of a function that returns a
    [uint8_t], and the value the caller receives is undefined. *)
Definition cpu_bus_read (bus : Bus6502 B M) (addr : Z)
    : option (Z * Bus6502 B M) :=
  if (0x0000 <=? addr) && (addr <? 0x2000) then
    (* Read internal RAM *)
    let addr := u16 (Z.land addr 0x0800) in
    d ← load addr bus;
    Some (d, bus)
  else None.

End Operations.

End CpuBus.

(** ** Concrete devices, to run the definitions *)

Module Fixtures.

(** A flat memory behind a bus, as in the [BUS_TEST] build of the CPU
    bus: every address is backed by a byte. *)
Definition flat := Z -> Z.
Definition poke (m : flat) (a d : Z) : flat :=
  fun a' => if a' =? a then d else m a'.
Definition zeroed : flat := fun _ => 0.

#[export] Instance flat_cpu_bus : Cpu6502.Bus6502Ops flat := {|
  Cpu6502.bus_read m a := (m a, m);
  Cpu6502.bus_write m a d := poke m a d
|}.

#[export] Instance flat_ppu_bus : Ppu2C02.Bus2C02Ops flat := {|
  Ppu2C02.ppu_bus_read m a := (m a, m);
  Ppu2C02.ppu_bus_write m a d := poke m a d
|}.

(** The two types a status flag may have: an unsigned one-bit field,
    which keeps bit 0 of the value stored, and a [_Bool] one, which holds
    1 for every non-zero value. *)
Definition unsigned_flags : Cpu6502.FlagStore := {|
  Cpu6502.to_flag e := of_bool (Z.testbit e 0);
  Cpu6502.to_flag_0 := eq_refl;
  Cpu6502.to_flag_1 := eq_refl;
  Cpu6502.to_flag_bit e :=
    match Z.testbit e 0 as b return of_bool b = 0 \/ of_bool b = 1 with
    | true => or_intror eq_refl
    | false => or_introl eq_refl
    end
|}.
Definition bool_flags : Cpu6502.FlagStore := {|
  Cpu6502.to_flag e := of_bool (negb (e =? 0));
  Cpu6502.to_flag_0 := eq_refl;
  Cpu6502.to_flag_1 := eq_refl;
  Cpu6502.to_flag_bit e :=
    match negb (e =? 0) as b return of_bool b = 0 \/ of_bool b = 1 with
    | true => or_intror eq_refl
    | false => or_introl eq_refl
    end
|}.

(** A cartridge without registers: reads give [0], writes are dropped. *)
Definition no_cartridge : CpuBus.Cartridge unit :=
  CpuBus.mkCartridge (fun m _ => (0, m)) (fun m _ _ => m) tt.

(** A PPU with every register and counter at [zero] and a black frame. *)
Definition ppu0 : Ppu2C02.State2C02 flat :=
  Ppu2C02.mkState2C02 0 0 0 0 0 0 0 0 0 0 0 0 0 0 0 0 0 0 0 0 0 0 0
    (replicate (256 * 240) (Ppu2C02.RGB 0 0 0)) zeroed [].

(** That PPU at scanline 241, dot 1, and at scanline -1, dot 1, the
    latter in vertical blank, with the background hidden and shown. *)
Definition ppu_241_1 : Ppu2C02.State2C02 flat :=
  Ppu2C02.set_cycles 1 (Ppu2C02.set_scanline 241 ppu0).
Definition ppu_pre_render_hidden : Ppu2C02.State2C02 flat :=
  Ppu2C02.set_PPUSTATUS 0x80
    (Ppu2C02.set_cycles 1 (Ppu2C02.set_scanline (-1) ppu0)).
Definition ppu_pre_render_shown : Ppu2C02.State2C02 flat :=
  Ppu2C02.set_PPUMASK 0x08 ppu_pre_render_hidden.

(** A CPU with every register at zero in front of the memory [m]. *)
Definition cpu0 (m : flat) : Cpu6502.State6502 flat :=
  Cpu6502.mkState6502 0 0 0 0 0 0 0 0 0 m.

(** The stack holds the return address [0x01FF]: low byte [0xFF] at
    [0x01FE], high byte [0x01] at [0x01FF], below [SP = 0xFD]. *)
Definition cpu_return_01FF : Cpu6502.State6502 flat :=
  Cpu6502.set_SP 0xFD (cpu0 (poke (poke zeroed 0x01FE 0xFF) 0x01FF 0x01)).

(** [JMP $1234] at [0x8000], the opcode already fetched ([PC = 0x8001]);
    the byte [0xEA] is stored at [0x1234]. *)
Definition cpu_jump_1234 : Cpu6502.State6502 flat :=
  Cpu6502.set_PC 0x8001
    (cpu0 (poke (poke (poke (poke zeroed 0x8000 0x4C) 0x8001 0x34)
                      0x8002 0x12) 0x1234 0xEA)).

(** [A = 0x80], operand [0x01], carry set and every other flag clear. *)
Definition cpu_minus_128 : Cpu6502.State6502 flat :=
  Cpu6502.set_status 0x01
    (Cpu6502.set_operand 0x01 (Cpu6502.set_A 0x80 (cpu0 zeroed))).

(** A CPU bus with 2 KiB of zeroed work RAM. *)
Definition bus0 : CpuBus.Bus6502 flat unit :=
  CpuBus.mkBus6502 (replicate 2048 0) ppu0 no_cartridge.

End Fixtures.

(** * Properties *)

(** ** Bits of machine integers *)

Section BitFacts.

Lemma testbit_ones_full n i :
  0 <= n -> Z.testbit (Z.ones n) i = (0 <=? i) && (i <? n).
Proof.
  intros Hn. destruct (Z.leb_spec 0 i) as [Hi|Hi]; simpl.
  - now apply Z.testbit_ones_nonneg.
  - now apply Z.testbit_neg_r.
Qed.

Lemma testbit_shiftl_full a n i :
  0 <= n -> Z.testbit (Z.shiftl a n) i = (0 <=? i) && Z.testbit a (i - n).
Proof.
  intros Hn. destruct (Z.leb_spec 0 i) as [Hi|Hi]; simpl.
  - now apply Z.shiftl_spec.
  - now apply Z.testbit_neg_r.
Qed.

Lemma testbit_shiftr_full a n i :
  0 <= n -> Z.testbit (Z.shiftr a n) i = (0 <=? i) && Z.testbit a (i + n).
Proof.
  intros Hn. destruct (Z.leb_spec 0 i) as [Hi|Hi]; simpl.
  - now apply Z.shiftr_spec.
  - now apply Z.testbit_neg_r.
Qed.

Lemma testbit_lnot_full a i :
  Z.testbit (Z.lnot a) i = (0 <=? i) && negb (Z.testbit a i).
Proof.
  destruct (Z.leb_spec 0 i) as [Hi|Hi]; simpl.
  - now apply Z.lnot_spec.
  - now apply Z.testbit_neg_r.
Qed.

(** A byte has no bit from bit 8 on. *)
Lemma testbit_byte_high d i :
  0 <= d < 256 -> 8 <= i -> Z.testbit d i = false.
Proof.
  intros Hd Hi. apply Z.bits_above_log2; [lia|].
  destruct (Z.eq_dec d 0) as [->|Hne]; [simpl; lia|].
  apply Z.log2_lt_pow2; [lia|].
  apply Z.lt_le_trans with (m := 2 ^ 8); [lia|].
  apply Z.pow_le_mono_r; lia.
Qed.

End BitFacts.

(** Push [Z.testbit] through the bit operations, then split on the
    comparisons of the bit index that this leaves. *)
Ltac bit_rewrite :=
  repeat first
    [ rewrite Z.land_spec | rewrite Z.lor_spec | rewrite Z.lxor_spec
    | rewrite Z.bits_0
    | rewrite testbit_lnot_full
    | rewrite testbit_shiftl_full by lia
    | rewrite testbit_shiftr_full by lia
    | rewrite Z.testbit_mod_pow2 by lia
    | rewrite testbit_ones_full by lia ].

Ltac bit_cases :=
  repeat match goal with
  | |- context [?a <=? ?b] => destruct (Z.leb_spec a b)
  | |- context [?a <? ?b] => destruct (Z.ltb_spec a b)
  end;
  simpl; try lia;
  rewrite ?andb_true_r, ?andb_false_r, ?orb_false_r, ?orb_true_r; simpl;
  try reflexivity; try (f_equal; lia).

Ltac bit_blast :=
  apply Z.bits_inj'; intros ?i ?Hi; bit_rewrite; bit_cases.

Section FieldFacts.

(** A field reads back the low bits of what was stored in it. *)
Lemma field_set_field pos width a r :
  0 <= pos -> 0 <= width ->
  field pos width (set_field pos width a r) = Z.land a (Z.ones width).
Proof. intros Hp Hw. unfold field, set_field. bit_blast. Qed.

(** A flag is not changed by a store into another flag. *)
Lemma field_set_field_other p q a r :
  0 <= p -> 0 <= q -> p <> q ->
  field p 1 (set_field q 1 a r) = field p 1 r.
Proof.
  intros Hp Hq Hne. unfold field, set_field. bit_blast.
  all: destruct (Z.testbit r (i + p)); reflexivity.
Qed.

Lemma field_1_cases pos r : field pos 1 r = 0 \/ field pos 1 r = 1.
Proof.
  unfold field. rewrite Z.land_ones by lia. change (2 ^ 1) with 2.
  pose proof (Z.mod_pos_bound (Z.shiftr r pos) 2). lia.
Qed.

Lemma truthy_field_1 pos r : truthy (field pos 1 r) = true <-> field pos 1 r = 1.
Proof.
  unfold truthy. destruct (field_1_cases pos r) as [E|E]; rewrite E; simpl;
    split; intros; congruence.
Qed.

End FieldFacts.

(** Read a one-bit field back through the stores made after it. *)
Ltac read_flags :=
  repeat match goal with
  | |- context [field ?p 1 (set_field ?q 1 ?a ?r)] =>
      first [ rewrite (field_set_field_other p q a r) by lia
            | rewrite (field_set_field p 1 a r) by lia ]
  end.

(** ** The PPU *)

Section PpuFacts.
Import Ppu2C02 Fixtures.

(** *** What the pieces of [clock_2C02] leave alone *)

Lemma advance_keeps {B} (ppu : State2C02 B) :
  PPUSTATUS (advance ppu) = PPUSTATUS ppu /\ host (advance ppu) = host ppu.
Proof.
  unfold advance; simpl.
  destruct (cycles ppu + 1 =? 341); simpl; [|tauto].
  destruct (scanline ppu + 1 =? 261); simpl; tauto.
Qed.

Lemma fetch_data_inc_v_keeps {B} `{Bus2C02Ops B} (ppu : State2C02 B) :
  PPUSTATUS (fetch_data_inc_v ppu) = PPUSTATUS ppu
  /\ host (fetch_data_inc_v ppu) = host ppu
  /\ scanline (fetch_data_inc_v ppu) = scanline ppu
  /\ cycles (fetch_data_inc_v ppu) = cycles ppu.
Proof.
  unfold fetch_data_inc_v, read_bus.
  repeat match goal with
         | |- context [if ?c then _ else _] => destruct c
         | |- context [ppu_bus_read ?b ?a] => destruct (ppu_bus_read b a)
         end; simpl; tauto.
Qed.

Lemma feed_due_cycle_1 {B} (ppu : State2C02 B) :
  cycles ppu = 1 -> feed_due ppu = false.
Proof. intros E. unfold feed_due. rewrite E. reflexivity. Qed.

(** The clock at scanline 241, dot 1: the two rendering blocks are
    skipped whatever [PPUMASK] holds. *)
Lemma clock_2C02_at_241_1 {B} `{Bus2C02Ops B} (ppu : State2C02 B) :
  scanline ppu = 241 -> cycles ppu = 1 ->
  clock_2C02 ppu = Some (advance (vblank_start ppu)).
Proof.
  intros Hs Hc. destruct ppu; simpl in Hs, Hc; subst.
  unfold clock_2C02.
  destruct (truthy (PPUMASK_b _)); reflexivity.
Qed.

(** The pre-render block at dot 1. *)
Lemma pre_render_line_cycle_1 {B} `{Bus2C02Ops B} (ppu : State2C02 B) :
  cycles ppu = 1 ->
  pre_render_line ppu
  = Some (fetch_data_inc_v (shift_registers (set_PPUSTATUS_V 0 ppu))).
Proof.
  intros Hc. unfold pre_render_line.
  rewrite (feed_due_cycle_1 ppu Hc). cbn [mbind option_bind].
  rewrite Hc. change (1 =? 1) with true. cbv iota.
  cbn [cycles set_PPUSTATUS_V set_PPUSTATUS]. rewrite Hc. reflexivity.
Qed.

(** The clock at scanline -1, dot 1, with the background shown. *)
Lemma clock_2C02_at_pre_render_1 {B} `{Bus2C02Ops B} (ppu : State2C02 B) :
  scanline ppu = -1 -> cycles ppu = 1 -> PPUMASK_b ppu = 1 ->
  clock_2C02 ppu
  = Some (advance
            (fetch_data_inc_v (shift_registers (set_PPUSTATUS_V 0 ppu)))).
Proof.
  intros Hs Hc Hb. unfold clock_2C02. rewrite Hb, Hs.
  change (truthy 1) with true. change (-1 =? -1) with true. cbv iota.
  rewrite (pre_render_line_cycle_1 ppu Hc). cbn [mbind option_bind].
  destruct (fetch_data_inc_v_keeps
              (shift_registers (set_PPUSTATUS_V 0 ppu))) as (_ & _ & Es & _).
  assert (Es' : scanline (fetch_data_inc_v
                            (shift_registers (set_PPUSTATUS_V 0 ppu))) = -1)
    by (rewrite Es; exact Hs).
  rewrite Es'. change ((0 <=? -1) && (-1 <? 240)) with false. cbv iota.
  cbn [mbind option_bind]. rewrite Es'. reflexivity.
Qed.

(** The clock with the background hidden: only the vertical blank block
    and the counters run. *)
Lemma clock_2C02_background_off {B} `{Bus2C02Ops B} (ppu : State2C02 B) :
  PPUMASK_b ppu = 0 ->
  clock_2C02 ppu
  = Some (advance (if (scanline ppu =? 241) && (cycles ppu =? 1)
                   then vblank_start ppu else ppu)).
Proof. intros Hb. unfold clock_2C02. rewrite Hb. reflexivity. Qed.

(** C5: at scanline 241, dot 1, whatever [PPUMASK] holds, one call of
    [clock_2C02] returns with [PPUSTATUS.V] set, and among the calls it
    makes on the host there is an NMI exactly when [PPUCTRL.V] is set. *)
Theorem clock_2C02_vblank_start {B} `{Bus2C02Ops B} (ppu : State2C02 B) :
  scanline ppu = 241 -> cycles ppu = 1 ->
  exists ppu' calls,
    clock_2C02 ppu = Some ppu'
    /\ PPUSTATUS_V ppu' = 1
    /\ host ppu' = host ppu ++ calls
    /\ (In CallNMI calls <-> PPUCTRL_V ppu = 1).
Proof.
  intros Hs Hc.
  exists (advance (vblank_start ppu)).
  exists ((if truthy (PPUCTRL_V ppu) then [CallNMI] else [])
          ++ [CallLoadPixelDataToScreen (pixels ppu)]).
  split; [now apply clock_2C02_at_241_1|].
  destruct (advance_keeps (vblank_start ppu)) as [Est Eho].
  unfold PPUSTATUS_V. rewrite Est, Eho. clear Est Eho.
  pose proof (truthy_field_1 7 (PPUCTRL ppu)) as Hv.
  unfold vblank_start, call, PPUCTRL_V; simpl.
  split; [|split].
  - destruct (truthy _); simpl; now rewrite field_set_field by lia.
  - destruct (truthy _); simpl; [|reflexivity].
    now rewrite <- app_assoc.
  - destruct (truthy (field 7 1 (PPUCTRL ppu))); simpl.
    + split; [intros _; now apply Hv | intros _; now left].
    + split.
      * intros [E|[]]; discriminate E.
      * intros E. apply Hv in E. discriminate E.
Qed.

Lemma clock_2C02_vblank_start_witness :
  exists ppu' calls,
    clock_2C02 ppu_241_1 = Some ppu'
    /\ PPUSTATUS_V ppu' = 1
    /\ host ppu' = host ppu_241_1 ++ calls
    /\ (In CallNMI calls <-> PPUCTRL_V ppu_241_1 = 1).
Proof. apply (clock_2C02_vblank_start ppu_241_1); reflexivity. Defined.

(** With the background hidden, and away from scanline 241, dot 1, the
    clock leaves [PPUSTATUS] as it is. *)
Lemma clock_2C02_background_off_PPUSTATUS {B} `{Bus2C02Ops B}
    (ppu : State2C02 B) :
  PPUMASK_b ppu = 0 -> scanline ppu <> 241 ->
  exists ppu', clock_2C02 ppu = Some ppu' /\ PPUSTATUS ppu' = PPUSTATUS ppu.
Proof.
  intros Hb Hs. rewrite (clock_2C02_background_off ppu Hb).
  destruct (Z.eqb_spec (scanline ppu) 241) as [E|_]; [contradiction|].
  cbn [andb]. eexists; split; [reflexivity|].
  now destruct (advance_keeps ppu).
Qed.

(** C7, at scanline -1, dot 1 with the background hidden ([PPUMASK.b]
    clear) and [PPUSTATUS.V] set: [clock_2C02] returns with [PPUSTATUS.V]
    still set; it does not clear the flag. *)
Lemma clock_2C02_pre_render_hidden_keeps_V :
  scanline ppu_pre_render_hidden = -1
  /\ cycles ppu_pre_render_hidden = 1
  /\ PPUMASK_b ppu_pre_render_hidden = 0
  /\ PPUSTATUS_V ppu_pre_render_hidden = 1
  /\ (exists ppu', clock_2C02 ppu_pre_render_hidden = Some ppu'
                   /\ PPUSTATUS_V ppu' = 1)
  /\ ~ (exists ppu', clock_2C02 ppu_pre_render_hidden = Some ppu'
                     /\ PPUSTATUS_V ppu' = 0).
Proof.
  destruct (clock_2C02_background_off_PPUSTATUS ppu_pre_render_hidden)
    as (q & Eq & Est); [reflexivity | discriminate |].
  repeat split.
  - exists q. split; [exact Eq|]. unfold PPUSTATUS_V. now rewrite Est.
  - intros (ppu' & E & V).
    rewrite Eq in E. injection E as <-.
    unfold PPUSTATUS_V in V. rewrite Est in V. discriminate V.
Qed.

(** The same dot with the background shown ([PPUMASK.b] set): one call
    of [clock_2C02] returns with [PPUSTATUS.V] clear. *)
Theorem clock_2C02_pre_render_clears_V {B} `{Bus2C02Ops B}
    (ppu : State2C02 B) :
  scanline ppu = -1 -> cycles ppu = 1 -> PPUMASK_b ppu = 1 ->
  exists ppu', clock_2C02 ppu = Some ppu' /\ PPUSTATUS_V ppu' = 0.
Proof.
  intros Hs Hc Hb. eexists; split.
  - now apply clock_2C02_at_pre_render_1.
  - unfold PPUSTATUS_V.
    destruct (advance_keeps
                (fetch_data_inc_v (shift_registers (set_PPUSTATUS_V 0 ppu))))
      as [-> _].
    destruct (fetch_data_inc_v_keeps
                (shift_registers (set_PPUSTATUS_V 0 ppu))) as [-> _].
    cbn [PPUSTATUS shift_registers set_pt_shift_low set_pt_shift_high
         set_pa_shift_low set_pa_shift_high set_PPUSTATUS_V set_PPUSTATUS].
    now rewrite field_set_field by lia.
Qed.

Lemma clock_2C02_pre_render_clears_V_witness :
  exists ppu', clock_2C02 ppu_pre_render_shown = Some ppu'
               /\ PPUSTATUS_V ppu' = 0.
Proof.
  apply (clock_2C02_pre_render_clears_V ppu_pre_render_shown); reflexivity.
Defined.

(** *** The data port: reads of [0x2007] *)

(** Below [0x4000] a read moves [v] on by 32 or by 1. *)
Lemma read_ppu_2007_below_4000 {B} `{Bus2C02Ops B} (ppu : State2C02 B) :
  0 <= v ppu < 0x4000 ->
  v (snd (read_ppu ppu 0x2007))
  = v ppu + (if truthy (PPUCTRL_I ppu) then 32 else 1).
Proof.
  intros Hv. unfold read_ppu, read_bus, inc_v.
  change (0x2007 =? 0x2002) with false. change (0x2007 =? 0x2004) with false.
  change (0x2007 =? 0x2007) with true. cbv iota.
  assert (Hu : u16 (v ppu + (if truthy (PPUCTRL_I ppu) then 32 else 1))
               = v ppu + (if truthy (PPUCTRL_I ppu) then 32 else 1)).
  { unfold u16. apply Z.mod_small. destruct (truthy _); lia. }
  destruct (Z.ltb_spec (v ppu) 0x3F00).
  - replace (0 <=? v ppu) with true by (symmetry; apply Z.leb_le; lia).
    cbn [andb]. destruct (ppu_bus_read (bus ppu) (v ppu)). exact Hu.
  - replace (0 <=? v ppu) with true by (symmetry; apply Z.leb_le; lia).
    replace (0x3F00 <=? v ppu) with true by (symmetry; apply Z.leb_le; lia).
    replace (v ppu <? 0x4000) with true by (symmetry; apply Z.ltb_lt; lia).
    cbn [andb].
    destruct (ppu_bus_read (bus ppu) _) as [d1 b1].
    cbn [bus v set_PPUDATA set_bus].
    destruct (ppu_bus_read b1 (v ppu)) as [d2 b2]. exact Hu.
Qed.

(** From [0x4000] on a read returns [0] and changes nothing. *)
Lemma read_ppu_2007_from_4000 {B} `{Bus2C02Ops B} (ppu : State2C02 B) :
  0x4000 <= v ppu -> read_ppu ppu 0x2007 = (0, ppu).
Proof.
  intros Hv. unfold read_ppu.
  change (0x2007 =? 0x2002) with false. change (0x2007 =? 0x2004) with false.
  change (0x2007 =? 0x2007) with true. cbv iota.
  replace (v ppu <? 0x3F00) with false by (symmetry; apply Z.ltb_ge; lia).
  replace (v ppu <? 0x4000) with false by (symmetry; apply Z.ltb_ge; lia).
  now rewrite !andb_false_r.
Qed.

(** C8, at [v = 0x4000] with [PPUCTRL.I] clear: the read of [0x2007]
    returns [0] and leaves [v] at [0x4000], not at [0x4001].
    The state is reached from power-on through the registers: set the
    address [0x3FFF] through [0x2006], then read [0x2007] once. *)
Theorem read_ppu_2007_at_4000 :
  let ppu := set_v 0x4000 ppu0 in
  let s1 := write_ppu (power_on_2C02 ppu0) 0x2006 0x3F in
  let s2 := write_ppu s1 0x2006 0xFF in
  let s3 := snd (read_ppu s2 0x2007) in
  PPUCTRL_I ppu = 0
  /\ read_ppu ppu 0x2007 = (0, ppu)
  /\ v (snd (read_ppu ppu 0x2007)) = 0x4000
  /\ v s2 = 0x3FFF /\ v s3 = 0x4000
  /\ v (snd (read_ppu s3 0x2007)) = 0x4000.
Proof. cbv zeta. repeat split; vm_compute; reflexivity. Qed.

(** *** The address port: writes of [0x2006], reads of [0x2002] *)

Lemma write_ppu_2006_first {B} `{Bus2C02Ops B} (ppu : State2C02 B) data :
  w ppu = 0 ->
  write_ppu ppu 0x2006 data
  = set_w 1
      (set_t (u16 (Z.lor (u16 (Z.land (t ppu) 0x00FF))
                         (Z.shiftl (Z.land (u16 data) 0x3F) 8)))
         (set_PPUADDR data (write_ppu_status ppu data))).
Proof. intros Hw. destruct ppu; simpl in Hw; subst. reflexivity. Qed.

Lemma write_ppu_2006_second {B} `{Bus2C02Ops B} (ppu : State2C02 B) data :
  w ppu = 1 ->
  write_ppu ppu 0x2006 data
  = let t' := u16 (Z.lor (u16 (Z.land (t ppu) 0xFF00)) data) in
    set_w 0
      (set_v t' (set_t t' (set_PPUADDR data (write_ppu_status ppu data)))).
Proof. intros Hw. destruct ppu; simpl in Hw; subst. reflexivity. Qed.

Lemma address_high_bits t0 b :
  0 <= b < 256 ->
  let t1 := u16 (Z.lor (u16 (Z.land t0 0x00FF))
                       (Z.shiftl (Z.land (u16 b) 0x3F) 8)) in
  Z.land (Z.shiftr t1 8) 0x3F = Z.land b 0x3F /\ Z.testbit t1 14 = false.
Proof.
  intros Hb t1; subst t1. unfold u16. change 65536 with (2 ^ 16).
  change 0x00FF with (Z.ones 8). change 0x3F with (Z.ones 6). split.
  - bit_blast. all: replace (i + 8 - 8) with i by lia; reflexivity.
  - bit_rewrite. change (14 <? 8) with false.
    change (14 - 8 <? 6) with false. now rewrite !andb_false_r.
Qed.

Lemma address_low_bits t1 d :
  0 <= d < 256 ->
  Z.land (u16 (Z.lor (u16 (Z.land t1 0xFF00)) d)) 0xFF = d.
Proof.
  intros Hd. unfold u16. change 65536 with (2 ^ 16).
  change 0xFF00 with (Z.shiftl (Z.ones 8) 8). change 0xFF with (Z.ones 8).
  bit_blast. all: symmetry; apply testbit_byte_high; lia.
Qed.

(** C6: with [w == 0], a write of the byte [b] to [0x2006] puts
    [b & 0x3F] into bits 8-13 of [t], clears bit 14 and toggles [w] to
    1; a second write, of any byte [d], puts [d] into the low 8 bits of
    [t] and leaves [v] equal to [t]; a read of [0x2002] clears [w] in
    every state. *)
Theorem write_ppu_2006_protocol {B} `{Bus2C02Ops B}
    (ppu : State2C02 B) (b d : Z) :
  w ppu = 0 -> 0 <= b < 256 -> 0 <= d < 256 ->
  let s1 := write_ppu ppu 0x2006 b in
  let s2 := write_ppu s1 0x2006 d in
  Z.land (Z.shiftr (t s1) 8) 0x3F = Z.land b 0x3F
  /\ Z.testbit (t s1) 14 = false
  /\ w s1 = 1
  /\ Z.land (t s2) 0xFF = d
  /\ v s2 = t s2
  /\ forall q : State2C02 B, w (snd (read_ppu q 0x2002)) = 0.
Proof.
  intros Hw Hb Hd s1 s2.
  assert (E1 : s1 = _) by exact (write_ppu_2006_first ppu b Hw).
  assert (Hw1 : w s1 = 1) by (rewrite E1; reflexivity).
  assert (E2 : s2 = _) by exact (write_ppu_2006_second s1 d Hw1).
  destruct (address_high_bits (t ppu) b Hb) as [Hbits H14].
  repeat split.
  - rewrite E1. exact Hbits.
  - rewrite E1. exact H14.
  - exact Hw1.
  - rewrite E2. cbn [t set_w set_v set_t]. now apply address_low_bits.
  - rewrite E2. reflexivity.
Qed.

Lemma write_ppu_2006_protocol_witness :
  let s1 := write_ppu ppu0 0x2006 0xFF in
  let s2 := write_ppu s1 0x2006 0x12 in
  Z.land (Z.shiftr (t s1) 8) 0x3F = Z.land 0xFF 0x3F
  /\ Z.testbit (t s1) 14 = false
  /\ w s1 = 1
  /\ Z.land (t s2) 0xFF = 0x12
  /\ v s2 = t s2
  /\ forall q : State2C02 flat, w (snd (read_ppu q 0x2002)) = 0.
Proof.
  apply (write_ppu_2006_protocol ppu0 0xFF 0x12); [reflexivity | lia | lia].
Defined.

(** *** The first statement of [write_ppu] *)

Lemma write_ppu_switch_PPUSTATUS {B} `{Bus2C02Ops B}
    (ppu : State2C02 B) addr data :
  PPUSTATUS (write_ppu_switch ppu addr data) = PPUSTATUS ppu.
Proof.
  unfold write_ppu_switch, inc_v.
  repeat match goal with
         | |- context [if ?c then _ else _] => destruct c
         end; reflexivity.
Qed.

Lemma status_low_bits r d :
  Z.land (u8 (Z.lor (Z.land r 0xE0) (Z.land d 0x1F))) 0x1F = Z.land d 0x1F.
Proof.
  unfold u8. change 256 with (2 ^ 8).
  change 0xE0 with (Z.shiftl (Z.ones 3) 5). change 0x1F with (Z.ones 5).
  bit_blast.
Qed.

Lemma status_high_bits r d :
  Z.land (u8 (Z.lor (Z.land r 0xE0) (Z.land d 0x1F))) 0xE0 = Z.land r 0xE0.
Proof.
  unfold u8. change 256 with (2 ^ 8).
  change 0xE0 with (Z.shiftl (Z.ones 3) 5). change 0x1F with (Z.ones 5).
  bit_blast.
Qed.

(** C10: for every register address [write_ppu] accepts and every data
    byte [d], the register-specific [switch] runs on the state in which
    bits 0-4 of [PPUSTATUS] already hold the low 5 bits of [d] and bits
    5-7 are those from before the write; the [switch] does not touch
    [PPUSTATUS] again, and for [0x2003], [0x2004] and [0x4014] it does
    nothing at all. *)
Theorem write_ppu_status_first {B} `{Bus2C02Ops B}
    (ppu : State2C02 B) (addr d : Z) :
  0x2000 <= addr <= 0x2007 \/ addr = 0x4014 -> 0 <= d < 256 ->
  let s := write_ppu_status ppu d in
  write_ppu ppu addr d = write_ppu_switch s addr d
  /\ Z.land (PPUSTATUS s) 0x1F = Z.land d 0x1F
  /\ Z.land (PPUSTATUS s) 0xE0 = Z.land (PPUSTATUS ppu) 0xE0
  /\ PPUSTATUS (write_ppu ppu addr d) = PPUSTATUS s
  /\ (addr = 0x2003 \/ addr = 0x2004 \/ addr = 0x4014 ->
      write_ppu ppu addr d = s).
Proof.
  intros _ _ s. subst s. repeat split.
  - apply status_low_bits.
  - apply status_high_bits.
  - unfold write_ppu. apply write_ppu_switch_PPUSTATUS.
  - intros [-> | [-> | ->]]; reflexivity.
Qed.

Lemma write_ppu_status_first_witness :
  let s := write_ppu_status (power_on_2C02 ppu0) 0xFF in
  write_ppu (power_on_2C02 ppu0) 0x4014 0xFF = write_ppu_switch s 0x4014 0xFF
  /\ Z.land (PPUSTATUS s) 0x1F = Z.land 0xFF 0x1F
  /\ Z.land (PPUSTATUS s) 0xE0 = Z.land (PPUSTATUS (power_on_2C02 ppu0)) 0xE0
  /\ PPUSTATUS (write_ppu (power_on_2C02 ppu0) 0x4014 0xFF) = PPUSTATUS s
  /\ (0x4014 = 0x2003 \/ 0x4014 = 0x2004 \/ 0x4014 = 0x4014 ->
      write_ppu (power_on_2C02 ppu0) 0x4014 0xFF = s).
Proof.
  apply (write_ppu_status_first (power_on_2C02 ppu0) 0x4014 0xFF);
    [right; reflexivity | lia].
Defined.

(** *** The scroll increments *)

(** At coarse X 31 the increment clears coarse X and toggles bit 10. *)
Lemma coarseXinc_wraps v :
  0 <= v < 65536 -> Z.land v 0x001F = 31 ->
  Z.land (coarseXinc v) 0x001F = 0
  /\ Z.testbit (coarseXinc v) 10 = negb (Z.testbit v 10).
Proof.
  intros Hv E. unfold coarseXinc. rewrite E. change (31 =? 31) with true.
  cbv iota. unfold u16. change 65536 with (2 ^ 16).
  change 0x001F with (Z.ones 5). change 0x0400 with (Z.shiftl (Z.ones 1) 10).
  split.
  - bit_blast.
  - bit_rewrite. change (10 <? 16) with true. change (0 <=? 10) with true.
    change (10 <? 5) with false. change (10 - 10 <? 1) with true.
    change (0 <=? 10 - 10) with true. cbn [andb negb].
    now rewrite andb_true_r, xorb_true_r.
Qed.

(** C9, with the value the specification gives: the coarse-X increment
    of [0x041F] is not [0x0400]. *)
Lemma coarseXinc_041F_not_0400 :
  ~ (coarseXinc 0x041F = 0x0400
     /\ Z.testbit (coarseXinc 0x041F) 10 = negb (Z.testbit 0x041F 10)).
Proof. intros [E _]. vm_compute in E. discriminate E. Qed.

(** C9, amended: the coarse-X increment of [0x041F] is [0x0000], and bit
    10 of the result is the complement of bit 10 of the input. *)
Theorem coarseXinc_041F :
  coarseXinc 0x041F = 0x0000
  /\ Z.testbit (coarseXinc 0x041F) 10 = negb (Z.testbit 0x041F 10).
Proof. split; reflexivity. Qed.

(** The example of the fine-Y increment: from fine Y 7 and coarse Y 29
    to fine Y 0, coarse Y 0, with bit 11 toggled. *)
Lemma fineYinc_73A0 : fineYinc 0x73A0 = 0x0800.
Proof. reflexivity. Qed.

End PpuFacts.

(** ** The CPU *)

Section FlagStoreFacts.
Import Cpu6502.
Context `{FlagStore}.

Lemma to_flag_low_bit e : Z.land (to_flag e) (Z.ones 1) = to_flag e.
Proof. destruct (to_flag_bit e) as [-> | ->]; reflexivity. Qed.

Lemma to_flag_of_bool b : to_flag (of_bool b) = of_bool b.
Proof. destruct b; [apply to_flag_1 | apply to_flag_0]. Qed.

End FlagStoreFacts.

Section CpuFacts.
Import Cpu6502 Fixtures.

(** *** [RTS] *)

(** An OR with a byte below a multiple of 256 is an addition. *)
Lemma lor_shiftl_8 h l :
  0 <= l < 256 -> Z.lor (Z.shiftl h 8) l = Z.shiftl h 8 + l.
Proof.
  intros Hl.
  assert (Hdisj : Z.land (Z.shiftl h 8) l = 0).
  { apply Z.bits_inj'; intros i Hi.
    rewrite Z.land_spec, Z.bits_0, Z.shiftl_spec by lia.
    destruct (Z.lt_ge_cases i 8).
    - now rewrite Z.testbit_neg_r by lia.
    - rewrite (testbit_byte_high l i) by lia. apply andb_false_r. }
  now rewrite Z.add_nocarry_lxor, Z.lxor_lor.
Qed.

(** What [RTS] computes from the two bytes it pulls. *)
Lemma RTS_PC {B} `{Bus6502Ops B} (cpu : State6502 B) c :
  let sp1 := u8 (SP cpu + 1) in
  let sp2 := u8 (sp1 + 1) in
  let '(PCL, b1) := bus_read (bus cpu) (Z.lor (u16 0x0100) (u16 sp1)) in
  let '(PCH, b2) := bus_read b1 (Z.lor (u16 0x0100) (u16 sp2)) in
  RTS cpu c
  = (0, set_PC (u16 (Z.lor (Z.shiftl (u8 PCH) 8) (u8 PCL + 1)))
          (set_bus b2 (set_SP sp2 (set_bus b1 (set_SP sp1 cpu))))).
Proof.
  unfold RTS, read, stack_slot. cbn [SP bus set_SP set_bus].
  destruct (bus_read (bus cpu) _) as [PCL b1]. cbn [SP bus set_SP set_bus].
  destruct (bus_read b1 _) as [PCH b2]. reflexivity.
Qed.

(** Unless the low byte is [0xFF], the precedence of [+] over [|] makes
    no difference: the address is the pulled one plus one. *)
Lemma return_address_without_carry PCH PCL :
  0 <= PCH < 256 -> 0 <= PCL < 255 ->
  u16 (Z.lor (Z.shiftl PCH 8) (PCL + 1))
  = u16 (Z.lor (Z.shiftl PCH 8) PCL + 1).
Proof.
  intros Hh Hl. rewrite !lor_shiftl_8 by lia. f_equal. lia.
Qed.

(** With the low byte [0xFF] the carry is ORed into bit 8 and not added:
    under an odd high byte it is lost. *)
Lemma return_address_with_carry PCH :
  0 <= PCH < 256 ->
  u16 (Z.lor (Z.shiftl PCH 8) (0xFF + 1)) = u16 (Z.shiftl (Z.lor PCH 1) 8).
Proof.
  intros Hh. f_equal. change (0xFF + 1) with (Z.shiftl 1 8).
  now rewrite <- Z.shiftl_lor.
Qed.

(** C1, at the return address [0x01FF] on the stack: [RTS] pulls the low
    byte [0xFF] and the high byte [0x01], and leaves [PC = 0x0100] where
    [((PCH << 8) | PCL) + 1] is [0x0200]. *)
Theorem RTS_at_01FF :
  let cpu' := snd (RTS cpu_return_01FF false) in
  bus cpu_return_01FF 0x01FE = 0xFF
  /\ bus cpu_return_01FF 0x01FF = 0x01
  /\ SP cpu' = 0xFF
  /\ PC cpu' = 0x0100
  /\ u16 (Z.lor (Z.shiftl 0x01 8) 0xFF + 1) = 0x0200.
Proof. cbv zeta. repeat split; vm_compute; reflexivity. Qed.

(** *** [JMP] *)

(** After [JMP] with absolute addressing [PC] is the operand, the byte
    stored at the target, and so never leaves page zero. *)
Lemma JMP_absolute_PC {B} `{Bus6502Ops B} (cpu : State6502 B) :
  let cpu' := snd (execute opcode_4C cpu) in
  PC cpu' = operand cpu' /\ 0 <= PC cpu' < 256.
Proof.
  unfold execute, opcode_4C; cbn [adressing_mode operation cycles].
  unfold ABS, fetch, read.
  cbn [PC bus set_PC set_bus set_addr addr].
  destruct (bus_read (bus cpu) _) as [lo b1].
  cbn [PC bus set_PC set_bus set_addr addr].
  destruct (bus_read b1 _) as [hi b2].
  cbn [PC bus set_PC set_bus set_addr addr].
  destruct (bus_read b2 _) as [d b3].
  cbn [JMP snd PC operand set_PC set_operand].
  assert (Hd : 0 <= u8 d < 256) by (unfold u8; apply Z.mod_pos_bound; lia).
  assert (E : u16 (u8 d) = u8 d) by (unfold u16; apply Z.mod_small; lia).
  rewrite E. split; [reflexivity | exact Hd].
Qed.

(** [JSR], through the same addressing mode, jumps to the address. *)
Lemma JSR_PC {B} `{Bus6502Ops B} (cpu : State6502 B) c :
  PC (snd (JSR cpu c)) = addr cpu.
Proof. reflexivity. Qed.

(** C2, at [JMP $1234]: the operand bytes are [0x34], [0x12] and the
    effective address is [0x1234], yet [PC] becomes [0x00EA], the byte
    stored at [0x1234]; [JSR] on the same bytes goes to [0x1234]. *)
Theorem JMP_absolute_at_1234 :
  let cpu' := snd (execute opcode_4C cpu_jump_1234) in
  bus cpu_jump_1234 (PC cpu_jump_1234) = 0x34
  /\ bus cpu_jump_1234 (PC cpu_jump_1234 + 1) = 0x12
  /\ addr cpu' = 0x1234
  /\ PC cpu' = 0x00EA
  /\ PC (snd (execute opcode_20 cpu_jump_1234)) = 0x1234.
Proof. cbv zeta. repeat split; vm_compute; reflexivity. Qed.

(** *** [ADC] and [SBC] *)

(** The carry out of a 16-bit sum, the way [SBC] and [ADC] test it. *)
Lemma carry_tests_agree x :
  0 <= x < 65536 -> negb (Z.land x 0xFF00 =? 0) = (255 <? x).
Proof.
  intros Hx. destruct (Z.ltb_spec 255 x) as [Hc|Hc].
  - destruct (Z.eqb_spec (Z.land x 0xFF00) 0) as [E|_]; [|reflexivity].
    exfalso.
    assert (Hsplit : Z.land x 0xFFFF
                     = Z.lor (Z.land x 0xFF00) (Z.land x 0x00FF))
      by (rewrite <- Z.land_lor_distr_r; reflexivity).
    rewrite E, Z.lor_0_l in Hsplit.
    change 0xFFFF with (Z.ones 16) in Hsplit.
    change 0x00FF with (Z.ones 8) in Hsplit.
    rewrite !Z.land_ones in Hsplit by lia.
    rewrite Z.mod_small in Hsplit by lia.
    pose proof (Z.mod_pos_bound x (2 ^ 8)). lia.
  - replace (Z.land x 0xFF00) with 0; [reflexivity|].
    symmetry. change 0xFF00 with (Z.shiftl (Z.ones 8) 8). bit_blast.
    all: rewrite (testbit_byte_high x) by lia; reflexivity.
Qed.

(** Bit 7 of the overflow expression of [SBC] is bit 7 of the one of
    [ADC]: the operands have the same sign and the result the other. *)
Lemma overflow_tests_agree a v r :
  Z.land (Z.land (Z.lxor r a) (Z.lxor r v)) 0x0080
  = Z.land (Z.land (Z.lnot (Z.lxor a v)) (Z.lxor a r)) 0x0080.
Proof.
  change 0x0080 with (Z.shiftl (Z.ones 1) 7). bit_blast.
  all: destruct (Z.testbit r i), (Z.testbit a i), (Z.testbit v i);
    reflexivity.
Qed.

Lemma land_0080_cases x : Z.land x 0x0080 = 0 \/ Z.land x 0x0080 = 0x0080.
Proof.
  change 0x0080 with (Z.shiftl (Z.ones 1) 7).
  destruct (Z.testbit x 7) eqn:E; [right | left]; bit_blast.
  all: try (replace i with 7 by lia; rewrite E; reflexivity).
  all: apply andb_false_r.
Qed.

(** On bytes, [SBC] of [r] and [ADC] of [r XOR 0xFF] leave the same
    accumulator, carry, zero and negative flags, and cost the same,
    whatever the type of the flags. *)
Lemma SBC_ADC_agree {B} `{Bus6502Ops B} `{FlagStore}
    (cpu : State6502 B) c :
  0 <= operand cpu < 256 ->
  let sbc := SBC cpu c in
  let adc := ADC (set_operand (Z.lxor (operand cpu) 0xFF) cpu) c in
  fst sbc = fst adc
  /\ A (snd sbc) = A (snd adc)
  /\ flag_C (snd sbc) = flag_C (snd adc)
  /\ flag_Z (snd sbc) = flag_Z (snd adc)
  /\ flag_N (snd sbc) = flag_N (snd adc).
Proof.
  intros Ho sbc adc. subst sbc adc.
  unfold SBC, ADC, flag_C, flag_Z, flag_N,
    set_flag_C, set_flag_Z, set_flag_V, set_flag_N.
  cbn [fst snd status set_status set_A set_operand A operand].
  assert (Eo : u16 (operand cpu) = operand cpu)
    by (unfold u16; apply Z.mod_small; lia).
  rewrite Eo.
  set (value := u16 (Z.lxor (operand cpu) 0xFF)).
  set (temp := u16 (u16 (A cpu) + value + u16 (field 0 1 (status cpu)))).
  assert (Ht : 0 <= temp < 65536)
    by (unfold temp, u16; apply Z.mod_pos_bound; lia).
  rewrite (carry_tests_agree temp Ht).
  repeat split; now read_flags.
Qed.

(** The overflow flag after [SBC] holds the conversion of an integer that
    is [0x80] on overflow; after [ADC] it holds 1 on overflow. *)
Lemma SBC_flag_V {B} `{Bus6502Ops B} `{FlagStore} (cpu : State6502 B) c :
  let value := u16 (Z.lxor (u16 (operand cpu)) 0x00FF) in
  let temp := u16 (u16 (A cpu) + value + u16 (flag_C cpu)) in
  flag_V (snd (SBC cpu c))
  = to_flag (Z.land (Z.land (Z.lxor temp (u16 (A cpu))) (Z.lxor temp value))
                    0x0080).
Proof.
  unfold SBC, flag_V, flag_C, set_flag_C, set_flag_Z, set_flag_V, set_flag_N.
  cbn [snd status set_status set_A A operand].
  read_flags. apply to_flag_low_bit.
Qed.

Lemma ADC_flag_V {B} `{Bus6502Ops B} `{FlagStore} (cpu : State6502 B) c :
  let result := u16 (u16 (A cpu) + u16 (operand cpu) + u16 (flag_C cpu)) in
  flag_V (snd (ADC cpu c))
  = of_bool
      (Z.land (Z.land (Z.lnot (Z.lxor (u16 (A cpu)) (u16 (operand cpu))))
                      (Z.lxor (u16 (A cpu)) result))
              0x0080 =? 0x0080).
Proof.
  unfold ADC, flag_V, flag_C, set_flag_C, set_flag_Z, set_flag_V, set_flag_N.
  cbn [snd status set_status set_A A operand].
  read_flags. rewrite to_flag_low_bit. apply to_flag_of_bool.
Qed.

(** If storing [0x80] into a flag sets it, as a [_Bool] bit-field does,
    [SBC] of [r] and [ADC] of [r XOR 0xFF] leave the same [V] as well. *)
Lemma SBC_ADC_agree_V {B} `{Bus6502Ops B} `{FlagStore}
    (cpu : State6502 B) c :
  to_flag 0x0080 = 1 -> 0 <= operand cpu < 256 ->
  flag_V (snd (SBC cpu c))
  = flag_V (snd (ADC (set_operand (Z.lxor (operand cpu) 0xFF) cpu) c)).
Proof.
  intros Hset Ho. rewrite SBC_flag_V, ADC_flag_V. cbv zeta.
  cbn [A operand set_operand]. unfold flag_C. cbn [status set_operand].
  assert (Eo : u16 (operand cpu) = operand cpu)
    by (unfold u16; apply Z.mod_small; lia).
  rewrite Eo.
  set (value := u16 (Z.lxor (operand cpu) 0xFF)).
  set (temp := u16 (u16 (A cpu) + value + u16 (field 0 1 (status cpu)))).
  rewrite overflow_tests_agree.
  destruct (land_0080_cases
              (Z.land (Z.lnot (Z.lxor (u16 (A cpu)) value))
                      (Z.lxor (u16 (A cpu)) temp))) as [-> | ->].
  - apply to_flag_0.
  - exact Hset.
Qed.

Lemma SBC_ADC_agree_V_witness :
  @flag_V flat (snd (@SBC flat bool_flags cpu_minus_128 false))
  = @flag_V flat
      (snd (@ADC flat bool_flags
              (set_operand (Z.lxor (operand cpu_minus_128) 0xFF)
                 cpu_minus_128) false)).
Proof.
  apply (@SBC_ADC_agree_V flat _ bool_flags cpu_minus_128 false);
    [reflexivity | vm_compute; split; [discriminate | reflexivity]].
Defined.

(** If storing [0x80] into a flag clears it, as an unsigned one-bit field
    does, they differ: at [A = 0x80], [r = 0x01] with the carry set, where
    the subtraction overflows, [SBC] leaves [V] clear and [ADC] sets
    it. *)
Lemma SBC_ADC_differ_V `{FlagStore} :
  to_flag 0x0080 = 0 ->
  flag_V (snd (SBC cpu_minus_128 false)) = 0
  /\ flag_V (snd (ADC (set_operand (Z.lxor 0x01 0xFF) cpu_minus_128) false))
     = 1.
Proof.
  intros Hclear. rewrite SBC_flag_V, ADC_flag_V. split.
  - exact Hclear.
  - reflexivity.
Qed.

Lemma SBC_ADC_differ_V_witness :
  @flag_V flat (snd (@SBC flat unsigned_flags cpu_minus_128 false)) = 0
  /\ @flag_V flat
       (snd (@ADC flat unsigned_flags
               (set_operand (Z.lxor 0x01 0xFF) cpu_minus_128) false))
     = 1.
Proof. apply (@SBC_ADC_differ_V unsigned_flags). reflexivity. Defined.

End CpuFacts.

(** ** The CPU bus *)

Section CpuBusFacts.
Import CpuBus Fixtures.

(** The mask [0x0800] keeps one bit of the address. *)
Lemma ram_index_cases a :
  Z.land a 0x0800 = 0 \/ Z.land a 0x0800 = 0x0800.
Proof.
  change 0x0800 with (Z.shiftl (Z.ones 1) 11).
  destruct (Z.testbit a 11) eqn:E; [right | left]; bit_blast.
  all: try (replace i with 11 by lia; rewrite E; reflexivity).
  all: apply andb_false_r.
Qed.

Lemma ram_index_u16 a : u16 (Z.land a 0x0800) = Z.land a 0x0800.
Proof. destruct (ram_index_cases a) as [-> | ->]; reflexivity. Qed.

(** In the RAM range a write stores at index [addr & 0x0800] and a read
    loads from there: the whole range shares the two cells 0 and
    [0x0800]. *)
Lemma cpu_bus_write_ram {B M} (bus : Bus6502 B M) a d :
  0 <= a < 0x2000 ->
  cpu_bus_write bus a d = store (Z.land a 0x0800) d bus.
Proof.
  intros Ha. unfold cpu_bus_write.
  replace (0x0000 <=? a) with true by (symmetry; apply Z.leb_le; lia).
  replace (a <? 0x2000) with true by (symmetry; apply Z.ltb_lt; lia).
  cbn [andb]. now rewrite ram_index_u16.
Qed.

Lemma cpu_bus_read_ram {B M} (bus : Bus6502 B M) a :
  0 <= a < 0x2000 ->
  cpu_bus_read bus a = (d ← load (Z.land a 0x0800) bus; Some (d, bus)).
Proof.
  intros Ha. unfold cpu_bus_read.
  replace (0x0000 <=? a) with true by (symmetry; apply Z.leb_le; lia).
  replace (a <? 0x2000) with true by (symmetry; apply Z.ltb_lt; lia).
  cbn [andb]. now rewrite ram_index_u16.
Qed.

(** C3, at address [0x0001]: the write stores at index 0, not at
    [0x0001 & 0x07FF = 1], and index 1 keeps its byte; a later write to
    [0x0002] lands in the same cell, and the read of [0x0001] returns
    it. *)
Theorem cpu_bus_ram_at_0001 :
  Z.land 0x0001 0x07FF = 1
  /\ (b ← cpu_bus_write bus0 0x0001 0x11; memory b !! 0%nat) = Some 0x11
  /\ (b ← cpu_bus_write bus0 0x0001 0x11; memory b !! 1%nat) = Some 0
  /\ (b1 ← cpu_bus_write bus0 0x0001 0x11;
      b2 ← cpu_bus_write b1 0x0002 0x22;
      r ← cpu_bus_read b2 0x0001;
      Some (fst r)) = Some 0x22.
Proof. repeat split; vm_compute; reflexivity. Qed.

End CpuBusFacts.

(** ** More on the PPU *)

(** [bit_blast] that drops the impossible ranges of the bit index as soon
    as they appear. *)
Ltac bit_split :=
  repeat match goal with
  | |- context [?a <=? ?b] => destruct (Z.leb_spec a b); try lia
  | |- context [?a <? ?b] => destruct (Z.ltb_spec a b); try lia
  end.

Ltac bit_fast :=
  apply Z.bits_inj'; intros ?i ?Hi; bit_rewrite; bit_split;
  cbn [andb orb negb xorb];
  rewrite ?andb_true_r, ?andb_false_r, ?orb_false_r, ?orb_true_r;
  cbn [andb orb negb xorb];
  try reflexivity; try (f_equal; lia).

Section PpuScrollFacts.
Import Ppu2C02 Fixtures.

(** A number below [2 ^ n] has no bit from bit [n] on. *)
Lemma testbit_above n d i :
  0 <= n -> 0 <= d < 2 ^ n -> n <= i -> Z.testbit d i = false.
Proof.
  intros Hn Hd Hi.
  destruct (Z.eq_dec d 0) as [->|Hne]; [apply Z.bits_0|].
  apply Z.bits_above_log2; [lia|].
  apply Z.log2_lt_pow2; [lia|].
  apply Z.lt_le_trans with (m := 2 ^ n); [lia|].
  apply Z.pow_le_mono_r; lia.
Qed.



(** Each copy takes its own bits of [t] and keeps the others of [v]. *)
Theorem copy_horizontal_bits {B} (ppu : State2C02 B) :
  Z.land (v (copy_horizontal ppu)) 0x041F = Z.land (t ppu) 0x041F
  /\ Z.land (v (copy_horizontal ppu)) 0x7BE0 = Z.land (v ppu) 0x7BE0.
Proof.
  unfold copy_horizontal. cbn [v t set_v].
  unfold u16. change 65536 with (2 ^ 16).
  change 0x7BE0 with (Z.lor (Z.shiftl (Z.ones 5) 5) (Z.shiftl (Z.ones 4) 11)).
  change 0x041F with (Z.lor (Z.ones 5) (Z.shiftl (Z.ones 1) 10)).
  split; bit_fast.
  all: try (destruct (Z.testbit (t ppu) i); reflexivity).
  all: try (destruct (Z.testbit (v ppu) i); reflexivity).
Qed.

(** The nametable and attribute addresses lie in the nametable range
    [0x2000..0x2FFF] for every [v], the attribute address in the last 64
    bytes of a nametable. *)
Theorem table_addresses_in_range (a : Z) :
  Z.land (getNameTableAddr a) 0xF000 = 0x2000
  /\ Z.land (getAttribTableAddr a) 0xF3C0 = 0x23C0.
Proof.
  unfold getNameTableAddr, getAttribTableAddr, u16.
  change 65536 with (2 ^ 16).
  change 0xF000 with (Z.shiftl (Z.ones 4) 12).
  change 0x2000 with (Z.shiftl (Z.ones 1) 13).
  change 0x0FFF with (Z.ones 12).
  change 0xF3C0 with (Z.lor (Z.shiftl (Z.ones 4) 6) (Z.shiftl (Z.ones 4) 12)).
  change 0x23C0 with (Z.lor (Z.shiftl (Z.ones 4) 6) (Z.shiftl (Z.ones 1) 13)).
  change 0x0C00 with (Z.shiftl (Z.ones 2) 10).
  change 0x38 with (Z.shiftl (Z.ones 3) 3).
  change 0x07 with (Z.ones 3).
  split; bit_fast.
Qed.

(** *** The registers *)

(** A write of [PPUCTRL] stores the byte, puts its two low bits into bits
    10-11 of [t], clears bit 15 and keeps every other bit of [t]; [v] and
    the toggle are not touched. *)
Theorem write_ppu_2000 {B} `{Bus2C02Ops B} (ppu : State2C02 B) (d : Z) :
  0 <= d < 256 ->
  let s := write_ppu ppu 0x2000 d in
  PPUCTRL s = d
  /\ Z.land (Z.shiftr (t s) 10) 0x03 = Z.land d 0x03
  /\ Z.land (t s) 0xF3FF = Z.land (t ppu) 0x73FF
  /\ v s = v ppu /\ w s = w ppu.
Proof.
  intros Hd s. subst s. unfold write_ppu, write_ppu_switch, write_ppu_status.
  change (0x2000 =? 0x2000) with true. cbv iota.
  unfold PPUCTRL_N, field.
  cbn [PPUCTRL t v w set_PPUCTRL set_PPUSTATUS set_t].
  repeat split.
  - unfold u16. change 65536 with (2 ^ 16).
    change 0x03 with (Z.ones 2).
    change 0x73FF with (Z.lor (Z.ones 10) (Z.shiftl (Z.ones 3) 12)).
    bit_fast.
    all: try (replace (i + 10 - 10 + 0) with i by lia; reflexivity).
  - unfold u16. change 65536 with (2 ^ 16).
    change 0xF3FF with (Z.lor (Z.ones 10) (Z.shiftl (Z.ones 4) 12)).
    change 0x73FF with (Z.lor (Z.ones 10) (Z.shiftl (Z.ones 3) 12)).
    bit_fast.
    all: try (destruct (Z.testbit (t ppu) i); reflexivity).
Qed.

Lemma write_ppu_2000_witness :
  let s := write_ppu (set_t 0x7FFF ppu0) 0x2000 0x42 in
  PPUCTRL s = 0x42
  /\ Z.land (Z.shiftr (t s) 10) 0x03 = Z.land 0x42 0x03
  /\ Z.land (t s) 0xF3FF = Z.land (t (set_t 0x7FFF ppu0)) 0x73FF
  /\ v s = v (set_t 0x7FFF ppu0) /\ w s = w (set_t 0x7FFF ppu0).
Proof. apply (write_ppu_2000 (set_t 0x7FFF ppu0) 0x42). lia. Defined.

Lemma write_ppu_2005_first {B} `{Bus2C02Ops B} (ppu : State2C02 B) data :
  w ppu = 0 ->
  write_ppu ppu 0x2005 data
  = set_w 1
      (set_x (Z.land data 0x07)
         (set_t (u16 (Z.lor (u16 (Z.land (t ppu) 0x7FE0)) (Z.shiftr data 3)))
            (set_PPUSCROLL data (write_ppu_status ppu data)))).
Proof. intros Hw. destruct ppu; simpl in Hw; subst. reflexivity. Qed.

Lemma write_ppu_2005_second {B} `{Bus2C02Ops B} (ppu : State2C02 B) data :
  w ppu = 1 ->
  write_ppu ppu 0x2005 data
  = set_w 0
      (set_t
         (u16 (Z.lor
                 (u16 (Z.lor (u16 (Z.land (t ppu) 0x0C1F))
                             (Z.shiftl (Z.land (u16 data) 0x07) 12)))
                 (Z.shiftl (Z.shiftr (u16 data) 3) 5)))
         (set_PPUSCROLL data (write_ppu_status ppu data))).
Proof. intros Hw. destruct ppu; simpl in Hw; subst. reflexivity. Qed.

(** Two writes of [PPUSCROLL], starting with the toggle clear: fine X is
    the low three bits of the first byte; [t] holds coarse X, coarse Y
    and fine Y from the two bytes and keeps only its nametable bits; the
    toggle is clear again and [v] is untouched. *)
Theorem write_ppu_2005_twice {B} `{Bus2C02Ops B}
    (ppu : State2C02 B) (dx dy : Z) :
  w ppu = 0 -> 0 <= dx < 256 -> 0 <= dy < 256 ->
  let s := write_ppu (write_ppu ppu 0x2005 dx) 0x2005 dy in
  x s = Z.land dx 0x07
  /\ t s = Z.lor (Z.lor (Z.lor (Z.land (t ppu) 0x0C00) (Z.shiftr dx 3))
                        (Z.shiftl (Z.shiftr dy 3) 5))
                 (Z.shiftl (Z.land dy 0x07) 12)
  /\ w s = 0
  /\ v s = v ppu.
Proof.
  intros Hw Hx Hy s. subst s.
  rewrite (write_ppu_2005_first ppu dx Hw).
  rewrite write_ppu_2005_second by reflexivity.
  unfold write_ppu_status.
  cbn [w t x v set_PPUSCROLL set_PPUSTATUS set_t set_x set_w].
  repeat split.
  assert (Ey : u16 dy = dy) by (unfold u16; apply Z.mod_small; lia).
  rewrite Ey.
  unfold u16. change 65536 with (2 ^ 16).
  change 0x7FE0 with (Z.shiftl (Z.ones 10) 5).
  change 0x0C1F with (Z.lor (Z.ones 5) (Z.shiftl (Z.ones 2) 10)).
  change 0x0C00 with (Z.shiftl (Z.ones 2) 10).
  change 0x07 with (Z.ones 3).
  bit_fast.
  all: rewrite ?(testbit_byte_high dx), ?(testbit_byte_high dy) by lia.
  all: rewrite ?andb_false_r, ?orb_false_r; try reflexivity.
  all: try (destruct (Z.testbit (t ppu) i); reflexivity).
  all: cbn [orb]; apply orb_comm.
Qed.

Lemma write_ppu_2005_twice_witness :
  let s := write_ppu (write_ppu (set_t 0x7FFF ppu0) 0x2005 0x7D) 0x2005 0x5E in
  x s = Z.land 0x7D 0x07
  /\ t s = Z.lor (Z.lor (Z.lor (Z.land (t (set_t 0x7FFF ppu0)) 0x0C00)
                               (Z.shiftr 0x7D 3))
                        (Z.shiftl (Z.shiftr 0x5E 3) 5))
                 (Z.shiftl (Z.land 0x5E 0x07) 12)
  /\ w s = 0
  /\ v s = v (set_t 0x7FFF ppu0).
Proof.
  apply (write_ppu_2005_twice (set_t 0x7FFF ppu0) 0x7D 0x5E);
    [reflexivity | lia | lia].
Defined.

(** A read of [PPUSTATUS] returns the register as it was, then clears
    the vertical blank flag and the toggle and keeps the other seven
    bits: a second read finds bit 7 clear. *)
Theorem read_ppu_2002 {B} `{Bus2C02Ops B} (ppu : State2C02 B) :
  let r := read_ppu ppu 0x2002 in
  fst r = PPUSTATUS ppu
  /\ PPUSTATUS_V (snd r) = 0
  /\ Z.land (PPUSTATUS (snd r)) 0x7F = Z.land (PPUSTATUS ppu) 0x7F
  /\ w (snd r) = 0
  /\ Z.testbit (fst (read_ppu (snd r) 0x2002)) 7 = false.
Proof.
  unfold read_ppu. change (0x2002 =? 0x2002) with true. cbv iota zeta.
  unfold PPUSTATUS_V, set_PPUSTATUS_V.
  cbn [fst snd PPUSTATUS w set_w set_PPUSTATUS].
  repeat split.
  - now rewrite field_set_field by lia.
  - unfold set_field. change 0x7F with (Z.ones 7). bit_fast.
    all: destruct (Z.testbit (PPUSTATUS ppu) i); reflexivity.
  - unfold set_field. bit_rewrite.
    change (0 <=? 7) with true. change (0 <=? 7 - 7) with true.
    change (7 - 7 <? 1) with true. cbn [andb negb].
    now rewrite andb_false_r.
Qed.

(** The low five bits of [PPUSTATUS] are those of the last byte written
    to any register: a read of [0x2002] after a write returns them. *)
Theorem write_ppu_then_read_2002 {B} `{Bus2C02Ops B}
    (ppu : State2C02 B) (addr d : Z) :
  Z.land (fst (read_ppu (write_ppu ppu addr d) 0x2002)) 0x1F
  = Z.land d 0x1F.
Proof.
  unfold read_ppu. change (0x2002 =? 0x2002) with true. cbv iota zeta.
  cbn [fst PPUSTATUS set_w].
  unfold write_ppu. rewrite write_ppu_switch_PPUSTATUS.
  unfold write_ppu_status. cbn [PPUSTATUS set_PPUSTATUS].
  apply status_low_bits.
Qed.

End PpuScrollFacts.

(** ** The PPU clock over a frame *)

Section PpuClockFacts.
Import Ppu2C02 Fixtures.

(** With the background hidden the clock touches nothing the picture is
    made of: frame buffer, bus, scroll registers and shift registers stay
    as they are. *)
Theorem clock_2C02_hidden_keeps_picture {B} `{Bus2C02Ops B}
    (ppu : State2C02 B) :
  PPUMASK_b ppu = 0 ->
  exists ppu',
    clock_2C02 ppu = Some ppu'
    /\ pixels ppu' = pixels ppu /\ bus ppu' = bus ppu
    /\ v ppu' = v ppu /\ t ppu' = t ppu /\ x ppu' = x ppu /\ w ppu' = w ppu
    /\ pt_shift_low ppu' = pt_shift_low ppu
    /\ pt_shift_high ppu' = pt_shift_high ppu
    /\ pa_shift_low ppu' = pa_shift_low ppu
    /\ pa_shift_high ppu' = pa_shift_high ppu
    /\ PPUCTRL ppu' = PPUCTRL ppu /\ PPUMASK ppu' = PPUMASK ppu.
Proof.
  intros Hb. rewrite (clock_2C02_background_off ppu Hb).
  eexists; split; [reflexivity|].
  unfold advance, vblank_start, call, set_PPUSTATUS_V.
  repeat match goal with
         | |- context [if ?c then _ else _] => destruct c
         end; cbn; repeat split; reflexivity.
Qed.

Lemma clock_2C02_hidden_keeps_picture_witness :
  exists ppu',
    clock_2C02 ppu_241_1 = Some ppu'
    /\ pixels ppu' = pixels ppu_241_1 /\ bus ppu' = bus ppu_241_1
    /\ v ppu' = v ppu_241_1 /\ t ppu' = t ppu_241_1
    /\ x ppu' = x ppu_241_1 /\ w ppu' = w ppu_241_1
    /\ pt_shift_low ppu' = pt_shift_low ppu_241_1
    /\ pt_shift_high ppu' = pt_shift_high ppu_241_1
    /\ pa_shift_low ppu' = pa_shift_low ppu_241_1
    /\ pa_shift_high ppu' = pa_shift_high ppu_241_1
    /\ PPUCTRL ppu' = PPUCTRL ppu_241_1 /\ PPUMASK ppu' = PPUMASK ppu_241_1.
Proof. apply (clock_2C02_hidden_keeps_picture ppu_241_1). reflexivity. Defined.

(** *** The counters *)

Lemma read_bus_counters {B} `{Bus2C02Ops B} (ppu : State2C02 B) a :
  scanline (snd (read_bus a ppu)) = scanline ppu
  /\ cycles (snd (read_bus a ppu)) = cycles ppu
  /\ evenframe (snd (read_bus a ppu)) = evenframe ppu.
Proof.
  unfold read_bus. destruct (ppu_bus_read (bus ppu) a). cbn. tauto.
Qed.

Lemma fetch_data_inc_v_evenframe {B} `{Bus2C02Ops B} (ppu : State2C02 B) :
  evenframe (fetch_data_inc_v ppu) = evenframe ppu.
Proof.
  unfold fetch_data_inc_v, read_bus.
  repeat match goal with
         | |- context [if ?c then _ else _] => destruct c
         | |- context [ppu_bus_read ?b ?a] => destruct (ppu_bus_read b a)
         end; reflexivity.
Qed.

Lemma pre_render_line_counters {B} `{Bus2C02Ops B} (ppu q : State2C02 B) :
  pre_render_line ppu = Some q ->
  scanline q = scanline ppu /\ cycles q = cycles ppu
  /\ evenframe q = evenframe ppu.
Proof.
  unfold pre_render_line, feedShiftRegisters_of_address.
  destruct (feed_due ppu); cbn [mbind option_bind]; [discriminate|].
  intros [= <-].
  repeat match goal with
         | |- context [if ?c then _ else _] => destruct c
         end;
    rewrite ?fetch_data_inc_v_evenframe;
    repeat match goal with
           | |- context [fetch_data_inc_v ?p] =>
               let K := fresh in
               destruct (fetch_data_inc_v_keeps p) as (_ & _ & K & ?);
               rewrite K; clear K
           end;
    cbn; try tauto.
  all: repeat match goal with
              | E : cycles (fetch_data_inc_v _) = _ |- _ => rewrite E; clear E
              end; cbn; tauto.
Qed.

Lemma store_pixel_counters {B} (ppu q : State2C02 B) index c :
  store_pixel index c ppu = Some q ->
  scanline q = scanline ppu /\ cycles q = cycles ppu
  /\ evenframe q = evenframe ppu.
Proof.
  unfold store_pixel. destruct (_ && _); [|discriminate].
  intros [= <-]. cbn. tauto.
Qed.

Lemma visible_line_counters {B} `{Bus2C02Ops B} (ppu q : State2C02 B) :
  visible_line ppu = Some q ->
  scanline q = scanline ppu /\ cycles q = cycles ppu
  /\ evenframe q = evenframe ppu.
Proof.
  unfold visible_line, feedShiftRegisters_of_address.
  destruct (feed_due ppu); cbn [mbind option_bind]; [discriminate|].
  assert (Hfetch : forall p : State2C02 B,
             scanline (fetch_data_inc_v p) = scanline p
             /\ cycles (fetch_data_inc_v p) = cycles p
             /\ evenframe (fetch_data_inc_v p) = evenframe p).
  { intros p. destruct (fetch_data_inc_v_keeps p) as (_ & _ & ? & ?).
    pose proof (fetch_data_inc_v_evenframe p). tauto. }
  destruct ((1 <=? cycles ppu) && (cycles ppu <? 257)).
  - set (index := scanline ppu * 256 + cycles ppu - 1).
    match goal with
    | |- context [if ?c then _ else _] => destruct c
    end.
    all: match goal with
         | |- context [read_bus ?a ?p] =>
             pose proof (read_bus_counters p a) as Hr;
             destruct (read_bus a p) as [d p1]; cbn [snd] in Hr
         end.
    all: destruct (store_pixel _ _ p1) as [p2|] eqn:Es;
      cbn [mbind option_bind]; [|discriminate].
    all: apply store_pixel_counters in Es.
    all: intros [= <-].
    all: destruct (Hfetch (shift_registers p2)) as (-> & -> & ->).
    all: cbn; intuition congruence.
  - repeat match goal with
           | |- context [if ?c then _ else _] => destruct c
           end; intros [= <-].
    + cbn. tauto.
    + apply Hfetch.
    + tauto.
Qed.

Lemma advance_counters {B} (ppu : State2C02 B) :
  -1 <= scanline ppu <= 260 -> 0 <= cycles ppu <= 340 ->
  -1 <= scanline (advance ppu) <= 260
  /\ 0 <= cycles (advance ppu) <= 340
  /\ dot (advance ppu) = (dot ppu + 1) mod (341 * 262)
  /\ evenframe (advance ppu)
     = if dot ppu =? 341 * 262 - 1 then lnot_c (evenframe ppu)
       else evenframe ppu.
Proof.
  intros Hs Hc. unfold advance, dot.
  cbn [cycles scanline set_cycles].
  destruct (Z.eqb_spec (cycles ppu + 1) 341) as [E|E].
  - cbn [cycles scanline evenframe set_cycles set_scanline].
    destruct (Z.eqb_spec (scanline ppu + 1) 261) as [E'|E'].
    + cbn [cycles scanline evenframe set_cycles set_scanline set_evenframe].
      replace (scanline ppu) with 260 by lia.
      replace (cycles ppu) with 340 by lia.
      repeat split; try lia; reflexivity.
    + cbn [cycles scanline evenframe set_cycles set_scanline].
      replace (cycles ppu) with 340 by lia.
      destruct (Z.eqb_spec ((scanline ppu + 1) * 341 + 340) (341 * 262 - 1));
        [lia|].
      repeat split; try lia.
      rewrite Z.mod_small by lia. lia.
  - cbn [cycles scanline evenframe set_cycles].
    destruct (Z.eqb_spec ((scanline ppu + 1) * 341 + cycles ppu)
                (341 * 262 - 1)); [lia|].
    repeat split; try lia.
    rewrite Z.mod_small by lia. lia.
Qed.

(** The counters never leave their ranges: from a scanline in
    [-1..260] and a dot in [0..340] a call of [clock_2C02] that returns
    leaves them in range and one dot further, wrapping after the 341 * 262
    dots of a frame, where [evenframe] flips. *)
Theorem clock_2C02_counters {B} `{Bus2C02Ops B} (ppu ppu' : State2C02 B) :
  -1 <= scanline ppu <= 260 -> 0 <= cycles ppu <= 340 ->
  clock_2C02 ppu = Some ppu' ->
  -1 <= scanline ppu' <= 260
  /\ 0 <= cycles ppu' <= 340
  /\ dot ppu' = (dot ppu + 1) mod (341 * 262)
  /\ evenframe ppu'
     = if dot ppu =? 341 * 262 - 1 then lnot_c (evenframe ppu)
       else evenframe ppu.
Proof.
  intros Hs Hc. unfold clock_2C02.
  assert (Hblock : forall q,
            (if truthy (PPUMASK_b ppu) then
               ppu0 ← (if scanline ppu =? -1 then pre_render_line ppu
                       else Some ppu);
               if (0 <=? scanline ppu0) && (scanline ppu0 <? 240)
               then visible_line ppu0 else Some ppu0
             else Some ppu) = Some q ->
            scanline q = scanline ppu /\ cycles q = cycles ppu
            /\ evenframe q = evenframe ppu).
  { intros q. destruct (truthy _); [|intros [= <-]; tauto].
    destruct (scanline ppu =? -1).
    - destruct (pre_render_line ppu) as [p1|] eqn:E1;
        cbn [mbind option_bind]; [|discriminate].
      apply pre_render_line_counters in E1.
      destruct (_ && _).
      + intros E2. apply visible_line_counters in E2. intuition congruence.
      + intros [= <-]. exact E1.
    - cbn [mbind option_bind]. destruct (_ && _).
      + apply visible_line_counters.
      + intros [= <-]. tauto. }
  match goal with
  | |- (?blk ≫= _) = _ -> _ => destruct blk as [q|]
  end; cbn [mbind option_bind]; [|discriminate].
  destruct (Hblock q eq_refl) as (Es & Ec & Ee).
  intros [= <-].
  set (q' := if (scanline q =? 241) && (cycles q =? 1)
             then vblank_start q else q).
  assert (Hq : scanline q' = scanline ppu /\ cycles q' = cycles ppu
               /\ evenframe q' = evenframe ppu).
  { subst q'. destruct (_ && _); [|tauto].
    unfold vblank_start, call, set_PPUSTATUS_V.
    destruct (truthy _); cbn; tauto. }
  destruct Hq as (Es' & Ec' & Ee').
  destruct (advance_counters q') as (H1 & H2 & H3 & H4); [lia | lia |].
  unfold dot in *. rewrite Es', Ec', Ee' in *. tauto.
Qed.

Lemma clock_2C02_counters_witness :
  exists ppu',
    clock_2C02 ppu_pre_render_shown = Some ppu'
    /\ -1 <= scanline ppu' <= 260
    /\ 0 <= cycles ppu' <= 340
    /\ dot ppu' = (dot ppu_pre_render_shown + 1) mod (341 * 262)
    /\ evenframe ppu'
       = if dot ppu_pre_render_shown =? 341 * 262 - 1
         then lnot_c (evenframe ppu_pre_render_shown)
         else evenframe ppu_pre_render_shown.
Proof.
  destruct (clock_2C02_pre_render_clears_V ppu_pre_render_shown)
    as (ppu' & E & _); [reflexivity..|].
  exists ppu'. split; [exact E|].
  apply (clock_2C02_counters ppu_pre_render_shown ppu');
    [cbn [scanline cycles]; vm_compute; split; discriminate
    |cbn [scanline cycles]; vm_compute; split; discriminate
    |exact E].
Defined.

(** *** A whole frame with the background hidden *)

Lemma clock_2C02_hidden_step {B} `{Bus2C02Ops B} (ppu : State2C02 B) :
  PPUMASK_b ppu = 0 ->
  -1 <= scanline ppu <= 260 -> 0 <= cycles ppu <= 340 ->
  exists ppu',
    clock_2C02 ppu = Some ppu'
    /\ PPUMASK_b ppu' = 0 /\ pixels ppu' = pixels ppu
    /\ -1 <= scanline ppu' <= 260 /\ 0 <= cycles ppu' <= 340
    /\ dot ppu' = (dot ppu + 1) mod (341 * 262)
    /\ evenframe ppu'
       = if dot ppu =? 341 * 262 - 1 then lnot_c (evenframe ppu)
         else evenframe ppu.
Proof.
  intros Hb Hs Hc. rewrite (clock_2C02_background_off ppu Hb).
  eexists; split; [reflexivity|].
  set (q := if (scanline ppu =? 241) && (cycles ppu =? 1)
            then vblank_start ppu else ppu).
  assert (Hq : scanline q = scanline ppu /\ cycles q = cycles ppu
               /\ evenframe q = evenframe ppu /\ PPUMASK q = PPUMASK ppu
               /\ pixels q = pixels ppu).
  { subst q. destruct (_ && _); [|tauto].
    unfold vblank_start, call, set_PPUSTATUS_V.
    destruct (truthy _); cbn; tauto. }
  destruct Hq as (Es & Ec & Ee & Em & Ep).
  destruct (advance_counters q) as (H1 & H2 & H3 & H4); [lia | lia |].
  assert (Ha : PPUMASK (advance q) = PPUMASK q /\ pixels (advance q) = pixels q).
  { unfold advance.
    repeat match goal with
           | |- context [if ?c then _ else _] => destruct c
           end; cbn; tauto. }
  destruct Ha as (Ham & Hap).
  unfold PPUMASK_b in *. unfold dot in *.
  rewrite Ham, Hap, Em, Ep. rewrite Es, Ec, Ee in *. tauto.
Qed.

Lemma clocks_2C02_hidden {B} `{Bus2C02Ops B} (n : nat) :
  forall ppu : State2C02 B,
    PPUMASK_b ppu = 0 ->
    -1 <= scanline ppu <= 260 -> 0 <= cycles ppu <= 340 ->
    exists ppu',
      clocks_2C02 n ppu = Some ppu'
      /\ PPUMASK_b ppu' = 0 /\ pixels ppu' = pixels ppu
      /\ -1 <= scanline ppu' <= 260 /\ 0 <= cycles ppu' <= 340
      /\ dot ppu' = (dot ppu + Z.of_nat n) mod (341 * 262)
      /\ evenframe ppu'
         = Nat.iter (Z.to_nat ((dot ppu + Z.of_nat n) / (341 * 262)))
             lnot_c (evenframe ppu).
Proof.
  induction n as [|n IH]; intros ppu Hb Hs Hc.
  - exists ppu. cbn [clocks_2C02 Z.of_nat].
    assert (0 <= dot ppu < 341 * 262) by (unfold dot; lia).
    rewrite Z.add_0_r, Z.mod_small, Z.div_small by assumption.
    repeat split; try lia; assumption.
  - destruct (clock_2C02_hidden_step ppu Hb Hs Hc)
      as (p1 & E1 & Hb1 & Hp1 & Hs1 & Hc1 & Hd1 & He1).
    destruct (IH p1 Hb1 Hs1 Hc1)
      as (p2 & E2 & Hb2 & Hp2 & Hs2 & Hc2 & Hd2 & He2).
    exists p2. cbn [clocks_2C02]. rewrite E1. cbn [mbind option_bind].
    split; [exact E2|]. split; [exact Hb2|]. split; [congruence|].
    split; [exact Hs2|]. split; [exact Hc2|].
    assert (Hd : 0 <= dot ppu < 341 * 262) by (unfold dot; lia).
    rewrite Nat2Z.inj_succ.
    split.
    + rewrite Hd2, Hd1, Zplus_mod_idemp_l. f_equal. lia.
    + rewrite He2, He1, Hd1.
      destruct (Z.eqb_spec (dot ppu) (341 * 262 - 1)) as [E|E].
      * rewrite E.
        replace (341 * 262 - 1 + 1) with (341 * 262) by lia.
        rewrite Z_mod_same_full, Z.add_0_l.
        replace (341 * 262 - 1 + Z.succ (Z.of_nat n))
          with (Z.of_nat n + 1 * (341 * 262)) by lia.
        rewrite Z.div_add by lia.
        rewrite Z2Nat.inj_add by (try apply Z.div_pos; lia).
        change (Z.to_nat 1) with 1%nat.
        rewrite Nat.add_1_r. symmetry. apply Nat.iter_succ_r.
      * rewrite (Z.mod_small (dot ppu + 1)) by lia.
        do 3 f_equal. lia.
Qed.

(** With the background hidden the PPU runs for ever, and after the
    341 * 262 dots of a frame it is at the same scanline and dot again, on
    the other frame parity, with the frame buffer as it was. *)
Theorem clocks_2C02_hidden_frame {B} `{Bus2C02Ops B} (ppu : State2C02 B) :
  PPUMASK_b ppu = 0 ->
  -1 <= scanline ppu <= 260 -> 0 <= cycles ppu <= 340 ->
  exists ppu',
    clocks_2C02 (Z.to_nat (341 * 262)) ppu = Some ppu'
    /\ scanline ppu' = scanline ppu /\ cycles ppu' = cycles ppu
    /\ evenframe ppu' = lnot_c (evenframe ppu)
    /\ pixels ppu' = pixels ppu.
Proof.
  intros Hb Hs Hc.
  destruct (clocks_2C02_hidden (Z.to_nat (341 * 262)) ppu Hb Hs Hc)
    as (p & E & _ & Hp & Hs' & Hc' & Hd & He).
  exists p. split; [exact E|].
  rewrite Z2Nat.id in Hd, He by lia.
  assert (Hr : 0 <= dot ppu < 341 * 262) by (unfold dot; lia).
  replace (dot ppu + 341 * 262) with (dot ppu + 1 * (341 * 262)) in Hd, He
    by lia.
  rewrite Z.mod_add, Z.mod_small in Hd by lia.
  rewrite Z.div_add, Z.div_small in He by lia.
  unfold dot in Hd.
  repeat split; try lia; assumption.
Qed.

Lemma clocks_2C02_hidden_frame_witness :
  exists ppu',
    clocks_2C02 (Z.to_nat (341 * 262)) ppu_241_1 = Some ppu'
    /\ scanline ppu' = scanline ppu_241_1 /\ cycles ppu' = cycles ppu_241_1
    /\ evenframe ppu' = lnot_c (evenframe ppu_241_1)
    /\ pixels ppu' = pixels ppu_241_1.
Proof.
  apply (clocks_2C02_hidden_frame ppu_241_1);
    [reflexivity
    |cbn [scanline cycles]; vm_compute; split; discriminate
    |cbn [scanline cycles]; vm_compute; split; discriminate].
Defined.

End PpuClockFacts.

(** ** The scroll increments *)

Section PpuIncrementFacts.
Import Ppu2C02 Fixtures.

Lemma low_bits_mod a b n :
  0 <= n -> a mod 2 ^ n = b mod 2 ^ n ->
  forall i, i < n -> Z.testbit a i = Z.testbit b i.
Proof.
  intros Hn E i Hi. destruct (Z.leb_spec 0 i) as [H0|H0].
  - rewrite <- (Z.mod_pow2_bits_low a n i), <- (Z.mod_pow2_bits_low b n i) by lia.
    now rewrite E.
  - now rewrite !Z.testbit_neg_r.
Qed.

Lemma high_bits_div a b n :
  0 <= n -> a / 2 ^ n = b / 2 ^ n ->
  forall i, n <= i -> Z.testbit a i = Z.testbit b i.
Proof.
  intros Hn E i Hi.
  replace i with (i - n + n) by lia.
  rewrite <- !Z.div_pow2_bits by lia. now rewrite E.
Qed.

Lemma land_31_mod a : Z.land a 0x1F = a mod 32.
Proof. change 0x1F with (Z.ones 5). now rewrite Z.land_ones by lia. Qed.

(** The coarse-X increment, for every 16-bit [v]: coarse X (bits 0-4)
    goes up by one modulo 32, and every other bit stays as it is except
    bit 10, the horizontal nametable, which flips exactly at the wrap
    from 31 to 0. *)
Theorem coarseXinc_step v :
  0 <= v < 65536 ->
  0 <= coarseXinc v < 65536
  /\ Z.land (coarseXinc v) 0x1F = (Z.land v 0x1F + 1) mod 32
  /\ Z.shiftr (coarseXinc v) 5
     = Z.lxor (Z.shiftr v 5) (if Z.land v 0x1F =? 31 then 0x20 else 0).
Proof.
  intros Hv. split; [|split].
  - unfold coarseXinc, u16. destruct (_ =? _); apply Z.mod_pos_bound; lia.
  - unfold coarseXinc. destruct (Z.eqb_spec (Z.land v 0x1F) 31) as [E|E].
    + rewrite E. change ((31 + 1) mod 32) with 0.
      unfold u16. change 65536 with (2 ^ 16).
      change 0x1F with (Z.ones 5).
      change 0x0400 with (Z.shiftl (Z.ones 1) 10).
      bit_fast.
    + rewrite !land_31_mod in *.
      pose proof (Z.div_mod v 32 ltac:(lia)).
      pose proof (Z.mod_pos_bound v 32 ltac:(lia)).
      unfold u16. rewrite (Z.mod_small (v + 1)) by lia.
      now rewrite Zplus_mod_idemp_l.
  - unfold coarseXinc. destruct (Z.eqb_spec (Z.land v 0x1F) 31) as [E|E].
    + unfold u16. change 65536 with (2 ^ 16).
      change 0x1F with (Z.ones 5).
      change 0x0400 with (Z.shiftl (Z.ones 1) 10).
      change 0x20 with (Z.shiftl (Z.ones 1) 5).
      bit_fast.
      all: rewrite ?xorb_false_r; try reflexivity.
      all: symmetry; apply (testbit_above 16 v); lia.
    + rewrite Z.lxor_0_r. rewrite land_31_mod in E.
      pose proof (Z.div_mod v 32 ltac:(lia)).
      pose proof (Z.mod_pos_bound v 32 ltac:(lia)).
      unfold u16. rewrite (Z.mod_small (v + 1)) by lia.
      rewrite !Z.shiftr_div_pow2 by lia. change (2 ^ 5) with 32.
      symmetry. apply (Z.div_unique (v + 1) 32 (v / 32) (v mod 32 + 1)); lia.
Qed.

Lemma coarseXinc_step_witness :
  0 <= coarseXinc 0x2C5F < 65536
  /\ Z.land (coarseXinc 0x2C5F) 0x1F = (Z.land 0x2C5F 0x1F + 1) mod 32
  /\ Z.shiftr (coarseXinc 0x2C5F) 5
     = Z.lxor (Z.shiftr 0x2C5F 5)
         (if Z.land 0x2C5F 0x1F =? 31 then 0x20 else 0).
Proof. apply (coarseXinc_step 0x2C5F). lia. Defined.

Lemma land_7_mod a : Z.land a 7 = a mod 8.
Proof. change 7 with (Z.ones 3). now rewrite Z.land_ones by lia. Qed.

Lemma fine_Y_test v :
  (Z.land v 0x7000 =? 0x7000) = (Z.land (Z.shiftr v 12) 7 =? 7).
Proof.
  assert (E : Z.land v 0x7000 = Z.shiftl (Z.land (Z.shiftr v 12) 7) 12).
  { change 0x7000 with (Z.shiftl (Z.ones 3) 12). change 7 with (Z.ones 3).
    bit_fast. }
  rewrite E, Z.shiftl_mul_pow2 by lia. change (2 ^ 12) with 4096.
  destruct (Z.eqb_spec (Z.land (Z.shiftr v 12) 7) 7) as [->|Hne].
  - reflexivity.
  - apply Z.eqb_neq. lia.
Qed.

Lemma coarse_Y_cleared v :
  Z.shiftr (Z.land (u16 (Z.land v (Z.lnot 0x7000))) 0x03E0) 5
  = Z.land (Z.shiftr v 5) 0x1F.
Proof.
  unfold u16. change 65536 with (2 ^ 16).
  change 0x7000 with (Z.shiftl (Z.ones 3) 12).
  change 0x03E0 with (Z.shiftl (Z.ones 5) 5). change 0x1F with (Z.ones 5).
  bit_fast.
Qed.

Lemma fineYinc_wrap v (w : bool) y :
  0 <= v < 65536 -> 0 <= y < 32 ->
  let v0 := u16 (Z.land v (Z.lnot 0x7000)) in
  let r := u16 (Z.lor (Z.land (if w then u16 (Z.lxor v0 0x0800) else v0)
                              (Z.lnot 0x03E0))
                      (Z.shiftl y 5)) in
  0 <= r < 65536
  /\ Z.land (Z.shiftr r 12) 7 = 0
  /\ Z.land (Z.shiftr r 5) 0x1F = y
  /\ Z.testbit r 11 = xorb (Z.testbit v 11) w
  /\ Z.land r 0x841F = Z.land v 0x841F.
Proof.
  intros Hv Hy v0 r. split; [apply Z.mod_pos_bound; lia|].
  assert (Hyb : forall i, 5 <= i -> Z.testbit y i = false)
    by (intros; apply (testbit_above 5 y); lia).
  subst r v0. unfold u16. change 65536 with (2 ^ 16).
  change 0x7000 with (Z.shiftl (Z.ones 3) 12).
  change 0x03E0 with (Z.shiftl (Z.ones 5) 5). change 0x1F with (Z.ones 5).
  change 7 with (Z.ones 3).
  change 0x841F with (Z.lor (Z.lor (Z.ones 5) (Z.shiftl (Z.ones 1) 10))
                            (Z.shiftl (Z.ones 1) 15)).
  change 0x0800 with (Z.shiftl (Z.ones 1) 11).
  destruct w; repeat split;
    [bit_fast | bit_fast
    |bit_rewrite; bit_split; cbn [andb orb negb xorb] | bit_fast
    |bit_fast | bit_fast
    |bit_rewrite; bit_split; cbn [andb orb negb xorb] | bit_fast].
  all: rewrite ?Hyb by lia; rewrite ?(Z.testbit_neg_r y) by lia;
    rewrite ?orb_false_r; try reflexivity.
  all: try (f_equal; lia).
  all: try (destruct (Z.testbit v 11); reflexivity).
  all: try (destruct (Z.testbit v i); reflexivity).
  all: try (symmetry; apply (testbit_above 16 v); lia).
Qed.

Lemma fineYinc_carry v :
  0 <= v < 65536 -> Z.land (Z.shiftr v 12) 7 <> 7 ->
  let r := u16 (v + 0x1000) in
  0 <= r < 65536
  /\ Z.land (Z.shiftr r 12) 7 = Z.land (Z.shiftr v 12) 7 + 1
  /\ r mod 2 ^ 12 = v mod 2 ^ 12
  /\ r / 2 ^ 15 = v / 2 ^ 15.
Proof.
  intros Hv Hf r. subst r.
  rewrite !land_7_mod in *. rewrite !Z.shiftr_div_pow2 in * by lia.
  change (2 ^ 12) with 4096 in *. change (2 ^ 15) with 32768.
  pose proof (Z.div_mod v 4096 ltac:(lia)) as Dv.
  pose proof (Z.mod_pos_bound v 4096 ltac:(lia)) as Bv.
  pose proof (Z.div_mod (v / 4096) 8 ltac:(lia)) as Dh.
  pose proof (Z.mod_pos_bound (v / 4096) 8 ltac:(lia)) as Bh.
  assert (Hh : 0 <= v / 4096 < 16)
    by (split; [apply Z.div_pos; lia | apply Z.div_lt_upper_bound; lia]).
  unfold u16. rewrite (Z.mod_small (v + 4096)) by lia.
  replace (v + 4096) with (v + 1 * 4096) by lia.
  rewrite Z.div_add, Z.mod_add by lia.
  split; [lia|]. split; [|split; [reflexivity|]].
  - symmetry.
    apply (Z.mod_unique (v / 4096 + 1) 8 (v / 4096 / 8)); lia.
  - change 32768 with (4096 * 8). rewrite <- !Z.div_div by lia.
    rewrite Z.div_add by lia.
    symmetry.
    apply (Z.div_unique (v / 4096 + 1) 8 (v / 4096 / 8)
             ((v / 4096) mod 8 + 1)); lia.
Qed.

(** The fine-Y increment, for every 16-bit [v]: fine Y (bits 12-14) goes
    up by one modulo 8; when it wraps, coarse Y (bits 5-9) goes up by one
    modulo 32, except that from 29 it goes to 0 and bit 11, the vertical
    nametable, flips; coarse X, bit 10 and bit 15 stay as they are. *)
Theorem fineYinc_step v :
  0 <= v < 65536 ->
  0 <= fineYinc v < 65536
  /\ Z.land (Z.shiftr (fineYinc v) 12) 7
     = (Z.land (Z.shiftr v 12) 7 + 1) mod 8
  /\ Z.land (Z.shiftr (fineYinc v) 5) 0x1F
     = (if Z.land (Z.shiftr v 12) 7 =? 7
        then if Z.land (Z.shiftr v 5) 0x1F =? 29 then 0
             else (Z.land (Z.shiftr v 5) 0x1F + 1) mod 32
        else Z.land (Z.shiftr v 5) 0x1F)
  /\ Z.testbit (fineYinc v) 11
     = xorb (Z.testbit v 11)
         ((Z.land (Z.shiftr v 12) 7 =? 7)
          && (Z.land (Z.shiftr v 5) 0x1F =? 29))
  /\ Z.land (fineYinc v) 0x841F = Z.land v 0x841F.
Proof.
  intros Hv. unfold fineYinc. rewrite fine_Y_test.
  destruct (Z.eqb_spec (Z.land (Z.shiftr v 12) 7) 7) as [E|E]; cbn [negb andb].
  - rewrite coarse_Y_cleared. rewrite E. change ((7 + 1) mod 8) with 0.
    set (cy := Z.land (Z.shiftr v 5) 0x1F).
    assert (Hcy : 0 <= cy < 32).
    { subst cy. rewrite land_31_mod. apply Z.mod_pos_bound. lia. }
    destruct (Z.eqb_spec cy 29) as [E29|E29].
    + apply (fineYinc_wrap v true 0); lia.
    + destruct (Z.eqb_spec cy 31) as [E31|E31].
      * rewrite E31. change ((31 + 1) mod 32) with 0.
        apply (fineYinc_wrap v false 0); lia.
      * rewrite (Z.mod_small (cy + 1)) by lia.
        apply (fineYinc_wrap v false (cy + 1)); lia.
  - rewrite xorb_false_r.
    destruct (fineYinc_carry v Hv E) as (Hr & Hf & Hlow & Hhigh).
    cbv zeta in Hr, Hf, Hlow, Hhigh.
    set (r := u16 (v + 0x1000)) in *.
    assert (Hfy : 0 <= Z.land (Z.shiftr v 12) 7 < 8)
      by (rewrite land_7_mod; apply Z.mod_pos_bound; lia).
    split; [exact Hr|]. split; [rewrite Hf, Z.mod_small; lia|].
    pose proof (low_bits_mod r v 12 ltac:(lia) Hlow) as Bl.
    pose proof (high_bits_div r v 15 ltac:(lia) Hhigh) as Bh.
    change 0x1F with (Z.ones 5).
    change 0x841F with (Z.lor (Z.lor (Z.ones 5) (Z.shiftl (Z.ones 1) 10))
                              (Z.shiftl (Z.ones 1) 15)).
    repeat split.
    + bit_fast. all: rewrite Bl by lia; reflexivity.
    + apply Bl. lia.
    + bit_fast. all: try (rewrite Bl by lia; reflexivity).
      all: try (rewrite Bh by lia; reflexivity).
Qed.

Lemma fineYinc_step_witness :
  0 <= fineYinc 0x7BA5 < 65536
  /\ Z.land (Z.shiftr (fineYinc 0x7BA5) 12) 7
     = (Z.land (Z.shiftr 0x7BA5 12) 7 + 1) mod 8
  /\ Z.land (Z.shiftr (fineYinc 0x7BA5) 5) 0x1F
     = (if Z.land (Z.shiftr 0x7BA5 12) 7 =? 7
        then if Z.land (Z.shiftr 0x7BA5 5) 0x1F =? 29 then 0
             else (Z.land (Z.shiftr 0x7BA5 5) 0x1F + 1) mod 32
        else Z.land (Z.shiftr 0x7BA5 5) 0x1F)
  /\ Z.testbit (fineYinc 0x7BA5) 11
     = xorb (Z.testbit 0x7BA5 11)
         ((Z.land (Z.shiftr 0x7BA5 12) 7 =? 7)
          && (Z.land (Z.shiftr 0x7BA5 5) 0x1F =? 29))
  /\ Z.land (fineYinc 0x7BA5) 0x841F = Z.land 0x7BA5 0x841F.
Proof. apply (fineYinc_step 0x7BA5). lia. Defined.

End PpuIncrementFacts.

(** ** The PPU data port *)

Section PpuDataFacts.
Import Ppu2C02 Fixtures.

Lemma address_assembled t0 hi lo :
  0 <= hi < 256 -> 0 <= lo < 256 ->
  u16 (Z.lor (u16 (Z.land
                     (u16 (Z.lor (u16 (Z.land t0 0x00FF))
                                 (Z.shiftl (Z.land (u16 hi) 0x3F) 8)))
                     0xFF00))
             lo)
  = Z.lor (Z.shiftl (Z.land hi 0x3F) 8) lo.
Proof.
  intros Hhi Hlo. unfold u16. change 65536 with (2 ^ 16).
  change 0x00FF with (Z.ones 8). change 0x3F with (Z.ones 6).
  change 0xFF00 with (Z.shiftl (Z.ones 8) 8).
  bit_fast.
  all: try (destruct (Z.testbit hi (i - 8)); reflexivity).
  all: try (symmetry; apply (testbit_above 8 lo); lia).
  all: rewrite ?(testbit_above 8 lo) by lia; rewrite ?orb_false_r;
    try reflexivity.
Qed.

(** Two writes to [0x2006] starting with [w == 0] point [v] at the
    14-bit address they spell, high six bits first, and touch neither the
    bus nor the read buffer. *)
Lemma write_ppu_2006_twice {B} `{Bus2C02Ops B}
    (ppu : State2C02 B) (hi lo : Z) :
  w ppu = 0 -> 0 <= hi < 256 -> 0 <= lo < 256 ->
  let ppu' := write_ppu (write_ppu ppu 0x2006 hi) 0x2006 lo in
  v ppu' = Z.lor (Z.shiftl (Z.land hi 0x3F) 8) lo
  /\ 0 <= v ppu' < 0x4000
  /\ w ppu' = 0
  /\ bus ppu' = bus ppu /\ PPUDATA ppu' = PPUDATA ppu
  /\ PPUCTRL ppu' = PPUCTRL ppu.
Proof.
  intros Hw Hhi Hlo.
  rewrite (write_ppu_2006_first ppu hi Hw).
  rewrite write_ppu_2006_second by reflexivity.
  cbv zeta. unfold write_ppu_status.
  cbn [v w t bus PPUDATA PPUCTRL set_w set_v set_t set_PPUADDR set_PPUSTATUS].
  rewrite address_assembled by assumption.
  assert (Ha : 0 <= Z.lor (Z.shiftl (Z.land hi 0x3F) 8) lo < 0x4000).
  { rewrite lor_shiftl_8, Z.shiftl_mul_pow2 by lia.
    change 0x3F with (Z.ones 6). rewrite Z.land_ones by lia.
    pose proof (Z.mod_pos_bound hi (2 ^ 6) ltac:(lia)). lia. }
  repeat split; try reflexivity; lia.
Qed.

Lemma write_ppu_2007_eq {B} `{Bus2C02Ops B} (ppu : State2C02 B) d :
  write_ppu ppu 0x2007 d
  = inc_v (set_bus (ppu_bus_write (bus ppu) (v ppu) d)
             (set_PPUDATA d (write_ppu_status ppu d))).
Proof. reflexivity. Qed.

Lemma read_ppu_2007_buffer_eq {B} `{Bus2C02Ops B} (ppu : State2C02 B) :
  0 <= v ppu < 0x3F00 ->
  read_ppu ppu 0x2007
  = (PPUDATA ppu,
     inc_v (set_PPUDATA (fst (read_bus (v ppu) ppu))
              (snd (read_bus (v ppu) ppu)))).
Proof.
  intros Hv. unfold read_ppu.
  change (0x2007 =? 0x2002) with false. change (0x2007 =? 0x2004) with false.
  change (0x2007 =? 0x2007) with true. cbv iota.
  replace (0 <=? v ppu) with true by (symmetry; apply Z.leb_le; lia).
  replace (v ppu <? 0x3F00) with true by (symmetry; apply Z.ltb_lt; lia).
  cbn [andb]. destruct (read_bus (v ppu) ppu). reflexivity.
Qed.

(** Below [0x3F00] the data port is buffered: a read returns what the
    buffer [PPUDATA] held, refills it with the byte the bus gives for the
    address in [v], and moves [v] on by 1 or 32; in the palette range
    [0x3F00..0x3FFF] a read returns the byte of the bus itself. *)
Theorem read_ppu_2007_buffered {B} `{Bus2C02Ops B} (ppu : State2C02 B) :
  (0 <= v ppu < 0x3F00 ->
   fst (read_ppu ppu 0x2007) = PPUDATA ppu
   /\ PPUDATA (snd (read_ppu ppu 0x2007))
      = u8 (fst (ppu_bus_read (bus ppu) (v ppu)))
   /\ bus (snd (read_ppu ppu 0x2007))
      = snd (ppu_bus_read (bus ppu) (v ppu))
   /\ v (snd (read_ppu ppu 0x2007))
      = v ppu + (if truthy (PPUCTRL_I ppu) then 32 else 1))
  /\ (0x3F00 <= v ppu < 0x4000 ->
      let mirror := u16 (Z.lor 0x2000 (Z.land (v ppu) 0x03FF)) in
      let b1 := snd (ppu_bus_read (bus ppu) mirror) in
      fst (read_ppu ppu 0x2007) = u8 (fst (ppu_bus_read b1 (v ppu)))
      /\ PPUDATA (snd (read_ppu ppu 0x2007))
         = u8 (fst (ppu_bus_read (bus ppu) mirror))).
Proof.
  split.
  - intros Hv. rewrite (read_ppu_2007_buffer_eq ppu Hv).
    unfold read_bus, inc_v.
    destruct (ppu_bus_read (bus ppu) (v ppu)) as [d b].
    cbn. repeat split.
    unfold u16. apply Z.mod_small. destruct (truthy _); lia.
  - intros Hv mirror b1. subst b1. unfold read_ppu.
    change (0x2007 =? 0x2002) with false. change (0x2007 =? 0x2004) with false.
    change (0x2007 =? 0x2007) with true. cbv iota.
    replace (v ppu <? 0x3F00) with false by (symmetry; apply Z.ltb_ge; lia).
    rewrite andb_false_r.
    replace (0x3F00 <=? v ppu) with true by (symmetry; apply Z.leb_le; lia).
    replace (v ppu <? 0x4000) with true by (symmetry; apply Z.ltb_lt; lia).
    cbn [andb]. fold mirror. unfold read_bus, inc_v.
    destruct (ppu_bus_read (bus ppu) mirror) as [d1 b1].
    cbn [bus v set_bus set_PPUDATA snd fst].
    destruct (ppu_bus_read b1 (v ppu)) as [d2 b2].
    split; reflexivity.
Qed.

Lemma read_ppu_2007_buffered_witness :
  fst (read_ppu ppu0 0x2007) = PPUDATA ppu0
  /\ PPUDATA (snd (read_ppu ppu0 0x2007))
     = u8 (fst (ppu_bus_read (bus ppu0) (v ppu0)))
  /\ bus (snd (read_ppu ppu0 0x2007))
     = snd (ppu_bus_read (bus ppu0) (v ppu0))
  /\ v (snd (read_ppu ppu0 0x2007))
     = v ppu0 + (if truthy (PPUCTRL_I ppu0) then 32 else 1).
Proof.
  apply (proj1 (read_ppu_2007_buffered ppu0)).
  change (0 <= 0 < 0x3F00). lia.
Defined.

Lemma write_ppu_2007_fields {B} `{Bus2C02Ops B} (ppu : State2C02 B) d :
  w (write_ppu ppu 0x2007 d) = w ppu
  /\ PPUDATA (write_ppu ppu 0x2007 d) = d
  /\ bus (write_ppu ppu 0x2007 d) = ppu_bus_write (bus ppu) (v ppu) d.
Proof. repeat split; reflexivity. Qed.

Lemma read_ppu_2007_twice (ppu : State2C02 flat) :
  0 <= v ppu < 0x3E00 ->
  fst (read_ppu ppu 0x2007) = PPUDATA ppu
  /\ fst (read_ppu (snd (read_ppu ppu 0x2007)) 0x2007) = u8 (bus ppu (v ppu)).
Proof.
  intros Hv. rewrite (read_ppu_2007_buffer_eq ppu) by lia.
  split; [reflexivity|]. cbn [snd].
  rewrite read_ppu_2007_buffer_eq.
  - reflexivity.
  - unfold inc_v, read_bus. cbn. unfold u16. rewrite Z.mod_small.
    + destruct (truthy _); lia.
    + destruct (truthy _); lia.
Qed.

(** A byte written through the data port comes back through it: point
    [v] at an address below [0x3E00], write [d] to [0x2007], point [v] at
    the address again and read [0x2007] twice; the second read returns
    [d].  The first read returns [d] as well, since the write left it in
    the read buffer. *)
Theorem ppu_data_round_trip (ppu : State2C02 flat) (hi lo d : Z) :
  w ppu = 0 -> 0 <= hi < 0x3E -> 0 <= lo < 256 -> 0 <= d < 256 ->
  let point p := write_ppu (write_ppu p 0x2006 hi) 0x2006 lo in
  let written := write_ppu (point ppu) 0x2007 d in
  let first := read_ppu (point written) 0x2007 in
  let second := read_ppu (snd first) 0x2007 in
  v (point ppu) = Z.lor (Z.shiftl hi 8) lo
  /\ bus written (Z.lor (Z.shiftl hi 8) lo) = d
  /\ fst first = d /\ fst second = d.
Proof.
  intros Hw Hhi Hlo Hd. cbv zeta beta.
  assert (Hh : Z.land hi 0x3F = hi).
  { change 0x3F with (Z.ones 6). rewrite Z.land_ones by lia.
    apply Z.mod_small. change (2 ^ 6) with 64. lia. }
  assert (Ha : 0 <= Z.lor (Z.shiftl hi 8) lo < 0x3E00).
  { rewrite lor_shiftl_8, Z.shiftl_mul_pow2 by lia.
    change (2 ^ 8) with 256. lia. }
  pose proof (write_ppu_2006_twice ppu hi lo Hw ltac:(lia) Hlo) as K0.
  cbv zeta in K0. rewrite Hh in K0.
  destruct K0 as (Hv0 & _ & Hw0 & Hb0 & _).
  generalize dependent (write_ppu (write_ppu ppu 0x2006 hi) 0x2006 lo).
  intros p0 Hv0 Hw0 Hb0.
  destruct (write_ppu_2007_fields p0 d) as (Hw1 & Hd1 & Hb1).
  rewrite Hw0 in Hw1. rewrite Hv0 in Hb1.
  generalize dependent (write_ppu p0 0x2007 d).
  intros p1 Hw1 Hd1 Hb1.
  pose proof (write_ppu_2006_twice p1 hi lo Hw1 ltac:(lia) Hlo) as K2.
  cbv zeta in K2. rewrite Hh in K2.
  destruct K2 as (Hv2 & _ & _ & Hb2 & Hd2 & _).
  generalize dependent (write_ppu (write_ppu p1 0x2006 hi) 0x2006 lo).
  intros p2 Hv2 Hb2 Hd2.
  destruct (read_ppu_2007_twice p2 ltac:(lia)) as (R1 & R2).
  rewrite R1, R2, Hd2, Hd1, Hb2, Hb1, Hv2.
  assert (Hpoke : ppu_bus_write (bus p0) (Z.lor (Z.shiftl hi 8) lo) d
                    (Z.lor (Z.shiftl hi 8) lo) = d).
  { cbn [ppu_bus_write flat_ppu_bus]. unfold poke. now rewrite Z.eqb_refl. }
  rewrite Hpoke. unfold u8. rewrite Z.mod_small by lia. tauto.
Qed.

Lemma ppu_data_round_trip_witness :
  let point p := write_ppu (write_ppu p 0x2006 0x21) 0x2006 0x08 in
  let written := write_ppu (point ppu0) 0x2007 0xAB in
  let first := read_ppu (point written) 0x2007 in
  let second := read_ppu (snd first) 0x2007 in
  v (point ppu0) = Z.lor (Z.shiftl 0x21 8) 0x08
  /\ bus written (Z.lor (Z.shiftl 0x21 8) 0x08) = 0xAB
  /\ fst first = 0xAB /\ fst second = 0xAB.
Proof.
  apply (ppu_data_round_trip ppu0 0x21 0x08 0xAB); [reflexivity | lia..].
Defined.

End PpuDataFacts.

(** ** More on the CPU *)

Section CpuMoreFacts.
Import Cpu6502 Opcodes6502 Fixtures.

(** *** Bytes, signs and the plain memory *)

Lemma u8_range z : 0 <= u8 z < 256.
Proof. unfold u8. apply Z.mod_pos_bound. lia. Qed.

Lemma u8_small z : 0 <= z < 256 -> u8 z = z.
Proof. intros Hz. unfold u8. now apply Z.mod_small. Qed.

Lemma u16_small z : 0 <= z < 65536 -> u16 z = z.
Proof. intros Hz. unfold u16. now apply Z.mod_small. Qed.

Lemma u32_small z : 0 <= z < 4294967296 -> u32 z = z.
Proof. intros Hz. unfold u32. now apply Z.mod_small. Qed.

Lemma land_FF_mod x : Z.land x 0x00FF = x mod 256.
Proof. change 0x00FF with (Z.ones 8). now rewrite Z.land_ones by lia. Qed.

Lemma land_0080_testbit x :
  Z.land x 0x0080 = if Z.testbit x 7 then 0x0080 else 0.
Proof.
  change 0x0080 with (Z.shiftl (Z.ones 1) 7).
  destruct (Z.testbit x 7) eqn:E; bit_fast.
  all: try (replace i with 7 by lia; rewrite E; reflexivity).
  all: try apply andb_false_r.
Qed.

Lemma bit7_byte d : 0 <= d < 256 -> Z.testbit d 7 = (128 <=? d).
Proof.
  intros Hd. rewrite Z.testbit_odd, Z.shiftr_div_pow2 by lia.
  change (2 ^ 7) with 128.
  destruct (Z.leb_spec 128 d).
  - replace (d / 128) with 1; [reflexivity|].
    apply (Z.div_unique d 128 1 (d - 128)); lia.
  - now rewrite Z.div_small by lia.
Qed.

Lemma sign_test x : (Z.land x 0x0080 =? 0x0080) = Z.testbit x 7.
Proof. rewrite land_0080_testbit. now destruct (Z.testbit x 7). Qed.

(** The sign test of the instructions, on a byte. *)
Lemma sign_test_byte d :
  0 <= d < 256 -> (Z.land d 0x0080 =? 0x0080) = (128 <=? d).
Proof.
  intros Hd. rewrite land_0080_testbit, bit7_byte by assumption.
  now destruct (128 <=? d).
Qed.

(** Bit 7 of an integer is bit 7 of its low byte. *)
Lemma bit7_mod x : Z.testbit x 7 = (128 <=? x mod 256).
Proof.
  rewrite <- (bit7_byte (x mod 256)) by (apply Z.mod_pos_bound; lia).
  change 256 with (2 ^ 8). now rewrite Z.mod_pow2_bits_low by lia.
Qed.

Lemma s8_byte d :
  0 <= d < 256 -> s8 d = if 128 <=? d then d - 256 else d.
Proof.
  intros Hd. unfold s8. rewrite u8_small by lia.
  destruct (Z.ltb_spec d 128), (Z.leb_spec 128 d); lia.
Qed.

Lemma poke_same (m : flat) a d : poke m a d a = d.
Proof. unfold poke. now rewrite Z.eqb_refl. Qed.

Lemma poke_other (m : flat) a d a' : a' <> a -> poke m a d a' = m a'.
Proof.
  intros Hne. unfold poke.
  now replace (a' =? a) with false by (symmetry; apply Z.eqb_neq; lia).
Qed.

Lemma fetch_eq {B} `{Bus6502Ops B} (cpu : State6502 B) :
  fetch cpu
  = (u8 (fst (bus_read (bus cpu) (PC cpu))),
     set_bus (snd (bus_read (bus cpu) (PC cpu)))
       (set_PC (u16 (PC cpu + 1)) cpu)).
Proof.
  unfold fetch, read. cbn [bus set_PC].
  now destruct (bus_read (bus cpu) (PC cpu)).
Qed.

Lemma read_eq {B} `{Bus6502Ops B} (cpu : State6502 B) a :
  read a cpu
  = (u8 (fst (bus_read (bus cpu) a)), set_bus (snd (bus_read (bus cpu) a)) cpu).
Proof. unfold read. now destruct (bus_read (bus cpu) a). Qed.

Lemma fetch_byte {B} `{Bus6502Ops B} (cpu : State6502 B) :
  0 <= fst (fetch cpu) < 256.
Proof.
  unfold fetch, read. cbn [bus set_PC].
  destruct (bus_read (bus cpu) (PC cpu)). apply u8_range.
Qed.

Lemma set_ZN_flags {B} `{FlagStore} (value : Z) (cpu : State6502 B) :
  flag_Z (set_ZN value cpu) = of_bool (value =? 0)
  /\ flag_N (set_ZN value cpu) = of_bool (Z.land value 0x0080 =? 0x0080)
  /\ flag_C (set_ZN value cpu) = flag_C cpu
  /\ flag_V (set_ZN value cpu) = flag_V cpu
  /\ flag_I (set_ZN value cpu) = flag_I cpu
  /\ flag_D (set_ZN value cpu) = flag_D cpu.
Proof.
  unfold set_ZN, flag_Z, flag_N, flag_C, flag_V, flag_I, flag_D,
    set_flag_Z, set_flag_N.
  cbn [status set_status].
  repeat split; read_flags;
    rewrite ?to_flag_low_bit, ?to_flag_of_bool; reflexivity.
Qed.

Lemma set_ZN_registers {B} `{FlagStore} (value : Z) (cpu : State6502 B) :
  A (set_ZN value cpu) = A cpu /\ X (set_ZN value cpu) = X cpu
  /\ Y (set_ZN value cpu) = Y cpu /\ SP (set_ZN value cpu) = SP cpu
  /\ PC (set_ZN value cpu) = PC cpu /\ bus (set_ZN value cpu) = bus cpu.
Proof. repeat split; reflexivity. Qed.

(** *** The decode table and [clock] *)

Lemma existsb_eqb_In z l : existsb (Z.eqb z) l = true <-> In z l.
Proof.
  rewrite existsb_exists. split.
  - intros (y & Hy & E). apply Z.eqb_eq in E. now subst.
  - intros Hin. exists z. split; [exact Hin | apply Z.eqb_refl].
Qed.

(** The table read through: every byte has an entry, and the entries
    without an operation are those of the fifteen opcodes listed. *)
Lemma opcodes_scan {B} `{Bus6502Ops B} `{FlagStore} :
  forallb
    (fun n =>
       match opcodes (B := B) !! n with
       | Some inst =>
           Bool.eqb
             (match operation inst with None => true | Some _ => false end)
             (existsb (Z.eqb (Z.of_nat n))
                [0x26; 0x2A; 0x2E; 0x36; 0x3E; 0x46; 0x4A; 0x4E; 0x56; 0x5E;
                 0x66; 0x6A; 0x6E; 0x76; 0x7E])
       | None => false
       end)
    (seq 0 256) = true.
Proof. vm_compute. reflexivity. Qed.

(** A call of [clock] that starts an instruction returns unless the
    opcode it fetches is one of the fifteen of [LSR], [ROL] and [ROR], whose
    functions have no body; for those it is undefined. *)
Theorem clock_undefined_iff {B} `{Bus6502Ops B} `{FlagStore}
    (cpu : State6502 B) :
  clock 0 cpu = None
  <-> In (fst (fetch cpu))
        [0x26; 0x2A; 0x2E; 0x36; 0x3E; 0x46; 0x4A; 0x4E; 0x56; 0x5E;
         0x66; 0x6A; 0x6E; 0x76; 0x7E].
Proof.
  pose proof (fetch_byte cpu) as Hop.
  unfold clock. change (0 =? 0) with true. cbv iota.
  destruct (fetch cpu) as [opcode cpu1]. cbn [fst] in *.
  pose proof (proj1 (forallb_forall _ _) opcodes_scan (Z.to_nat opcode)) as K.
  cbv beta in K. rewrite Z2Nat.id in K by lia.
  specialize (K ltac:(apply in_seq; lia)).
  destruct (opcodes !! Z.to_nat opcode) as [inst|]; [|discriminate K].
  cbn [mbind option_bind].
  destruct (adressing_mode inst cpu1) as [b cpu2].
  apply eqb_prop in K.
  rewrite <- existsb_eqb_In, <- K.
  destruct (operation inst) as [f|]; cbn [mbind option_bind].
  - destruct (f cpu2 b). split; discriminate.
  - split; reflexivity.
Qed.

(** While [remaining] is not 0 a call of [clock] counts it down and
    leaves the processor alone. *)
Lemma clock_idle {B} `{Bus6502Ops B} `{FlagStore}
    (r : Z) (cpu : State6502 B) :
  0 < r < 4294967296 -> clock r cpu = Some (r - 1, cpu).
Proof.
  intros Hr. unfold clock.
  replace (r =? 0) with false by (symmetry; apply Z.eqb_neq; lia).
  now rewrite u32_small by lia.
Qed.

Lemma clocks_idle {B} `{Bus6502Ops B} `{FlagStore} (n : nat) :
  forall (cpu : State6502 B),
    Z.of_nat n < 4294967296 ->
    clocks n (Z.of_nat n) cpu = Some (0, cpu).
Proof.
  induction n as [|n IH]; intros cpu Hn; [reflexivity|].
  cbn [clocks]. rewrite clock_idle by lia. cbn [mbind option_bind fst snd].
  replace (Z.of_nat (S n) - 1) with (Z.of_nat n) by lia.
  apply IH. lia.
Qed.

Lemma clock_remaining_range {B} `{Bus6502Ops B} `{FlagStore}
    (r r' : Z) (cpu cpu' : State6502 B) :
  0 <= r < 4294967296 -> clock r cpu = Some (r', cpu') ->
  0 <= r' < 4294967296.
Proof.
  intros Hr. unfold clock. destruct (r =? 0).
  - destruct (fetch cpu) as [opcode cpu1].
    destruct (opcodes !! Z.to_nat opcode) as [inst|]; [|discriminate].
    cbn [mbind option_bind].
    destruct (adressing_mode inst cpu1) as [b cpu2].
    destruct (operation inst) as [f|]; [|discriminate].
    cbn [mbind option_bind]. destruct (f cpu2 b).
    intros [= <- _]. unfold u32. apply Z.mod_pos_bound. lia.
  - intros [= <- _]. unfold u32. apply Z.mod_pos_bound. lia.
Qed.

(** An instruction takes as many calls of [clock] as the call that starts
    it says: if that call returns with [remaining = r], it and the next
    [r] calls end with [remaining = 0] again and with the processor as
    the first call left it. *)
Theorem clocks_instruction {B} `{Bus6502Ops B} `{FlagStore}
    (cpu cpu' : State6502 B) (r : Z) :
  clock 0 cpu = Some (r, cpu') ->
  clocks (S (Z.to_nat r)) 0 cpu = Some (0, cpu').
Proof.
  intros E.
  pose proof (clock_remaining_range 0 r cpu cpu' ltac:(lia) E) as Hr.
  cbn [clocks]. rewrite E. cbn [mbind option_bind fst snd].
  rewrite <- (Z2Nat.id r) at 2 by lia.
  apply clocks_idle. rewrite Z2Nat.id; lia.
Qed.

Lemma clocks_instruction_witness :
  exists cpu',
    @clock flat flat_cpu_bus unsigned_flags 0 (cpu0 (poke zeroed 0 0xEA))
    = Some (1, cpu')
    /\ @clocks flat flat_cpu_bus unsigned_flags (S (Z.to_nat 1)) 0
         (cpu0 (poke zeroed 0 0xEA))
       = Some (0, cpu').
Proof.
  eexists. split; [reflexivity|].
  apply (@clocks_instruction flat flat_cpu_bus unsigned_flags
           (cpu0 (poke zeroed 0 0xEA))).
  reflexivity.
Defined.

Lemma opcode_A9 {B} `{Bus6502Ops B} `{FlagStore} :
  exists c, opcodes (B := B) !! Z.to_nat 0xA9 = Some (entry c (ret LDA) IMM 2).
Proof. eexists. reflexivity. Qed.

(** [LDA #d] from fetch to flags, over a plain memory: the call of
    [clock] that starts it loads [d] into [A], sets [Z] and [N] from it,
    moves [PC] past the two bytes and leaves one idle call to come. *)
Theorem clock_LDA_immediate `{FlagStore} (cpu : State6502 flat) (d : Z) :
  bus cpu (PC cpu) = 0xA9 -> bus cpu (u16 (PC cpu + 1)) = d ->
  0 <= d < 256 ->
  exists cpu',
    clock 0 cpu = Some (1, cpu')
    /\ A cpu' = d
    /\ PC cpu' = u16 (u16 (PC cpu + 1) + 1)
    /\ flag_Z cpu' = of_bool (d =? 0)
    /\ flag_N cpu' = of_bool (128 <=? d)
    /\ flag_C cpu' = flag_C cpu /\ flag_V cpu' = flag_V cpu
    /\ X cpu' = X cpu /\ Y cpu' = Y cpu /\ SP cpu' = SP cpu
    /\ bus cpu' = bus cpu.
Proof.
  intros Hop Hd Hr.
  unfold clock. change (0 =? 0) with true. cbv iota.
  unfold fetch at 1, read.
  cbn [bus PC set_PC set_bus bus_read flat_cpu_bus].
  rewrite Hop. change (u8 0xA9) with 0xA9.
  destruct opcode_A9 as [c ->].
  cbn [mbind option_bind cycles adressing_mode operation ret].
  unfold IMM, fetch, read.
  cbn [bus PC set_PC set_bus bus_read flat_cpu_bus].
  rewrite Hd, (u8_small d) by assumption.
  eexists. split; [reflexivity|].
  unfold LDA. cbn [A operand set_A set_operand snd].
  match goal with
  | |- context [set_ZN d ?q] => set (cpu1 := q)
  end.
  destruct (set_ZN_flags d cpu1) as (HZ & HN & HC & HV & _).
  destruct (set_ZN_registers d cpu1) as (HA & HX & HY & HS & HP & HB).
  rewrite HZ, HN, HC, HV, HA, HX, HY, HS, HP, HB.
  rewrite sign_test_byte by assumption.
  repeat split.
Qed.

Lemma clock_LDA_immediate_witness :
  exists cpu',
    @clock flat flat_cpu_bus unsigned_flags 0
      (cpu0 (poke (poke zeroed 0 0xA9) 1 0x80)) = Some (1, cpu')
    /\ A cpu' = 0x80
    /\ PC cpu' = u16 (u16 (PC (cpu0 (poke (poke zeroed 0 0xA9) 1 0x80)) + 1) + 1)
    /\ flag_Z cpu' = of_bool (0x80 =? 0)
    /\ flag_N cpu' = of_bool (128 <=? 0x80)
    /\ flag_C cpu' = flag_C (cpu0 (poke (poke zeroed 0 0xA9) 1 0x80))
    /\ flag_V cpu' = flag_V (cpu0 (poke (poke zeroed 0 0xA9) 1 0x80))
    /\ X cpu' = X (cpu0 (poke (poke zeroed 0 0xA9) 1 0x80))
    /\ Y cpu' = Y (cpu0 (poke (poke zeroed 0 0xA9) 1 0x80))
    /\ SP cpu' = SP (cpu0 (poke (poke zeroed 0 0xA9) 1 0x80))
    /\ bus cpu' = bus (cpu0 (poke (poke zeroed 0 0xA9) 1 0x80)).
Proof.
  apply (@clock_LDA_immediate unsigned_flags
           (cpu0 (poke (poke zeroed 0 0xA9) 1 0x80)) 0x80);
    [reflexivity | reflexivity | lia].
Defined.

(** *** Branches *)

(** The eight branches come in pairs on one flag; a flag holds 0 or 1,
    so of each pair exactly one is taken.  A branch taken adds the operand,
    read as a signed byte, to [PC]. *)
Theorem branch_pairs {B} `{FlagStore} (cpu : State6502 B) (c : bool) :
  let taken :=
    (if c then 2 else 1, set_PC (u16 (PC cpu + s8 (operand cpu))) cpu) in
  let pair (flag : Z) (clear set : Z * State6502 B) :=
    if flag =? 1 then clear = (0, cpu) /\ set = taken
    else clear = taken /\ set = (0, cpu) in
  pair (flag_C cpu) (BCC cpu c) (BCS cpu c)
  /\ pair (flag_Z cpu) (BNE cpu c) (BEQ cpu c)
  /\ pair (flag_N cpu) (BPL cpu c) (BMI cpu c)
  /\ pair (flag_V cpu) (BVC cpu c) (BVS cpu c).
Proof.
  cbv zeta beta.
  unfold BCC, BCS, BNE, BEQ, BPL, BMI, BVC, BVS, branch_if,
    flag_C, flag_Z, flag_N, flag_V.
  repeat split;
    match goal with
    | |- context [field ?p 1 ?r] =>
        destruct (field_1_cases p r) as [-> | ->]
    end; split; reflexivity.
Qed.




(** *** Addressing modes *)

(** The page of a 16-bit address, as the page-crossing tests take it. *)
Lemma land_FF00_div x : 0 <= x < 65536 -> Z.land x 0xFF00 = 256 * (x / 256).
Proof.
  intros Hx.
  assert (E : Z.land x 0xFF00 = Z.shiftl (Z.shiftr x 8) 8).
  { change 0xFF00 with (Z.shiftl (Z.ones 8) 8). bit_fast.
    all: try (apply (testbit_above 16 x); lia).
    all: try (rewrite (testbit_above 16 x) by lia; reflexivity).
    all: try (destruct (Z.testbit x i); reflexivity). }
  rewrite E, Z.shiftl_mul_pow2, Z.shiftr_div_pow2 by lia.
  change (2 ^ 8) with 256. lia.
Qed.

(** The page-crossing test of the indexed modes: the index carries out of
    the low byte of the base address. *)
Lemma page_cross hi lo idx :
  0 <= hi < 256 -> 0 <= lo < 256 -> 0 <= idx < 256 ->
  let a := u16 (Z.lor (Z.shiftl hi 8) lo) in
  u16 (a + idx) = (hi * 256 + lo + idx) mod 65536
  /\ negb (Z.land a 0xFF00 =? Z.land (u16 (a + idx)) 0xFF00)
     = (256 <=? lo + idx).
Proof.
  intros Hh Hl Hi a.
  assert (Ea : a = hi * 256 + lo).
  { subst a. rewrite lor_shiftl_8, Z.shiftl_mul_pow2 by lia.
    change (2 ^ 8) with 256. apply u16_small. lia. }
  rewrite Ea. split; [reflexivity|].
  assert (Hr : 0 <= u16 (hi * 256 + lo + idx) < 65536)
    by (apply Z.mod_pos_bound; lia).
  rewrite !land_FF00_div by lia.
  assert (E1 : (hi * 256 + lo) / 256 = hi)
    by (symmetry; apply (Z.div_unique _ 256 hi lo); lia).
  rewrite E1.
  destruct (Z.leb_spec 256 (lo + idx)) as [Hc|Hc].
  - apply negb_true_iff, Z.eqb_neq.
    destruct (Z.eq_dec hi 255) as [->|Hne].
    + assert (E2 : u16 (255 * 256 + lo + idx) = lo + idx - 256).
      { unfold u16. symmetry.
        apply (Z.mod_unique _ 65536 1); lia. }
      rewrite E2, (Z.div_small (lo + idx - 256)) by lia. lia.
    + rewrite u16_small by lia.
      assert (E2 : (hi * 256 + lo + idx) / 256 = hi + 1)
        by (symmetry; apply (Z.div_unique _ 256 (hi + 1) (lo + idx - 256));
            lia).
      rewrite E2. lia.
  - apply negb_false_iff, Z.eqb_eq.
    rewrite u16_small by lia.
    assert (E2 : (hi * 256 + lo + idx) / 256 = hi)
      by (symmetry; apply (Z.div_unique _ 256 hi (lo + idx)); lia).
    now rewrite E2.
Qed.

(** Absolute addressing with an index, for an index register that holds a
    byte: the effective address is the 16-bit sum of the base address and
    the index, and the mode reports a page crossing exactly when the index
    carries out of the low byte of the base. *)
Theorem absolute_indexed {B} `{Bus6502Ops B} (cpu : State6502 B) :
  let lo := fst (fetch cpu) in
  let hi := fst (fetch (snd (fetch cpu))) in
  (0 <= X cpu < 256 ->
   addr (snd (ABX cpu)) = (hi * 256 + lo + X cpu) mod 65536
   /\ fst (ABX cpu) = (256 <=? lo + X cpu))
  /\ (0 <= Y cpu < 256 ->
      addr (snd (ABY cpu)) = (hi * 256 + lo + Y cpu) mod 65536
      /\ fst (ABY cpu) = (256 <=? lo + Y cpu)).
Proof.
  intros lo hi. subst lo hi. unfold ABX, ABY.
  rewrite !fetch_eq. cbn [fst snd bus PC set_bus set_PC X Y].
  set (lo := u8 (fst (bus_read (bus cpu) (PC cpu)))).
  set (b1 := snd (bus_read (bus cpu) (PC cpu))).
  set (hi := u8 (fst (bus_read b1 (u16 (PC cpu + 1))))).
  set (b2 := snd (bus_read b1 (u16 (PC cpu + 1)))).
  rewrite !read_eq. cbn [fst snd addr set_addr set_operand set_bus X Y].
  assert (Hlo : 0 <= lo < 256) by apply u8_range.
  assert (Hhi : 0 <= hi < 256) by apply u8_range.
  split; intros Hidx; apply page_cross; assumption.
Qed.

Lemma absolute_indexed_witness :
  let cpu := set_X 0x20 (cpu0 (poke (poke zeroed 0 0xF0) 1 0x12)) in
  addr (snd (ABX cpu))
  = (fst (fetch (snd (fetch cpu))) * 256 + fst (fetch cpu) + X cpu) mod 65536
  /\ fst (ABX cpu) = (256 <=? fst (fetch cpu) + X cpu).
Proof.
  apply (proj1 (absolute_indexed
                  (set_X 0x20 (cpu0 (poke (poke zeroed 0 0xF0) 1 0x12))))).
  cbn [X set_X cpu0]. lia.
Defined.

(** Zero-page addressing never leaves page zero: the address is the byte
    fetched, with the index added modulo 256. *)
Theorem zero_page_indexed {B} `{Bus6502Ops B} (cpu : State6502 B) :
  let zp := fst (fetch cpu) in
  addr (snd (ZP0 cpu)) = zp
  /\ addr (snd (ZPX cpu)) = (zp + X cpu) mod 256
  /\ addr (snd (ZPY cpu)) = (zp + Y cpu) mod 256
  /\ 0 <= addr (snd (ZP0 cpu)) < 256
  /\ 0 <= addr (snd (ZPX cpu)) < 256
  /\ 0 <= addr (snd (ZPY cpu)) < 256
  /\ fst (ZP0 cpu) = false /\ fst (ZPX cpu) = false /\ fst (ZPY cpu) = false.
Proof.
  intros zp. subst zp. unfold ZP0, ZPX, ZPY.
  rewrite !fetch_eq. cbn [fst snd bus PC set_bus set_PC X Y].
  set (zp := u8 (fst (bus_read (bus cpu) (PC cpu)))).
  rewrite !read_eq. cbn [fst snd addr set_addr set_operand set_bus X Y].
  assert (Hzp : 0 <= zp < 256) by apply u8_range.
  pose proof (Z.mod_pos_bound (zp + X cpu) 256 ltac:(lia)).
  pose proof (Z.mod_pos_bound (zp + Y cpu) 256 ltac:(lia)).
  rewrite !land_FF_mod, !u16_small by lia.
  repeat split; lia.
Qed.

(** *** The stack *)

Lemma lor_1 x : Z.lor x 1 = 2 * (x / 2) + 1.
Proof.
  apply Z.bits_inj'; intros i Hi. rewrite Z.lor_spec.
  destruct (Z.eq_dec i 0) as [->|Hne].
  - rewrite Z.testbit_odd_0. apply orb_true_r.
  - assert (E1 : Z.testbit 1 i = false)
      by (apply (Z.bits_above_log2 1 i); [lia | change (Z.log2 1) with 0; lia]).
    rewrite E1, orb_false_r.
    replace i with (Z.succ (i - 1)) by lia.
    rewrite Z.testbit_odd_succ by lia.
    rewrite <- Z.add_1_r, <- (Z.div_pow2_bits x 1) by lia.
    reflexivity.
Qed.

(** The address [RTS] computes from the bytes [JSR] pushed for the
    return address [p - 1]. *)
Lemma return_trip p :
  0 <= p < 65536 ->
  let q := u16 (p - 1) in
  u16 (Z.lor (Z.shiftl (u8 (Z.shiftr q 8)) 8) (u8 (Z.land q 0x00FF) + 1)) = p
  <-> p mod 512 <> 0.
Proof.
  intros Hp q.
  assert (Hq : 0 <= q < 65536) by (apply Z.mod_pos_bound; lia).
  assert (Eh : u8 (Z.shiftr q 8) = q / 256).
  { rewrite Z.shiftr_div_pow2 by lia. change (2 ^ 8) with 256.
    apply u8_small. split; [apply Z.div_pos; lia|].
    apply Z.div_lt_upper_bound; lia. }
  assert (El : u8 (Z.land q 0x00FF) = q mod 256).
  { change 0x00FF with (Z.ones 8). rewrite Z.land_ones by lia.
    apply u8_small. apply Z.mod_pos_bound. lia. }
  rewrite Eh, El.
  pose proof (Z.div_mod q 256 ltac:(lia)) as Dq.
  pose proof (Z.mod_pos_bound q 256 ltac:(lia)) as Bq.
  pose proof (Z.div_mod p 512 ltac:(lia)) as Dp.
  pose proof (Z.mod_pos_bound p 512 ltac:(lia)) as Bp.
  destruct (Z.eq_dec (q mod 256) 255) as [E|E].
  - rewrite E. change (255 + 1) with (Z.shiftl 1 8).
    rewrite <- Z.shiftl_lor, lor_1, Z.shiftl_mul_pow2 by lia.
    change (2 ^ 8) with 256.
    pose proof (Z.div_mod (q / 256) 2 ltac:(lia)) as Dh.
    pose proof (Z.mod_pos_bound (q / 256) 2 ltac:(lia)) as Bh.
    assert (0 <= q / 256 < 256)
      by (split; [apply Z.div_pos; lia | apply Z.div_lt_upper_bound; lia]).
    rewrite u16_small by lia.
    destruct (Z.eq_dec p 0) as [->|Hp0].
    + vm_compute. split; [discriminate | congruence].
    + assert (Eq : q = p - 1) by (apply u16_small; lia).
      split; intros K; lia.
  - rewrite Z.shiftl_mul_pow2 by lia. change (2 ^ 8) with 256.
    assert (0 <= q / 256 < 256)
      by (split; [apply Z.div_pos; lia | apply Z.div_lt_upper_bound; lia]).
    rewrite <- (Z.shiftl_mul_pow2 _ 8) by lia.
    rewrite lor_shiftl_8 by lia.
    rewrite Z.shiftl_mul_pow2 by lia. change (2 ^ 8) with 256.
    rewrite u16_small by lia.
    destruct (Z.eq_dec p 0) as [->|Hp0].
    + exfalso. apply E. reflexivity.
    + assert (Eq : q = p - 1) by (apply u16_small; lia).
      split; intros K; lia.
Qed.

Lemma stack_slot_byte {B} (cpu : State6502 B) :
  0 <= SP cpu < 256 -> stack_slot cpu = 256 + SP cpu.
Proof.
  intros Hs. unfold stack_slot. rewrite (u16_small (SP cpu)) by lia.
  change (u16 0x0100) with (Z.shiftl 1 8). now rewrite lor_shiftl_8 by lia.
Qed.

Lemma u8_pred_succ s : 0 <= s < 256 -> u8 (u8 (s - 1) + 1) = s.
Proof.
  intros Hs. unfold u8. rewrite Zplus_mod_idemp_l.
  replace (s - 1 + 1) with s by lia. now apply Z.mod_small.
Qed.

Lemma u8_pred_neq s : 0 <= s < 256 -> u8 (s - 1) <> s.
Proof.
  intros Hs E. destruct (Z.eq_dec s 0) as [->|Hne].
  - vm_compute in E. discriminate.
  - rewrite u8_small in E by lia. lia.
Qed.

Lemma u8_pred2_neq s : 0 <= s < 256 -> u8 (u8 (s - 1) - 1) <> s.
Proof.
  intros Hs E. destruct (Z.eq_dec s 0) as [->|H0].
  - vm_compute in E. discriminate.
  - destruct (Z.eq_dec s 1) as [->|H1].
    + vm_compute in E. discriminate.
    + rewrite (u8_small (s - 1)), u8_small in E by lia. lia.
Qed.

Lemma status_pushed_byte {B} (cpu : State6502 B) :
  0 <= status cpu < 256 -> status_pushed cpu = Z.lor (status cpu) 0x30.
Proof.
  intros Ha. unfold status_pushed.
  rewrite <- Z.lor_assoc. change (Z.lor (Z.shiftl 1 4) (Z.shiftl 1 5)) with 0x30.
  assert (Hb : 0 <= Z.lor (status cpu) 0x30 < 256).
  { split; [apply Z.lor_nonneg; lia|].
    assert (E : Z.lor (status cpu) 0x30
                = Z.land (Z.lor (status cpu) 0x30) (Z.ones 8)).
    { bit_fast. all: try (apply (testbit_above 8 (status cpu)); lia).
      all: rewrite (testbit_above 8 (status cpu)) by lia; cbn [orb].
      all: apply (testbit_above 8 0x30); lia. }
    rewrite E, Z.land_ones by lia. apply Z.mod_pos_bound. lia. }
  now rewrite u8_small.
Qed.

(** A call and the return from it, over a plain memory: [RTS] after
    [JSR] restores the stack pointer, and it brings [PC] back to the
    address after the [JSR] instruction unless that address is a
    multiple of 512.  There the low byte pushed is [0xFF] and the carry of
    its increment is ORed into an address bit that is already set or, from
    address 0, into a high byte of [0xFF]. *)
Theorem JSR_RTS_round_trip (cpu : State6502 flat) (c c' : bool) :
  0 <= SP cpu < 256 -> 0 <= PC cpu < 65536 ->
  let cpu' := snd (RTS (snd (JSR cpu c)) c') in
  SP cpu' = SP cpu /\ (PC cpu' = PC cpu <-> PC cpu mod 512 <> 0).
Proof.
  intros Hs Hp cpu'.
  set (q := u16 (PC cpu - 1)).
  set (s1 := u8 (SP cpu - 1)).
  assert (Hs1 : 0 <= s1 < 256) by (apply Z.mod_pos_bound; lia).
  assert (Hne : s1 <> SP cpu) by (apply u8_pred_neq; lia).
  assert (E1 : u8 (u8 (s1 - 1) + 1) = s1) by (apply u8_pred_succ; lia).
  assert (E2 : u8 (s1 + 1) = SP cpu) by (apply u8_pred_succ; lia).
  assert (ES : SP cpu' = SP cpu).
  { subst cpu'. unfold JSR, RTS, write, read.
    cbn [snd bus PC SP addr set_PC set_SP set_bus bus_read bus_write
           flat_cpu_bus].
    fold s1. now rewrite E1, E2. }
  assert (EP : PC cpu'
               = u16 (Z.lor (Z.shiftl (u8 (Z.shiftr q 8)) 8)
                            (u8 (Z.land q 0x00FF) + 1))).
  { subst cpu'. unfold JSR, RTS, write, read.
    cbn [snd bus PC SP addr set_PC set_SP set_bus bus_read bus_write
           flat_cpu_bus].
    rewrite !stack_slot_byte; cbn [SP set_SP set_PC set_bus]; fold q s1;
      try lia; try (apply Z.mod_pos_bound; lia).
    rewrite E1, E2. unfold poke.
    rewrite Z.eqb_refl.
    replace (256 + SP cpu =? 256 + s1) with false
      by (symmetry; apply Z.eqb_neq; lia).
    rewrite Z.eqb_refl.
    now rewrite !(u8_small (u8 _)) by (apply Z.mod_pos_bound; lia). }
  split; [exact ES|]. rewrite EP. apply return_trip. exact Hp.
Qed.

Lemma JSR_RTS_round_trip_witness :
  let cpu := set_SP 0xFD (set_PC 0x8003 (set_addr 0x1234 (cpu0 zeroed))) in
  let cpu' := snd (RTS (snd (JSR cpu false)) false) in
  SP cpu' = SP cpu /\ (PC cpu' = PC cpu <-> PC cpu mod 512 <> 0).
Proof.
  apply (JSR_RTS_round_trip
           (set_SP 0xFD (set_PC 0x8003 (set_addr 0x1234 (cpu0 zeroed))))
           false false); cbn [SP PC set_SP set_PC set_addr cpu0]; lia.
Defined.

(** A push and the pull that follows, over a plain memory: [PLA] after
    [PHA] gives the accumulator the byte it had at the push, whatever it
    was set to in between, sets [Z] and [N] from it and restores the
    stack pointer. *)
Theorem PHA_PLA_round_trip `{FlagStore} (cpu : State6502 flat)
    (a : Z) (c c' : bool) :
  0 <= SP cpu < 256 -> 0 <= A cpu < 256 ->
  let cpu' := snd (PLA (set_A a (snd (PHA cpu c))) c') in
  A cpu' = A cpu /\ SP cpu' = SP cpu
  /\ flag_Z cpu' = of_bool (A cpu =? 0)
  /\ flag_N cpu' = of_bool (128 <=? A cpu)
  /\ bus cpu' (256 + SP cpu) = A cpu.
Proof.
  intros Hs Ha cpu'. subst cpu'. unfold PHA, PLA, write, read.
  cbn [snd bus A SP set_A set_SP set_bus bus_read bus_write flat_cpu_bus].
  rewrite !stack_slot_byte; cbn [SP set_SP set_A set_bus]; try lia;
    try (apply Z.mod_pos_bound; lia).
  rewrite u8_pred_succ by lia. rewrite !poke_same.
  rewrite !(u8_small (A cpu)) by lia.
  match goal with
  | |- context [set_ZN (A cpu) ?q] => set (cpu1 := q)
  end.
  destruct (set_ZN_flags (A cpu) cpu1) as (HZ & HN & _).
  destruct (set_ZN_registers (A cpu) cpu1) as (HA & _ & _ & HS & _ & HB).
  rewrite HZ, HN, HA, HS, HB, sign_test_byte by lia.
  subst cpu1. cbn [A SP bus set_A set_SP set_bus].
  rewrite poke_same. repeat split.
Qed.

Lemma PHA_PLA_round_trip_witness :
  let cpu := set_A 0x9C (set_SP 0xFD (cpu0 zeroed)) in
  let cpu' := snd (@PLA flat flat_cpu_bus unsigned_flags
                     (set_A 0x00 (snd (PHA cpu false))) false) in
  A cpu' = A cpu /\ SP cpu' = SP cpu
  /\ flag_Z cpu' = of_bool (A cpu =? 0)
  /\ flag_N cpu' = of_bool (128 <=? A cpu)
  /\ bus cpu' (256 + SP cpu) = A cpu.
Proof.
  apply (@PHA_PLA_round_trip unsigned_flags
           (set_A 0x9C (set_SP 0xFD (cpu0 zeroed))) 0x00 false false);
    cbn [A SP set_A set_SP cpu0]; lia.
Defined.

(** [PLP] after [PHP], over a plain memory, restores the stack pointer
    and gives [status] the byte it had with bits 4 and 5 set. *)
Theorem PHP_PLP_round_trip (cpu : State6502 flat) (st : Z) (c c' : bool) :
  0 <= SP cpu < 256 -> 0 <= status cpu < 256 ->
  let cpu' := snd (PLP (set_status st (snd (PHP cpu c))) c') in
  status cpu' = Z.lor (status cpu) 0x30 /\ SP cpu' = SP cpu.
Proof.
  intros Hs Ha cpu'. subst cpu'. unfold PHP, PLP, write, read.
  cbn [snd bus status SP set_status set_SP set_bus bus_read bus_write
         flat_cpu_bus].
  rewrite !stack_slot_byte; cbn [SP set_SP set_status set_bus]; try lia;
    try (apply Z.mod_pos_bound; lia).
  rewrite u8_pred_succ by lia. unfold poke. rewrite Z.eqb_refl.
  split; [|reflexivity].
  rewrite status_pushed_byte by assumption. apply u8_small.
  rewrite <- status_pushed_byte by assumption. apply Z.mod_pos_bound. lia.
Qed.

Lemma PHP_PLP_round_trip_witness :
  let cpu := set_status 0x81 (set_SP 0xFD (cpu0 zeroed)) in
  let cpu' := snd (PLP (set_status 0x00 (snd (PHP cpu false))) false) in
  status cpu' = Z.lor (status cpu) 0x30 /\ SP cpu' = SP cpu.
Proof.
  apply (PHP_PLP_round_trip (set_status 0x81 (set_SP 0xFD (cpu0 zeroed)))
           0x00 false false);
    cbn [SP status set_SP set_status cpu0]; lia.
Defined.

(** An interrupt and the return from it, over a plain memory.  [BRK]
    pushes [PC + 1] and the status with bits 4 and 5 set, and goes to the
    address stored at [0xFFFE], [0xFFFF] with [I] set.  [RTI] after it
    restores the stack pointer and that status byte, and resumes at
    [PC + 2], one byte past the address pushed, unless [PC + 2] is a
    multiple of 512. *)
Theorem BRK_RTI_round_trip `{FlagStore} (cpu : State6502 flat)
    (c c' : bool) :
  0 <= SP cpu < 256 -> 0 <= PC cpu < 65534 -> 0 <= status cpu < 256 ->
  let brk := snd (BRK cpu c) in
  let cpu' := snd (RTI brk c') in
  PC brk = u16 (Z.lor (u16 (Z.shiftl (u8 (bus cpu 0xFFFF)) 8))
                      (u8 (bus cpu 0xFFFE)))
  /\ flag_I brk = 1
  /\ SP cpu' = SP cpu
  /\ status cpu' = Z.lor (status cpu) 0x30
  /\ (PC cpu' = PC cpu + 2 <-> (PC cpu + 2) mod 512 <> 0).
Proof.
  intros Hs Hp Hst brk cpu'.
  set (s1 := u8 (SP cpu - 1)). set (s2 := u8 (s1 - 1)).
  assert (Hs1 : 0 <= s1 < 256) by (apply Z.mod_pos_bound; lia).
  assert (Hs2 : 0 <= s2 < 256) by (apply Z.mod_pos_bound; lia).
  assert (N1 : s1 <> SP cpu) by (apply u8_pred_neq; lia).
  assert (N2 : s2 <> s1) by (apply u8_pred_neq; lia).
  assert (N3 : s2 <> SP cpu) by (apply u8_pred2_neq; lia).
  assert (E1 : u8 (u8 (s2 - 1) + 1) = s2) by (apply u8_pred_succ; lia).
  assert (E2 : u8 (s2 + 1) = s1) by (apply u8_pred_succ; lia).
  assert (E3 : u8 (s1 + 1) = SP cpu) by (apply u8_pred_succ; lia).
  set (q := u16 (PC cpu + 1)).
  set (m3 := poke (poke (poke (bus cpu) (256 + SP cpu) (u8 (Z.shiftr q 8)))
                     (256 + s1) (u8 (Z.land q 0x00FF)))
               (256 + s2) (Z.lor (status cpu) 0x30)).
  assert (Ebrk : brk = set_flag_I 1
            (set_PC (u16 (Z.lor (u16 (Z.shiftl (u8 (m3 0xFFFF)) 8))
                                (u8 (m3 0xFFFE))))
               (set_bus m3 (set_SP (u8 (s2 - 1)) (set_PC q cpu))))).
  { subst brk. unfold BRK, write, read.
    cbn [snd bus PC SP status set_PC set_SP set_bus bus_read bus_write
           flat_cpu_bus].
    rewrite !stack_slot_byte; cbn [SP set_SP set_PC set_bus]; fold q s1 s2;
      try lia.
    rewrite status_pushed_byte by (cbn [status set_SP set_PC set_bus]; lia).
    cbn [status set_SP set_PC set_bus]. fold m3.
    reflexivity. }
  assert (Hm2 : m3 (256 + s2) = Z.lor (status cpu) 0x30)
    by (subst m3; apply poke_same).
  assert (Hm1 : m3 (256 + s1) = u8 (Z.land q 0x00FF)).
  { subst m3. rewrite poke_other by lia. apply poke_same. }
  assert (Hm0 : m3 (256 + SP cpu) = u8 (Z.shiftr q 8)).
  { subst m3. rewrite !poke_other by lia. apply poke_same. }
  assert (HmF : m3 0xFFFF = bus cpu 0xFFFF /\ m3 0xFFFE = bus cpu 0xFFFE).
  { subst m3. rewrite !poke_other by lia. split; reflexivity. }
  destruct HmF as (HmF & HmE).
  assert (Hbyte : 0 <= Z.lor (status cpu) 0x30 < 256).
  { rewrite <- status_pushed_byte by assumption. apply Z.mod_pos_bound. lia. }
  assert (Ecpu' : SP cpu' = SP cpu
                  /\ status cpu' = Z.lor (status cpu) 0x30
                  /\ PC cpu' = u16 (Z.lor (Z.shiftl (u8 (Z.shiftr q 8)) 8)
                                          (u8 (Z.land q 0x00FF) + 1))).
  { subst cpu'. rewrite Ebrk. unfold RTI, read, set_flag_I.
    cbn [snd bus PC SP status set_PC set_SP set_bus set_status bus_read
           flat_cpu_bus].
    rewrite !stack_slot_byte;
      cbn [SP set_SP set_PC set_bus set_status];
      rewrite ?E1, ?E2, ?E3; try lia.
    rewrite Hm2, Hm1, Hm0.
    rewrite !(u8_small (u8 _)) by (apply Z.mod_pos_bound; lia).
    rewrite (u8_small (Z.lor _ _)) by lia.
    repeat split. }
  destruct Ecpu' as (ES & ET & EP).
  split.
  { rewrite Ebrk. unfold set_flag_I. cbn [PC set_status set_PC].
    now rewrite HmF, HmE. }
  split.
  { rewrite Ebrk. unfold flag_I, set_flag_I. cbn [status set_status].
    rewrite field_set_field by lia. now rewrite to_flag_low_bit, to_flag_1. }
  split; [exact ES|]. split; [exact ET|].
  rewrite EP.
  pose proof (return_trip (PC cpu + 2) ltac:(lia)) as K. cbv zeta in K.
  replace (PC cpu + 2 - 1) with (PC cpu + 1) in K by lia.
  exact K.
Qed.

Lemma BRK_RTI_round_trip_witness :
  let cpu := set_status 0x01 (set_SP 0xFD (set_PC 0x8001
               (cpu0 (poke (poke zeroed 0xFFFE 0x34) 0xFFFF 0x12)))) in
  let brk := snd (@BRK flat flat_cpu_bus unsigned_flags cpu false) in
  let cpu' := snd (RTI brk false) in
  PC brk = u16 (Z.lor (u16 (Z.shiftl (u8 (bus cpu 0xFFFF)) 8))
                      (u8 (bus cpu 0xFFFE)))
  /\ flag_I brk = 1
  /\ SP cpu' = SP cpu
  /\ status cpu' = Z.lor (status cpu) 0x30
  /\ (PC cpu' = PC cpu + 2 <-> (PC cpu + 2) mod 512 <> 0).
Proof.
  apply (@BRK_RTI_round_trip unsigned_flags
           (set_status 0x01 (set_SP 0xFD (set_PC 0x8001
              (cpu0 (poke (poke zeroed 0xFFFE 0x34) 0xFFFF 0x12)))))
           false false);
    cbn [SP PC status set_SP set_PC set_status cpu0]; lia.
Defined.

(** *** Arithmetic *)

(** The overflow test of [ADC] on the sign bits. *)
Lemma overflow_test a o r :
  (Z.land (Z.land (Z.lnot (Z.lxor a o)) (Z.lxor a r)) 0x0080 =? 0x0080)
  = negb (xorb (Z.testbit a 7) (Z.testbit o 7))
    && xorb (Z.testbit a 7) (Z.testbit r 7).
Proof.
  rewrite sign_test, Z.land_spec, Z.lnot_spec, !Z.lxor_spec by lia.
  reflexivity.
Qed.

(** [ADC] on bytes is the addition of the 6502: the accumulator takes the
    low byte of [A + operand + C], [C] the carry out of it, [Z] and [N]
    tell whether that byte is zero or negative, and [V] whether the sum of
    the operands read as signed bytes leaves [-128..127]. *)
Theorem ADC_arithmetic {B} `{Bus6502Ops B} `{FlagStore} (cpu : State6502 B) (c : bool) :
  0 <= A cpu < 256 -> 0 <= operand cpu < 256 ->
  let sum := A cpu + operand cpu + flag_C cpu in
  let signed := s8 (A cpu) + s8 (operand cpu) + flag_C cpu in
  let cpu' := snd (ADC cpu c) in
  A cpu' = sum mod 256
  /\ flag_C cpu' = of_bool (256 <=? sum)
  /\ flag_Z cpu' = of_bool (sum mod 256 =? 0)
  /\ flag_N cpu' = of_bool (128 <=? sum mod 256)
  /\ flag_V cpu' = of_bool (negb ((-128 <=? signed) && (signed <=? 127))).
Proof.
  intros Ha Ho sum signed cpu'.
  assert (Hc : flag_C cpu = 0 \/ flag_C cpu = 1) by apply field_1_cases.
  assert (Er : u16 (u16 (A cpu) + u16 (operand cpu) + u16 (flag_C cpu)) = sum).
  { subst sum.
    rewrite (u16_small (A cpu)), (u16_small (operand cpu)),
      (u16_small (flag_C cpu)) by lia.
    apply u16_small. lia. }
  assert (Hsum : 0 <= sum < 512) by (subst sum; lia).
  pose proof (Z.div_mod sum 256 ltac:(lia)) as Dsum.
  pose proof (Z.mod_pos_bound sum 256 ltac:(lia)) as Bsum.
  split; [|split; [|split; [|split]]].
  - subst cpu'. unfold ADC. cbn [snd A set_A].
    unfold set_flag_V, set_flag_N, set_flag_Z, set_flag_C.
    cbn [A operand status set_status].
    fold (flag_C cpu). rewrite Er, land_FF_mod. apply u8_small. lia.
  - subst cpu'. unfold ADC, flag_C at 1, set_flag_V, set_flag_N, set_flag_Z,
      set_flag_C.
    cbn [snd status set_status set_A A operand].
    fold (flag_C cpu). rewrite Er. read_flags.
    rewrite to_flag_low_bit, to_flag_of_bool. f_equal.
    destruct (Z.ltb_spec 255 sum), (Z.leb_spec 256 sum); lia.
  - subst cpu'. unfold ADC, flag_Z, set_flag_V, set_flag_N, set_flag_Z,
      set_flag_C.
    cbn [snd status set_status set_A A operand].
    fold (flag_C cpu). rewrite Er. read_flags.
    now rewrite to_flag_low_bit, to_flag_of_bool, land_FF_mod.
  - subst cpu'. unfold ADC, flag_N, set_flag_V, set_flag_N, set_flag_Z,
      set_flag_C.
    cbn [snd status set_status set_A A operand].
    fold (flag_C cpu). rewrite Er. read_flags.
    now rewrite to_flag_low_bit, to_flag_of_bool, sign_test, bit7_mod.
  - subst cpu'. rewrite ADC_flag_V. cbv zeta. rewrite Er.
    rewrite !u16_small by lia. rewrite overflow_test.
    rewrite (bit7_byte (A cpu)), (bit7_byte (operand cpu)), bit7_mod by lia.
    f_equal. subst signed. rewrite !s8_byte by lia.
    destruct (Z.leb_spec 128 (A cpu)), (Z.leb_spec 128 (operand cpu)),
      (Z.leb_spec 128 (sum mod 256));
      cbn [xorb negb andb];
      match goal with
      | |- _ = negb ((?a <=? ?b) && (?x <=? ?y)) =>
          destruct (Z.leb_spec a b), (Z.leb_spec x y)
      end; cbn [negb andb]; try reflexivity; exfalso; subst sum; lia.
Qed.

Lemma ADC_arithmetic_witness :
  let sum := A cpu_minus_128 + operand cpu_minus_128 + flag_C cpu_minus_128 in
  let signed := s8 (A cpu_minus_128) + s8 (operand cpu_minus_128)
                + flag_C cpu_minus_128 in
  let cpu' := snd (@ADC flat unsigned_flags cpu_minus_128 false) in
  A cpu' = sum mod 256
  /\ flag_C cpu' = of_bool (256 <=? sum)
  /\ flag_Z cpu' = of_bool (sum mod 256 =? 0)
  /\ flag_N cpu' = of_bool (128 <=? sum mod 256)
  /\ flag_V cpu' = of_bool (negb ((-128 <=? signed) && (signed <=? 127))).
Proof.
  apply (@ADC_arithmetic flat flat_cpu_bus unsigned_flags cpu_minus_128 false);
    [change (0 <= 0x80 < 256) | change (0 <= 0x01 < 256)]; lia.
Defined.

Lemma lxor_FF d : 0 <= d < 256 -> Z.lxor d 0x00FF = 255 - d.
Proof.
  intros Hd.
  assert (Hdisj : Z.land d (Z.lxor d 0x00FF) = 0).
  { change 0x00FF with (Z.ones 8). bit_fast.
    all: try (rewrite (testbit_above 8 d) by lia; reflexivity).
    all: destruct (Z.testbit d i); reflexivity. }
  pose proof (Z.add_nocarry_lxor _ _ Hdisj) as E.
  rewrite <- Z.lxor_assoc in E.
  rewrite Z.lxor_nilpotent, Z.lxor_0_l in E. lia.
Qed.

(** The sum [SBC] forms on bytes. *)
Lemma SBC_temp a o cf :
  0 <= a < 256 -> 0 <= o < 256 -> 0 <= cf <= 1 ->
  u16 (u16 a + u16 (Z.lxor (u16 o) 0x00FF) + u16 cf) = a - o + 255 + cf.
Proof.
  intros Ha Ho Hc.
  rewrite (u16_small a), (u16_small o), (u16_small cf) by lia.
  rewrite lxor_FF by lia. rewrite (u16_small (255 - o)) by lia.
  rewrite u16_small by lia. lia.
Qed.

(** [SBC] on bytes is the subtraction of the 6502, the overflow flag
    apart: the accumulator takes the low byte of [A - operand - (1 - C)],
    [C] is set when there is no borrow, [Z] and [N] tell whether that byte
    is zero or negative. *)
Theorem SBC_arithmetic {B} `{FlagStore} (cpu : State6502 B) (c : bool) :
  0 <= A cpu < 256 -> 0 <= operand cpu < 256 ->
  let diff := A cpu - operand cpu - (1 - flag_C cpu) in
  let cpu' := snd (SBC cpu c) in
  A cpu' = diff mod 256
  /\ flag_C cpu' = of_bool (0 <=? diff)
  /\ flag_Z cpu' = of_bool (diff mod 256 =? 0)
  /\ flag_N cpu' = of_bool (128 <=? diff mod 256).
Proof.
  intros Ha Ho diff cpu'.
  assert (Hc : flag_C cpu = 0 \/ flag_C cpu = 1) by apply field_1_cases.
  pose proof (SBC_temp (A cpu) (operand cpu) (flag_C cpu) Ha Ho ltac:(lia))
    as Et.
  assert (Ed : A cpu - operand cpu + 255 + flag_C cpu = diff + 1 * 256)
    by (subst diff; lia).
  rewrite Ed in Et.
  assert (Em : (diff + 1 * 256) mod 256 = diff mod 256)
    by (apply Z.mod_add; lia).
  assert (Hd : -256 <= diff < 256) by (subst diff; lia).
  pose proof (Z.mod_pos_bound diff 256 ltac:(lia)) as Bd.
  subst cpu'. set (cf := flag_C cpu) in *.
  unfold SBC. fold cf. rewrite Et.
  unfold flag_C, flag_Z, flag_N, set_flag_V, set_flag_N, set_flag_Z,
    set_flag_C.
  cbn [snd status set_status set_A A operand].
  split; [|split; [|split]].
  - rewrite land_FF_mod, Em. apply u8_small. lia.
  - read_flags. rewrite to_flag_low_bit, to_flag_of_bool. f_equal.
    rewrite carry_tests_agree by lia.
    destruct (Z.ltb_spec 255 (diff + 1 * 256)), (Z.leb_spec 0 diff); lia.
  - read_flags.
    now rewrite to_flag_low_bit, to_flag_of_bool, land_FF_mod, Em.
  - read_flags.
    now rewrite to_flag_low_bit, to_flag_of_bool, sign_test, bit7_mod, Em.
Qed.

Lemma SBC_arithmetic_witness :
  let diff := A cpu_minus_128 - operand cpu_minus_128
              - (1 - flag_C cpu_minus_128) in
  let cpu' := snd (@SBC flat unsigned_flags cpu_minus_128 false) in
  A cpu' = diff mod 256
  /\ flag_C cpu' = of_bool (0 <=? diff)
  /\ flag_Z cpu' = of_bool (diff mod 256 =? 0)
  /\ flag_N cpu' = of_bool (128 <=? diff mod 256).
Proof.
  apply (@SBC_arithmetic flat unsigned_flags cpu_minus_128 false);
    [change (0 <= 0x80 < 256) | change (0 <= 0x01 < 256)]; lia.
Defined.

(** [CMP] leaves in [C], [Z] and [N] what [SBC] with the carry set
    leaves there, as a comparison by subtraction should, and changes
    neither the accumulator nor [V]. *)
Theorem CMP_as_SBC {B} `{FlagStore} (cpu : State6502 B) (c : bool) :
  0 <= A cpu < 256 -> 0 <= operand cpu < 256 ->
  let cmp := snd (CMP cpu c) in
  let sbc := snd (SBC (set_flag_C 1 cpu) c) in
  flag_C cmp = flag_C sbc /\ flag_Z cmp = flag_Z sbc
  /\ flag_N cmp = flag_N sbc
  /\ A cmp = A cpu /\ flag_V cmp = flag_V cpu
  /\ fst (CMP cpu c) = fst (SBC (set_flag_C 1 cpu) c).
Proof.
  intros Ha Ho cmp sbc.
  assert (E1 : flag_C (set_flag_C 1 cpu) = 1).
  { unfold flag_C, set_flag_C. cbn [status set_status].
    rewrite field_set_field by lia. now rewrite to_flag_low_bit, to_flag_1. }
  pose proof (SBC_temp (A cpu) (operand cpu) 1 Ha Ho ltac:(lia)) as Et.
  replace (A cpu - operand cpu + 255 + 1)
    with (A cpu - operand cpu + 1 * 256) in Et by lia.
  assert (Em : (A cpu - operand cpu + 1 * 256) mod 256
               = (A cpu - operand cpu) mod 256) by (apply Z.mod_add; lia).
  assert (Eu : u16 (u16 (A cpu) - u16 (operand cpu)) mod 256
               = (A cpu - operand cpu) mod 256).
  { rewrite (u16_small (A cpu)), (u16_small (operand cpu)) by lia.
    unfold u16. apply Z.mod_mod_divide. exists 256. reflexivity. }
  subst cmp sbc. unfold SBC.
  change (A (set_flag_C 1 cpu)) with (A cpu).
  change (operand (set_flag_C 1 cpu)) with (operand cpu).
  rewrite E1, Et.
  unfold CMP, compare, flag_Z, flag_N, flag_V, flag_C,
    set_flag_N, set_flag_Z, set_flag_V, set_flag_C.
  cbn [fst snd status set_status set_A A operand].
  repeat split; read_flags;
    rewrite ?to_flag_low_bit, ?to_flag_of_bool; try reflexivity.
  - f_equal. rewrite carry_tests_agree by lia.
    destruct (Z.leb_spec (operand cpu) (A cpu)),
      (Z.ltb_spec 255 (A cpu - operand cpu + 1 * 256)); lia.
  - f_equal. rewrite land_FF_mod, Em.
    destruct (Z.eqb_spec (A cpu) (operand cpu)) as [E|E].
    + rewrite E, Z.sub_diag. reflexivity.
    + symmetry. apply Z.eqb_neq. intros K.
      destruct (Z.le_gt_cases (operand cpu) (A cpu)).
      * rewrite Z.mod_small in K by lia. lia.
      * rewrite <- Em, Z.mod_small in K by lia. lia.
  - f_equal. now rewrite !sign_test, !bit7_mod, Eu, Em.
Qed.

Lemma CMP_as_SBC_witness :
  let cmp := snd (@CMP flat unsigned_flags cpu_minus_128 false) in
  let sbc := snd (@SBC flat unsigned_flags
                    (@set_flag_C flat unsigned_flags 1 cpu_minus_128) false) in
  flag_C cmp = flag_C sbc /\ flag_Z cmp = flag_Z sbc
  /\ flag_N cmp = flag_N sbc
  /\ A cmp = A cpu_minus_128 /\ flag_V cmp = flag_V cpu_minus_128
  /\ fst (@CMP flat unsigned_flags cpu_minus_128 false)
     = fst (@SBC flat unsigned_flags
            (@set_flag_C flat unsigned_flags 1 cpu_minus_128) false).
Proof.
  apply (@CMP_as_SBC flat unsigned_flags cpu_minus_128 false);
    [change (0 <= 0x80 < 256) | change (0 <= 0x01 < 256)]; lia.
Defined.

End CpuMoreFacts.

(** ** More on the CPU bus *)

Section CpuBusMoreFacts.
Import CpuBus Fixtures.

Lemma store_load {B M} (bus bus' : Bus6502 B M) i j d :
  store i d bus = Some bus' ->
  0 <= j ->
  load j bus' = if i =? j then Some d else load j bus.
Proof.
  unfold store, load. intros E Hj.
  destruct (Z.leb_spec 0 i) as [Hi|Hi]; [|discriminate E].
  destruct (Z.ltb_spec i (Z.of_nat (length (memory bus)))) as [Hl|Hl];
    [|discriminate E].
  cbn [andb] in E. injection E as <-. cbn [memory set_memory].
  replace (0 <=? j) with true by (symmetry; apply Z.leb_le; lia).
  destruct (Z.eqb_spec i j) as [<-|Hne].
  - apply list_lookup_insert_eq. lia.
  - apply list_lookup_insert_ne. lia.
Qed.

(** The work RAM as the bus gives it: the range [0x0000..0x1FFF] is two
    cells, chosen by bit 11 of the address.  After a write that returns, a
    read anywhere in the range returns the byte written if the two
    addresses agree on bit 11, and otherwise what it returned before. *)
Theorem cpu_bus_ram_two_cells {B M} (bus bus' : Bus6502 B M) (a1 a2 d : Z) :
  0 <= a1 < 0x2000 -> 0 <= a2 < 0x2000 ->
  cpu_bus_write bus a1 d = Some bus' ->
  cpu_bus_read bus' a2
  = if Z.land a1 0x0800 =? Z.land a2 0x0800 then Some (d, bus')
    else (r ← cpu_bus_read bus a2; Some (fst r, bus')).
Proof.
  intros H1 H2 E.
  rewrite cpu_bus_write_ram in E by assumption.
  rewrite !cpu_bus_read_ram by assumption.
  rewrite (store_load bus bus' _ (Z.land a2 0x0800) d E)
    by (apply Z.land_nonneg; lia).
  destruct (Z.land a1 0x0800 =? Z.land a2 0x0800); [reflexivity|].
  now destruct (load (Z.land a2 0x0800) bus).
Qed.

Lemma cpu_bus_ram_two_cells_witness :
  exists bus',
    cpu_bus_write bus0 0x0123 0x5A = Some bus'
    /\ cpu_bus_read bus' 0x07FF
       = if Z.land 0x0123 0x0800 =? Z.land 0x07FF 0x0800 then Some (0x5A, bus')
         else (r ← cpu_bus_read bus0 0x07FF; Some (fst r, bus')).
Proof.
  eexists. split; [reflexivity|].
  apply (cpu_bus_ram_two_cells bus0 _ 0x0123 0x07FF 0x5A);
    [lia | lia | reflexivity].
Defined.

(** A write in the RAM range returns exactly when the index
    [addr & 0x0800] lies inside the array [memory]: with bit 11 clear it
    needs one byte of memory, with bit 11 set it needs 2049. *)
Theorem cpu_bus_write_ram_defined {B M} (bus : Bus6502 B M) (a d : Z) :
  0 <= a < 0x2000 ->
  is_Some (cpu_bus_write bus a d)
  <-> (if Z.testbit a 11 then 0x0800 else 0) < Z.of_nat (length (memory bus)).
Proof.
  intros Ha. rewrite cpu_bus_write_ram by assumption.
  assert (E : Z.land a 0x0800 = if Z.testbit a 11 then 0x0800 else 0).
  { change 0x0800 with (Z.shiftl (Z.ones 1) 11).
    destruct (Z.testbit a 11) eqn:Eb; bit_fast.
    all: try (replace i with 11 by lia; rewrite Eb; reflexivity).
    all: try apply andb_false_r. }
  rewrite E. unfold store.
  set (i := if Z.testbit a 11 then 0x0800 else 0).
  assert (Hi : 0 <= i) by (subst i; destruct (Z.testbit a 11); lia).
  replace (0 <=? i) with true by (symmetry; apply Z.leb_le; lia).
  cbn [andb].
  destruct (Z.ltb_spec i (Z.of_nat (length (memory bus)))) as [Hl|Hl].
  - split; [intros _; exact Hl | intros _; eexists; reflexivity].
  - split; [intros [x Hx]; discriminate Hx | lia].
Qed.

Lemma cpu_bus_write_ram_defined_witness :
  is_Some (cpu_bus_write bus0 0x0801 0x11)
  <-> (if Z.testbit 0x0801 11 then 0x0800 else 0)
      < Z.of_nat (length (memory bus0)).
Proof. apply (cpu_bus_write_ram_defined bus0 0x0801 0x11). lia. Defined.



End CpuBusMoreFacts.
